(** * Daladan platform: escrow settlement and audit trail

    A shallow embedding of [backend/routers/escrow.py], [backend/audit.py],
    [backend/schemas/escrow.py] and the parts of [backend/models.py] they use,
    together with the properties of the settlement ([release_escrow]) and of
    the audit listeners.

    Conventions of the embedding.
    - Python [Decimal] values are pairs (coefficient, exponent) with the
      arithmetic of the default context (28 digits, ROUND_HALF_EVEN).
    - Python [float] values are IEEE-754 binary64 numbers ([spec_float]).
    - A table is a finite map from its primary key (a UUID) to its row.
    - The request handler is a function over an explicit session state; an
      exception is a value, and leaving [session.begin()] on an exception
      restores the rows the session saw when the block was entered.
    - One request is run in isolation: row locks ([with_for_update]) have no
      effect on a single sequential execution and are not represented.
    - The session holds the objects it loaded, with the [Decimal] values the
      code assigned; a flush writes them to the table, where a
      [Numeric(12, 2)] column stores the value rounded to the cent (ties away
      from zero, as PostgreSQL does) or refuses it when it does not fit. *)

From Stdlib Require Import ZArith QArith Lia Bool List Ascii String.
From Stdlib Require Import Floats.SpecFloat.
From stdpp Require Import base option list gmap strings pretty fin_maps.

Local Open Scope Z_scope.

(** ** Python's [decimal.Decimal] (finite values, default context) *)

Module Decimal.

(** [Dec c e] is the number [c * 10^e]; [Decimal("0.90")] is [Dec 90 (-2)]. *)
Record t := Dec { coef : Z; exp : Z }.

(** [getcontext().prec] *)
Definition prec : Z := 28.

(** Number of digits by which [n] exceeds the context precision: the least
    [s >= 0] with [n < 10^(prec+s)]. *)
Fixpoint excess_digits (fuel : nat) (n s : Z) : Z :=
  match fuel with
  | O => s
  | S fuel' =>
      if n <? 10 ^ (prec + s) then s else excess_digits fuel' n (s + 1)
  end.

(** ROUND_HALF_EVEN of the non-negative quotient [n / d]. *)
Definition round_half_even (n d : Z) : Z :=
  let q := n / d in
  let r := n mod d in
  if (d <? 2 * r) || ((2 * r =? d) && Z.odd q) then q + 1 else q.

(** [Decimal._fix]: round the coefficient to the context precision. *)
Definition fix_ (d : t) : t :=
  let n := Z.abs (coef d) in
  let s := excess_digits (Z.to_nat (Z.log2 n + 1)) n 0 in
  if s =? 0 then d
  else
    let q := round_half_even n (10 ^ s) in
    if q =? 10 ^ prec
    then Dec (Z.sgn (coef d) * 10 ^ (prec - 1)) (exp d + s + 1)
    else Dec (Z.sgn (coef d) * q) (exp d + s).

(** [a * b] *)
Definition mul (a b : t) : t :=
  fix_ (Dec (coef a * coef b) (exp a + exp b)).

(** [a + b]: the operands are aligned on the smaller exponent. *)
Definition add (a b : t) : t :=
  let e := Z.min (exp a) (exp b) in
  fix_ (Dec (coef a * 10 ^ (exp a - e) + coef b * 10 ^ (exp b - e)) e).

(** [a == b] (numeric comparison: [Decimal("1.0") == Decimal("1.00")]). *)
Definition eqb (a b : t) : bool :=
  let e := Z.min (exp a) (exp b) in
  coef a * 10 ^ (exp a - e) =? coef b * 10 ^ (exp b - e).

(** [a <= b] *)
Definition leb (a b : t) : bool :=
  let e := Z.min (exp a) (exp b) in
  coef a * 10 ^ (exp a - e) <=? coef b * 10 ^ (exp b - e).

(** [bool(a)]: a Decimal is falsy exactly when it is zero. *)
Definition truthy (a : t) : bool := negb (coef a =? 0).

(** [a or b] *)
Definition or_ (a b : t) : t := if truthy a then a else b.

(** The rational number a Decimal denotes. *)
Definition value (a : t) : Q := inject_Z (coef a) * Qpower (10 # 1) (exp a).

(** The values a [Numeric(12, 2)] column holds: two decimal places and at
    most twelve digits. *)
Definition numeric_12_2 (a : t) : Prop :=
  exp a = -2 /\ Z.abs (coef a) < 10 ^ 12.

(** [a] rounded to two decimal places, ties away from zero: the rounding
    of the PostgreSQL type [numeric] to the scale of its column. *)
Definition round_cents (a : t) : t :=
  if -2 <=? exp a then Dec (coef a * 10 ^ (exp a + 2)) (-2)
  else
    let p := 10 ^ (- 2 - exp a) in
    Dec (Z.sgn (coef a) * ((Z.abs (coef a) + p / 2) / p)) (-2).

(** What a [Numeric(12, 2)] column stores when [a] is written to it: the
    rounded value, or nothing (the statement fails with "numeric field
    overflow") when that needs more than ten digits before the point. *)
Definition store_numeric_12_2 (a : t) : option t :=
  let r := round_cents a in
  if Z.abs (coef r) <? 10 ^ 12 then Some r else None.

(** [float(a)]: the binary64 number nearest to [a] (ties to even). *)
Definition to_float (a : t) : spec_float :=
  let conv (neg : bool) (p : positive) :=
    if 0 <=? exp a
    then binary_normalize 53 1024 (cond_Zopp neg (Zpos p * 10 ^ exp a)) 0 neg
    else SFdiv 53 1024 (S754_finite neg p 0)
                       (S754_finite false (Z.to_pos (10 ^ (- exp a))) 0) in
  match coef a with
  | Z0 => S754_zero false
  | Zpos p => conv false p
  | Zneg p => conv true p
  end.

End Decimal.

Abbreviation Decimal := Decimal.t.
Abbreviation Dec := Decimal.Dec.

(** ** Python [float] *)

Abbreviation float := spec_float.

(** [float(n)] for an integer [n]. *)
Definition float_of_int (n : Z) : float := binary_normalize 53 1024 n 0 false.

(** [str(n)] for an integer [n]. *)
Definition str_int (n : Z) : string := pretty n.

(** [s.zfill(w)] for a string of digits. *)
Definition zfill (w : nat) (s : string) : string :=
  String.concat "" (replicate (w - String.length s) "0"%string) +:+ s.

(** [format(x, ".2f")]: the exact binary value is rounded to two decimal
    places, ties to even. *)
Definition format_2f (x : float) : string :=
  let render (neg : bool) (cents : Z) : string :=
    (if neg then "-" else "") +:+ str_int (cents / 100) +:+ "."
      +:+ zfill 2 (str_int (cents mod 100)) in
  match x with
  | S754_zero neg => render neg 0
  | S754_infinity neg => (if neg then "-" else "") +:+ "inf"
  | S754_nan => "nan"
  | S754_finite neg m e =>
      render neg
        (if 0 <=? e then Zpos m * 100 * 2 ^ e
         else Decimal.round_half_even (Zpos m * 100) (2 ^ (- e)))
  end.

(** ** Identifiers and timestamps *)

(** [uuid.UUID]: a 128-bit integer. *)
Abbreviation uuid := N.

Definition hex_digit (n : N) : ascii :=
  match n with
  | 0 => "0" | 1 => "1" | 2 => "2" | 3 => "3" | 4 => "4" | 5 => "5"
  | 6 => "6" | 7 => "7" | 8 => "8" | 9 => "9" | 10 => "a" | 11 => "b"
  | 12 => "c" | 13 => "d" | 14 => "e" | _ => "f"
  end%N%char.

Fixpoint hex_fixed (w : nat) (n : N) (acc : string) : string :=
  match w with
  | O => acc
  | S w' => hex_fixed w' (n / 16)%N (String (hex_digit (n mod 16)%N) acc)
  end.

(** [str(u)]: 32 hexadecimal digits in groups of 8-4-4-4-12. *)
Definition str_uuid (u : uuid) : string :=
  let h := hex_fixed 32 u "" in
  substring 0 8 h +:+ "-" +:+ substring 8 4 h +:+ "-" +:+ substring 12 4 h
    +:+ "-" +:+ substring 16 4 h +:+ "-" +:+ substring 20 12 h.

(** [datetime.datetime] (naive, as returned by [datetime.utcnow()]). *)
Record datetime := {
  year : Z; month : Z; day : Z;
  hour : Z; minute : Z; second : Z; microsecond : Z
}.

(** [t.isoformat()] *)
Definition isoformat (t : datetime) : string :=
  zfill 4 (str_int (year t)) +:+ "-" +:+ zfill 2 (str_int (month t)) +:+ "-"
    +:+ zfill 2 (str_int (day t)) +:+ "T" +:+ zfill 2 (str_int (hour t))
    +:+ ":" +:+ zfill 2 (str_int (minute t)) +:+ ":"
    +:+ zfill 2 (str_int (second t))
    +:+ (if microsecond t =? 0 then ""
         else "." +:+ zfill 6 (str_int (microsecond t))).

#[global] Instance datetime_eq_dec : EqDecision datetime.
Proof. solve_decision. Defined.

#[global] Instance Decimal_eq_dec : EqDecision Decimal.
Proof. solve_decision. Defined.

(** ** Enumerations of [backend/models.py] *)

Inductive UserRole := PRODUCER | DRIVER | RETAILER | ADMIN.

Module DealStatus.
Inductive t := NEGOTIATING | AGREED | IN_TRANSIT | DELIVERED | CANCELLED.
Definition value (s : t) : string :=
  match s with
  | NEGOTIATING => "negotiating" | AGREED => "agreed"
  | IN_TRANSIT => "in_transit" | DELIVERED => "delivered"
  | CANCELLED => "cancelled"
  end.
End DealStatus.

Module ShipmentStatus.
Inductive t := PENDING | LOADING | IN_TRANSIT | DELIVERED.
Definition value (s : t) : string :=
  match s with
  | PENDING => "pending" | LOADING => "loading"
  | IN_TRANSIT => "in_transit" | DELIVERED => "delivered"
  end.
#[global] Instance eq_dec : EqDecision t.
Proof. solve_decision. Defined.
End ShipmentStatus.

Module EscrowStatus.
Inductive t := HELD | RELEASED | FUNDS_RELEASED | REFUNDED | DISPUTED.
Definition value (s : t) : string :=
  match s with
  | HELD => "held" | RELEASED => "released"
  | FUNDS_RELEASED => "funds_released" | REFUNDED => "refunded"
  | DISPUTED => "disputed"
  end.
#[global] Instance eq_dec : EqDecision t.
Proof. solve_decision. Defined.
End EscrowStatus.

(** ** [backend/audit.py]: serialization, diff and snapshot *)

(** The Python values held by the mapped attributes of the audited models. *)
Inductive value :=
| VNone
| VUuid (u : uuid)
| VDecimal (d : Decimal)
| VDatetime (t : datetime)
| VEnum (symbolic : string)     (* an enum member, by its [.value] *)
| VStr (s : string)
| VInt (n : Z).

(** The JSON-serializable values [_serialize_value] returns. *)
Inductive json :=
| JNull
| JString (s : string)
| JFloat (f : float).

Definition is_float (j : json) : bool :=
  match j with JFloat _ => true | _ => false end.

(** [x == y] on attribute values (what the ORM uses to compare an attribute's
    new value with its loaded one). *)
Definition value_eqb (x y : value) : bool :=
  match x, y with
  | VNone, VNone => true
  | VUuid a, VUuid b => bool_decide (a = b)
  | VDecimal a, VDecimal b => Decimal.eqb a b
  | VDatetime a, VDatetime b => bool_decide (a = b)
  | VEnum a, VEnum b => bool_decide (a = b)
  | VStr a, VStr b => bool_decide (a = b)
  | VInt a, VInt b => bool_decide (a = b)
  | _, _ => false
  end.

(** [_serialize_value], audit.py:19-31. *)
Definition _serialize_value (v : value) : json :=
  match v with
  | VNone => JNull
  | VUuid u => JString (str_uuid u)
  | VDecimal d => JFloat (Decimal.to_float d)
  | VDatetime t => JString (isoformat t)
  | VEnum symbolic => JString symbolic
  | VStr s => JString s
  | VInt n => JString (str_int n)
  end.

(** What the ORM knows about one mapped attribute of a loaded instance: its
    current value and, when the attribute was assigned since the last flush,
    the value it had before the first assignment ([committed_state]). *)
Record Attribute := {
  key : string;
  is_column : bool;
  committed : option value;
  current : value
}.

(** [attr.history]: the (added, unchanged, deleted) triple of a scalar
    attribute. An assignment of a value equal to the loaded one is no change. *)
Record History := {
  added : list value;
  unchanged : list value;
  deleted : list value
}.

Definition history (a : Attribute) : History :=
  match committed a with
  | None => {| added := []; unchanged := [current a]; deleted := [] |}
  | Some original =>
      if value_eqb (current a) original
      then {| added := []; unchanged := [current a]; deleted := [] |}
      else {| added := [current a]; unchanged := []; deleted := [original] |}
  end.

(** [hist.has_changes()] *)
Definition has_changes (h : History) : bool :=
  match added h, deleted h with
  | [], [] => false
  | _, _ => true
  end.

Module InstanceState.
(** [inspect(instance)]: the primary key and the mapped attributes. *)
Record t := { id : uuid; attrs : list Attribute }.
End InstanceState.

(** One entry of the diff: [{"old": ..., "new": ...}]. *)
Record Change := { old : json; new : json }.

(** [hist.deleted[0] if hist.deleted else None] *)
Definition first_or_None (l : list value) : value :=
  match l with
  | v :: _ => v
  | [] => VNone
  end.

(** [_get_changes], audit.py:34-52. *)
Definition _get_changes (instance : InstanceState.t) : gmap string Change :=
  foldl
    (fun changes attr =>
       let hist := history attr in
       if has_changes hist then
         let old_val := first_or_None (deleted hist) in
         let new_val := first_or_None (added hist) in
         <[ key attr := {| old := _serialize_value old_val;
                           new := _serialize_value new_val |} ]> changes
       else changes)
    ∅ (InstanceState.attrs instance).

(** [_get_snapshot], audit.py:55-62. *)
Definition _get_snapshot (instance : InstanceState.t) : gmap string json :=
  foldl
    (fun snapshot attr =>
       <[ key attr := _serialize_value (current attr) ]> snapshot)
    ∅ (filter (fun attr => is_column attr = true)
              (InstanceState.attrs instance)).

Module AuditLog.
(** A row of [audit_logs]. [changes] and [snapshot] are the JSON documents
    handed to [json.dumps]; the generated [id] and [created_at] play no role
    here. *)
Record t := {
  action : string;
  table_name : string;
  record_id : string;
  changes : gmap string Change;
  snapshot : gmap string json
}.
End AuditLog.

(** Exceptions that reach, or are raised by, the code under study. *)
Inductive Exception :=
| HTTPException (status_code : Z) (detail : string)
| MultipleResultsFound      (* [scalar_one_or_none], [scalar_one] *)
| NoResultFound             (* [scalar_one] *)
| InvalidRequestError       (* [Session.begin] *)
| ValueError                (* [bcrypt.checkpw] on a malformed hash *)
| AttributeError            (* [None.value] *)
| DBAPIError.               (* a statement the database refuses *)

(** The [try] block of [_write_audit_log]: a session of its own inserts the
    entry and commits; [fault] is the exception that session raises, if any. *)
Definition audit_session_add (fault : option Exception) (log_entry : AuditLog.t)
    (audit_logs : list AuditLog.t) : (Exception + unit) * list AuditLog.t :=
  match fault with
  | Some exc => (inl exc, audit_logs)
  | None => (inr tt, audit_logs ++ [log_entry])
  end.

(** [_write_audit_log], audit.py:65-93. The coroutine returns [None] on both
    paths: [except Exception] logs the error and swallows it. *)
Definition _write_audit_log (fault : option Exception)
    (action table_name record_id : string)
    (changes : gmap string Change) (snapshot : gmap string json)
    (audit_logs : list AuditLog.t) : unit * list AuditLog.t :=
  let log_entry :=
    {| AuditLog.action := action; AuditLog.table_name := table_name;
       AuditLog.record_id := record_id; AuditLog.changes := changes;
       AuditLog.snapshot := snapshot |} in
  match audit_session_add fault log_entry audit_logs with
  | (inr _, audit_logs') => (tt, audit_logs')     (* logger.info *)
  | (inl exc, audit_logs') => (tt, audit_logs')   (* logger.error *)
  end.

(** A coroutine [_write_audit_log(...)] handed to [loop.create_task]. *)
Record AuditTask := {
  task_action : string;
  task_table_name : string;
  task_record_id : string;
  task_changes : gmap string Change;
  task_snapshot : gmap string json
}.

(** The asyncio event loop as the listeners see it: [None] when no loop is
    running ([get_running_loop] raises [RuntimeError]), otherwise the tasks
    created so far. *)
Definition EventLoop := option (list AuditTask).

(** [loop = asyncio.get_running_loop(); loop.create_task(...)] inside
    [try ... except RuntimeError], where the handler only logs. *)
Definition create_task (task : AuditTask) (loop : EventLoop) : EventLoop :=
  match loop with
  | Some tasks => Some (tasks ++ [task])
  | None => None
  end.

(** The body shared by the two [after_insert] listeners. *)
Definition after_insert (table_name : string) (target : InstanceState.t)
    (loop : EventLoop) : EventLoop :=
  let snapshot := _get_snapshot target in
  create_task
    {| task_action := "INSERT"; task_table_name := table_name;
       task_record_id := str_uuid (InstanceState.id target);
       task_changes := ∅; task_snapshot := snapshot |}
    loop.

(** The body shared by the two [after_update] listeners. *)
Definition after_update (table_name : string) (target : InstanceState.t)
    (loop : EventLoop) : EventLoop :=
  let changes := _get_changes target in
  if decide (changes = ∅) then loop
  else
    let snapshot := _get_snapshot target in
    create_task
      {| task_action := "UPDATE"; task_table_name := table_name;
         task_record_id := str_uuid (InstanceState.id target);
         task_changes := changes; task_snapshot := snapshot |}
      loop.

(** [register_audit_listeners], audit.py:96-183. *)
Definition escrow_after_insert := after_insert "escrow_transactions".
Definition escrow_after_update := after_update "escrow_transactions".
Definition deal_after_insert := after_insert "deal_groups".
Definition deal_after_update := after_update "deal_groups".

(** The event loop runs a task: the coroutine body with the task's
    arguments. *)
Definition run_task (fault : option Exception) (task : AuditTask)
    (audit_logs : list AuditLog.t) : list AuditLog.t :=
  snd (_write_audit_log fault (task_action task) (task_table_name task)
         (task_record_id task) (task_changes task) (task_snapshot task)
         audit_logs).

(** ** Rows of [backend/models.py]

    The primary key [id] of a row is its key in the table. For [User] and
    [Shipment] only the columns the settlement reads or assigns are kept. *)

Module User.
Record t := {
  full_name : string;
  balance : Decimal;                    (* Numeric(12, 2), not null *)
  escrow_pin_hash : option string
}.
Definition set_balance (v : Decimal) (u : t) : t :=
  {| full_name := full_name u; balance := v;
     escrow_pin_hash := escrow_pin_hash u |}.
End User.

Module DealGroup.
Record t := {
  deal_number : Z;
  title : string;
  status : option DealStatus.t;         (* nullable, default NEGOTIATING *)
  seller_id : option uuid;
  buyer_id : option uuid;
  driver_id : option uuid;
  agreed_price_per_kg : option Decimal;
  agreed_quantity_kg : option Decimal;
  created_at : datetime;
  updated_at : datetime
}.
End DealGroup.

Module Shipment.
Record t := {
  deal_group_id : option uuid;
  status : ShipmentStatus.t;
  delivered_at : option datetime
}.
Definition set_status (v : ShipmentStatus.t) (r : t) : t :=
  {| deal_group_id := deal_group_id r; status := v;
     delivered_at := delivered_at r |}.
Definition set_delivered_at (v : option datetime) (r : t) : t :=
  {| deal_group_id := deal_group_id r; status := status r;
     delivered_at := v |}.
End Shipment.

Module EscrowTransaction.
Record t := {
  deal_group_id : uuid;
  amount : Decimal;                     (* Numeric(12, 2), not null *)
  currency : string;
  status : EscrowStatus.t;
  payer_id : option uuid;
  payee_id : option uuid;
  released_by_id : option uuid;
  idempotency_key : option string;      (* unique *)
  released_at : option datetime;
  created_at : datetime
}.
Definition set_status (v : EscrowStatus.t) (r : t) : t :=
  {| deal_group_id := deal_group_id r; amount := amount r;
     currency := currency r; status := v; payer_id := payer_id r;
     payee_id := payee_id r; released_by_id := released_by_id r;
     idempotency_key := idempotency_key r; released_at := released_at r;
     created_at := created_at r |}.
Definition set_released_at (v : option datetime) (r : t) : t :=
  {| deal_group_id := deal_group_id r; amount := amount r;
     currency := currency r; status := status r; payer_id := payer_id r;
     payee_id := payee_id r; released_by_id := released_by_id r;
     idempotency_key := idempotency_key r; released_at := v;
     created_at := created_at r |}.
Definition set_released_by_id (v : option uuid) (r : t) : t :=
  {| deal_group_id := deal_group_id r; amount := amount r;
     currency := currency r; status := status r; payer_id := payer_id r;
     payee_id := payee_id r; released_by_id := v;
     idempotency_key := idempotency_key r; released_at := released_at r;
     created_at := created_at r |}.
Definition set_idempotency_key (v : option string) (r : t) : t :=
  {| deal_group_id := deal_group_id r; amount := amount r;
     currency := currency r; status := status r; payer_id := payer_id r;
     payee_id := payee_id r; released_by_id := released_by_id r;
     idempotency_key := v; released_at := released_at r;
     created_at := created_at r |}.
End EscrowTransaction.

Definition opt_value {A} (inj : A -> value) (o : option A) : value :=
  match o with
  | Some a => inj a
  | None => VNone
  end.

(** The column attributes of an [EscrowTransaction], in mapper order. *)
Definition escrow_columns (pk : uuid) (r : EscrowTransaction.t)
  : list (string * value) :=
  [ ("id", VUuid pk);
    ("deal_group_id", VUuid (EscrowTransaction.deal_group_id r));
    ("amount", VDecimal (EscrowTransaction.amount r));
    ("currency", VStr (EscrowTransaction.currency r));
    ("status", VEnum (EscrowStatus.value (EscrowTransaction.status r)));
    ("payer_id", opt_value VUuid (EscrowTransaction.payer_id r));
    ("payee_id", opt_value VUuid (EscrowTransaction.payee_id r));
    ("released_by_id", opt_value VUuid (EscrowTransaction.released_by_id r));
    ("idempotency_key", opt_value VStr (EscrowTransaction.idempotency_key r));
    ("released_at", opt_value VDatetime (EscrowTransaction.released_at r));
    ("created_at", VDatetime (EscrowTransaction.created_at r)) ]%string.

(** The column attributes of a [DealGroup], in mapper order. *)
Definition deal_columns (pk : uuid) (r : DealGroup.t)
  : list (string * value) :=
  [ ("id", VUuid pk);
    ("deal_number", VInt (DealGroup.deal_number r));
    ("title", VStr (DealGroup.title r));
    ("status",
       opt_value (fun st => VEnum (DealStatus.value st)) (DealGroup.status r));
    ("seller_id", opt_value VUuid (DealGroup.seller_id r));
    ("buyer_id", opt_value VUuid (DealGroup.buyer_id r));
    ("driver_id", opt_value VUuid (DealGroup.driver_id r));
    ("agreed_price_per_kg",
       opt_value VDecimal (DealGroup.agreed_price_per_kg r));
    ("agreed_quantity_kg",
       opt_value VDecimal (DealGroup.agreed_quantity_kg r));
    ("created_at", VDatetime (DealGroup.created_at r));
    ("updated_at", VDatetime (DealGroup.updated_at r)) ]%string.

(** [getattr(row, k)] on the column list. *)
Fixpoint getattr (columns : list (string * value)) (k : string) : value :=
  match columns with
  | [] => VNone
  | (k', v) :: rest => if decide (k' = k) then v else getattr rest k
  end.

(** The instance state of a loaded row whose [committed_state] is [cs]. *)
Definition instance_state (pk : uuid) (columns : list (string * value))
    (cs : gmap string value) : InstanceState.t :=
  {| InstanceState.id := pk;
     InstanceState.attrs :=
       (fun kv => {| key := kv.1; is_column := true;
                     committed := cs !! kv.1; current := kv.2 |})
         <$> columns |}.

(** ** The flush of a modified instance

    What the ORM hands to [after_update]. An instance is loaded with the
    column values [loaded] and the code assigns to some of its attributes;
    [assignments] lists the assignments (attribute, value) in program
    order. *)

(** [setattr(instance, k, v)] on the column values. *)
Fixpoint setattr (k : string) (v : value) (columns : list (string * value))
  : list (string * value) :=
  match columns with
  | [] => []
  | (k', v') :: rest =>
      if decide (k' = k) then (k', v) :: rest
      else (k', v') :: setattr k v rest
  end.

(** The column values the instance holds after the assignments. *)
Definition assigned (assignments loaded : list (string * value))
  : list (string * value) :=
  foldl (fun columns kv => setattr kv.1 kv.2 columns) loaded assignments.

(** The [committed_state] of the instance: for each assigned attribute the
    value it had when it was first assigned, that is the loaded one. *)
Definition previous_values (assignments loaded : list (string * value))
  : gmap string value :=
  foldl
    (fun cs kv =>
       match cs !! kv.1 with
       | Some _ => cs
       | None => <[ kv.1 := getattr loaded kv.1 ]> cs
       end)
    ∅ assignments.

(** Some assigned attribute holds a value that differs from the loaded one:
    the flush emits an UPDATE for the row. *)
Definition net_change (assignments loaded : list (string * value)) : bool :=
  existsb
    (fun kv =>
       negb (value_eqb (getattr (assigned assignments loaded) kv.1)
               (getattr loaded kv.1)))
    assignments.

(** The row after the flush. The UPDATE, when there is one, also sets every
    column declared with [onupdate=datetime.utcnow] ([onupdate] lists them:
    [updated_at] for a [DealGroup], none for an [EscrowTransaction]) to the
    time of the flush, and the ORM copies that value into the instance
    without recording a previous value for it. The code is taken not to
    assign such a column itself. *)
Definition flushed (onupdate : list string) (now : datetime)
    (assignments loaded : list (string * value)) : list (string * value) :=
  let current := assigned assignments loaded in
  if net_change assignments loaded
  then foldl (fun columns k => setattr k (VDatetime now) columns) current
         onupdate
  else current.

(** The instance [after_update] receives. *)
Definition updated_instance (pk : uuid) (onupdate : list string)
    (now : datetime) (assignments loaded : list (string * value))
  : InstanceState.t :=
  instance_state pk (flushed onupdate now assignments loaded)
    (previous_values assignments loaded).

(** ** The store and the ORM session *)

Record Database := {
  users : gmap uuid User.t;
  deal_groups : gmap uuid DealGroup.t;
  escrow_transactions : gmap uuid EscrowTransaction.t;
  shipments : gmap uuid Shipment.t;
  audit_logs : list AuditLog.t
}.

Definition with_users (f : gmap uuid User.t -> gmap uuid User.t)
    (db : Database) : Database :=
  {| users := f (users db); deal_groups := deal_groups db;
     escrow_transactions := escrow_transactions db;
     shipments := shipments db; audit_logs := audit_logs db |}.

Definition with_escrow_transactions
    (f : gmap uuid EscrowTransaction.t -> gmap uuid EscrowTransaction.t)
    (db : Database) : Database :=
  {| users := users db; deal_groups := deal_groups db;
     escrow_transactions := f (escrow_transactions db);
     shipments := shipments db; audit_logs := audit_logs db |}.

Definition with_shipments
    (f : gmap uuid Shipment.t -> gmap uuid Shipment.t)
    (db : Database) : Database :=
  {| users := users db; deal_groups := deal_groups db;
     escrow_transactions := escrow_transactions db;
     shipments := f (shipments db); audit_logs := audit_logs db |}.

Definition with_audit_logs (f : list AuditLog.t -> list AuditLog.t)
    (db : Database) : Database :=
  {| users := users db; deal_groups := deal_groups db;
     escrow_transactions := escrow_transactions db;
     shipments := shipments db; audit_logs := f (audit_logs db) |}.

(** The event loop runs the tasks it was handed, each in a session of its
    own; [faults] gives, task by task, the exception that session raises. *)
Fixpoint run_tasks (faults : list (option Exception)) (tasks : list AuditTask)
    (db : Database) : Database :=
  match tasks with
  | [] => db
  | task :: rest =>
      run_tasks (tail faults) rest
        (with_audit_logs (run_task (default None (head faults)) task) db)
  end.

(** An [AsyncSession] during one request.
    - [rows]: the objects of the session. An ORM object is the row under its
      primary key, so two references to the same row are one object (the
      identity map); a query returns the object as it is in memory, with the
      values the code assigned.
    - [begun]: a transaction is open on the session.
    - [committed_state]: for each escrow object assigned to since the last
      flush, the previous values of the assigned attributes.
    - [dirty_users]: the user objects whose balance was assigned since the
      last flush.
    - [users_table]: the rows of [users] inside the transaction, as the
      UPDATEs flushed so far have stored them. The other tables store what
      the objects hold, so [rows] stands for them too.
    - [loop]: the event loop the listeners hand their tasks to. *)
Record Session := {
  rows : Database;
  begun : bool;
  committed_state : list (uuid * gmap string value);
  dirty_users : list uuid;
  users_table : gmap uuid User.t;
  loop : EventLoop
}.

(** The session [async_session()] opens on the store [db]. *)
Definition new_session (db : Database) (running : EventLoop) : Session :=
  {| rows := db; begun := false; committed_state := []; dirty_users := [];
     users_table := users db; loop := running |}.

Definition set_begun (b : bool) (s : Session) : Session :=
  {| rows := rows s; begun := b; committed_state := committed_state s;
     dirty_users := dirty_users s; users_table := users_table s;
     loop := loop s |}.

Definition set_rows (db : Database) (s : Session) : Session :=
  {| rows := db; begun := begun s; committed_state := committed_state s;
     dirty_users := dirty_users s; users_table := users_table s;
     loop := loop s |}.

(** Computations on a session that return or raise. *)
Definition M (A : Type) : Type := Session -> (Exception + A) * Session.

#[global] Instance M_ret : MRet M := fun A a s => (inr a, s).

#[global] Instance M_bind : MBind M := fun A B f m s =>
  match m s with
  | (inr a, s') => f a s'
  | (inl exc, s') => (inl exc, s')
  end.

Definition raise {A} (exc : Exception) : M A := fun s => (inl exc, s).

(** [state.committed_state.setdefault(k, previous)] for the object [pk]. *)
Fixpoint record_previous (pk : uuid) (k : string) (previous : value)
    (cs : list (uuid * gmap string value)) : list (uuid * gmap string value) :=
  match cs with
  | [] => [(pk, {[ k := previous ]})]
  | (pk', d) :: rest =>
      if decide (pk' = pk)
      then (pk', match d !! k with
                 | Some _ => d
                 | None => <[ k := previous ]> d
                 end) :: rest
      else (pk', d) :: record_previous pk k previous rest
  end.

(** The listeners a flush runs: [after_update] for each modified escrow.
    [DealGroup] rows are never assigned to by the code under study; [User]
    and [Shipment] have no listener. *)
Definition flush_events (escrows : gmap uuid EscrowTransaction.t)
    (cs : list (uuid * gmap string value)) (running : EventLoop) : EventLoop :=
  foldl
    (fun running entry =>
       match escrows !! entry.1 with
       | Some row =>
           escrow_after_update
             (instance_state entry.1 (escrow_columns entry.1 row) entry.2)
             running
       | None => running
       end)
    running cs.

(** The UPDATEs of the modified user objects:
    [UPDATE users SET balance = <object's balance> WHERE id = pk]. The
    column stores the balance rounded to the cent; the statement fails when
    the value does not fit the column ([None]). (The ORM emits no UPDATE
    for a balance assigned a value equal to the one it had; on a table of
    [Numeric(12, 2)] values, storing that value rounded changes nothing
    either.) *)
Fixpoint flush_users (dirty : list uuid) (objects table : gmap uuid User.t)
  : option (gmap uuid User.t) :=
  match dirty with
  | [] => Some table
  | pk :: rest =>
      match objects !! pk with
      | Some object =>
          match Decimal.store_numeric_12_2 (User.balance object) with
          | Some v =>
              flush_users rest objects (alter (User.set_balance v) pk table)
          | None => None
          end
      | None => flush_users rest objects table
      end
  end.

(** [session.flush()]: the pending UPDATEs are emitted inside the session's
    transaction, those of [users] first (the other tables refer to it), and
    the mapper events [after_insert] / [after_update] fire during the flush,
    before any commit. A statement the database refuses ends the flush with
    [DBAPIError]. The objects keep the values they hold: a flush does not
    reload them. *)
Definition flush : M unit := fun s =>
  match flush_users (dirty_users s) (users (rows s)) (users_table s) with
  | Some table =>
      (inr tt,
       {| rows := rows s; begun := true; committed_state := [];
          dirty_users := []; users_table := table;
          loop :=
            flush_events (escrow_transactions (rows s)) (committed_state s)
              (loop s) |})
  | None => (inl DBAPIError, s)
  end.

Definition get_rows : M Database := fun s => (inr (rows s), s).

(** [await session.execute(query)]: the session autoflushes (the session
    factory of database.py keeps the default [autoflush=True]), begins a
    transaction if none is open, and reads. A row that the session has
    already loaded is returned as the object in memory
    ([with_for_update] does not refresh it). *)
Definition execute {A} (query : Database -> A) : M A :=
  _ ← flush; db ← get_rows; mret (query db).

(** [select(T).where(where_)] *)
Definition select_where {R} (table : gmap uuid R) (where_ : R -> bool)
  : list (uuid * R) :=
  map_to_list (filter (fun kv => where_ kv.2 = true) table).

(** [select(T).where(T.id == pk)]: at most one row, none for [pk = None]. *)
Definition select_pk {R} (table : gmap uuid R) (pk : option uuid)
  : list (uuid * R) :=
  match pk with
  | Some k =>
      match table !! k with
      | Some r => [(k, r)]
      | None => []
      end
  | None => []
  end.

(** The [where] clauses of the queries on escrows:
    [EscrowTransaction.deal_group_id == deal_pk] and
    [EscrowTransaction.idempotency_key == k]. *)
Definition of_deal (deal_pk : uuid) (e : EscrowTransaction.t) : bool :=
  bool_decide (EscrowTransaction.deal_group_id e = deal_pk).

Definition with_key (k : option string) (e : EscrowTransaction.t) : bool :=
  bool_decide (EscrowTransaction.idempotency_key e = k).

Definition scalar_one_or_none {R} (result : list R) : M (option R) :=
  match result with
  | [] => mret None
  | [r] => mret (Some r)
  | _ => raise MultipleResultsFound
  end.

Definition scalar_one {R} (result : list R) : M R :=
  match result with
  | [] => raise NoResultFound
  | [r] => mret r
  | _ => raise MultipleResultsFound
  end.

(** [escrow.<k> = v] on the escrow object [pk]. *)
Definition escrow_setattr (pk : uuid) (k : string)
    (set : EscrowTransaction.t -> EscrowTransaction.t) : M unit := fun s =>
  match escrow_transactions (rows s) !! pk with
  | Some row =>
      (inr tt,
       {| rows := with_escrow_transactions (insert pk (set row)) (rows s);
          begun := begun s;
          committed_state :=
            record_previous pk k (getattr (escrow_columns pk row) k)
              (committed_state s);
          dirty_users := dirty_users s; users_table := users_table s;
          loop := loop s |})
  | None => (inr tt, s)
  end.

(** [user.balance = v] on the user object [pk]: the object holds [v] as it
    is and is marked modified. *)
Definition user_set_balance (pk : uuid) (v : Decimal) : M unit := fun s =>
  (inr tt,
   {| rows := with_users (alter (User.set_balance v) pk) (rows s);
      begun := begun s; committed_state := committed_state s;
      dirty_users := dirty_users s ++ [pk]; users_table := users_table s;
      loop := loop s |}).

(** [shipment.<attr> = v] on the shipment object [pk]. *)
Definition shipment_setattr (pk : uuid) (set : Shipment.t -> Shipment.t)
  : M unit := fun s =>
  (inr tt, set_rows (with_shipments (alter set pk) (rows s)) s).

(** ** [backend/schemas/escrow.py] *)

Module EscrowReleaseRequest.
Record t := {
  deal_id : uuid;
  pin : string;
  idempotency_key : option string
}.
End EscrowReleaseRequest.

Module BalanceCredit.
Record t := {
  user_id : string;
  user_name : string;
  role : string;
  amount : float;
  percentage : float
}.
End BalanceCredit.

Module EscrowReleaseResponse.
Record t := {
  status : string;
  deal_number : Z;
  deal_title : string;
  escrow_id : string;
  amount : float;
  currency : string;
  producer_credit : BalanceCredit.t;
  driver_credit : BalanceCredit.t;
  released_at : datetime;
  idempotency_key : option string;
  message : string
}.
End EscrowReleaseResponse.

Module EscrowStatusResponse.
Record t := {
  escrow_id : string;
  deal_number : Z;
  amount : float;
  currency : string;
  status : string;
  payer : option string;
  payee : option string;
  created_at : datetime;
  released_at : option datetime
}.
End EscrowStatusResponse.

(** ** [backend/routers/escrow.py] *)

Definition PRODUCER_SHARE : Decimal := Dec 90 (-2).   (* Decimal("0.90") *)
Definition DRIVER_SHARE : Decimal := Dec 10 (-2).     (* Decimal("0.10") *)

(** Truth value of an [Optional[str]]: [None] and the empty string are
    falsy. *)
Definition str_truthy (o : option string) : bool :=
  match o with
  | Some s => negb (bool_decide (s = ""%string))
  | None => false
  end.

(** [producer_amount = escrow.amount * PRODUCER_SHARE], escrow.py:237. *)
Definition producer_amount (escrow_amount : Decimal) : Decimal :=
  Decimal.mul escrow_amount PRODUCER_SHARE.

(** [driver_amount = escrow.amount * DRIVER_SHARE], escrow.py:253. *)
Definition driver_amount (escrow_amount : Decimal) : Decimal :=
  Decimal.mul escrow_amount DRIVER_SHARE.

(** The response of the replay branch, escrow.py:113-135. *)
Definition replay_response (request : EscrowReleaseRequest.t)
    (deal : DealGroup.t) (existing_pk : uuid)
    (existing_escrow : EscrowTransaction.t) (utcnow : datetime)
  : EscrowReleaseResponse.t :=
  {| EscrowReleaseResponse.status := "funds_released";
     EscrowReleaseResponse.deal_number := DealGroup.deal_number deal;
     EscrowReleaseResponse.deal_title := DealGroup.title deal;
     EscrowReleaseResponse.escrow_id := str_uuid existing_pk;
     EscrowReleaseResponse.amount :=
       Decimal.to_float (EscrowTransaction.amount existing_escrow);
     EscrowReleaseResponse.currency :=
       EscrowTransaction.currency existing_escrow;
     EscrowReleaseResponse.producer_credit :=
       {| BalanceCredit.user_id := "cached";
          BalanceCredit.user_name := "cached";
          BalanceCredit.role := "producer";
          BalanceCredit.amount :=
            Decimal.to_float
              (Decimal.mul (EscrowTransaction.amount existing_escrow)
                 PRODUCER_SHARE);
          BalanceCredit.percentage := float_of_int 90 |};
     EscrowReleaseResponse.driver_credit :=
       {| BalanceCredit.user_id := "cached";
          BalanceCredit.user_name := "cached";
          BalanceCredit.role := "driver";
          BalanceCredit.amount :=
            Decimal.to_float
              (Decimal.mul (EscrowTransaction.amount existing_escrow)
                 DRIVER_SHARE);
          BalanceCredit.percentage := float_of_int 10 |};
     EscrowReleaseResponse.released_at :=
       default utcnow (EscrowTransaction.released_at existing_escrow);
     EscrowReleaseResponse.idempotency_key :=
       EscrowReleaseRequest.idempotency_key request;
     EscrowReleaseResponse.message :=
       "Idempotent replay — funds were already released." |}.

(** The response of a settlement, escrow.py:276-305. *)
Definition release_response (request : EscrowReleaseRequest.t)
    (deal : DealGroup.t) (escrow_pk : uuid) (escrow : EscrowTransaction.t)
    (producer_pk : uuid) (producer : User.t)
    (driver_pk : uuid) (driver : User.t) (now : datetime)
  : EscrowReleaseResponse.t :=
  let producer_amount := producer_amount (EscrowTransaction.amount escrow) in
  let driver_amount := driver_amount (EscrowTransaction.amount escrow) in
  {| EscrowReleaseResponse.status := "funds_released";
     EscrowReleaseResponse.deal_number := DealGroup.deal_number deal;
     EscrowReleaseResponse.deal_title := DealGroup.title deal;
     EscrowReleaseResponse.escrow_id := str_uuid escrow_pk;
     EscrowReleaseResponse.amount :=
       Decimal.to_float (EscrowTransaction.amount escrow);
     EscrowReleaseResponse.currency := EscrowTransaction.currency escrow;
     EscrowReleaseResponse.producer_credit :=
       {| BalanceCredit.user_id := str_uuid producer_pk;
          BalanceCredit.user_name := User.full_name producer;
          BalanceCredit.role := "producer";
          BalanceCredit.amount := Decimal.to_float producer_amount;
          BalanceCredit.percentage := float_of_int 90 |};
     EscrowReleaseResponse.driver_credit :=
       {| BalanceCredit.user_id := str_uuid driver_pk;
          BalanceCredit.user_name := User.full_name driver;
          BalanceCredit.role := "driver";
          BalanceCredit.amount := Decimal.to_float driver_amount;
          BalanceCredit.percentage := float_of_int 10 |};
     EscrowReleaseResponse.released_at := now;
     EscrowReleaseResponse.idempotency_key :=
       EscrowReleaseRequest.idempotency_key request;
     EscrowReleaseResponse.message :=
       "Funds released for Deal #" +:+ str_int (DealGroup.deal_number deal)
         +:+ " — " +:+ DealGroup.title deal +:+ ". $"
         +:+ format_2f (Decimal.to_float producer_amount)
         +:+ " credited to " +:+ User.full_name producer +:+ ", $"
         +:+ format_2f (Decimal.to_float driver_amount)
         +:+ " credited to " +:+ User.full_name driver +:+ "." |}.

Section Release.

(** [bcrypt.checkpw(pin, hash)]; [None] when the stored hash is malformed
    and the call raises [ValueError]. *)
Variable checkpw : string -> string -> option bool.

(** [_verify_pin], escrow.py:47-52. *)
Definition _verify_pin (plain_pin hashed_pin : string) : M bool :=
  match checkpw plain_pin hashed_pin with
  | Some ok => mret ok
  | None => raise ValueError
  end.

(** Leaving [session.begin()] on an exception: the transaction is rolled
    back to the rows at entry and the objects are discarded. Tasks already
    handed to the event loop are not taken back. *)
Definition rollback (entry : Session) (running : EventLoop) : Session :=
  {| rows := rows entry; begun := false; committed_state := [];
     dirty_users := []; users_table := users_table entry; loop := running |}.

(** The settlement unit without its entry check: run [body] in a
    transaction; when it returns, commit: flush, then make the rows of the
    transaction durable ([rows] then stands for the stored rows: the handler
    closes the session and does not read its objects again); when it
    raises, or the flush of the commit does, roll back. *)
Definition transaction {A} (body : M A) : M A := fun s =>
  match body (set_begun true s) with
  | (inr a, s1) =>
      match flush s1 with
      | (inr _, s2) =>
          (inr a,
           {| rows := with_users (fun _ => users_table s2) (rows s2);
              begun := false; committed_state := []; dirty_users := [];
              users_table := users_table s2; loop := loop s2 |})
      | (inl exc, s2) => (inl exc, rollback s (loop s2))
      end
  | (inl exc, s1) => (inl exc, rollback s (loop s1))
  end.

(** [async with session.begin():]. [Session.begin()] of SQLAlchemy 2.0 (the
    version database.py is written for) raises [InvalidRequestError] on a
    session whose transaction has already begun, which a query does
    (autobegin). *)
Definition session_begin {A} (body : M A) : M A := fun s =>
  if begun s then (inl InvalidRequestError, s)
  else transaction body s.

(** Step 1, escrow.py:93-141: [Some response] when the handler returns the
    replay, [None] when it goes on to the transaction. *)
Definition idempotency_check (utcnow : datetime)
    (request : EscrowReleaseRequest.t) : M (option EscrowReleaseResponse.t) :=
  if str_truthy (EscrowReleaseRequest.idempotency_key request) then
    existing ← execute (fun db =>
      select_where (escrow_transactions db)
           (with_key (EscrowReleaseRequest.idempotency_key request)));
    existing_escrow ← scalar_one_or_none existing;
    match existing_escrow with
    | Some (existing_pk, existing_escrow) =>
        if decide (EscrowTransaction.status existing_escrow
                   = EscrowStatus.FUNDS_RELEASED) then
          deal_result ← execute (fun db =>
            select_pk (deal_groups db)
              (Some (EscrowTransaction.deal_group_id existing_escrow)));
          deal ← scalar_one deal_result;
          mret (Some (replay_response request deal.2 existing_pk
                        existing_escrow utcnow))
        else
          raise (HTTPException 409
            ("Idempotency key exists but escrow is in '"
             +:+ EscrowStatus.value (EscrowTransaction.status existing_escrow)
             +:+ "' state, not released."))
    | None => mret None
    end
  else mret None.

(** Steps 2-10, escrow.py:148-305: the body of the [session.begin()] block. *)
Definition settle (now : datetime) (request : EscrowReleaseRequest.t)
  : M EscrowReleaseResponse.t :=
  (* Step 2-3: fetch deal group *)
  deal_result ← execute (fun db =>
    select_pk (deal_groups db) (Some (EscrowReleaseRequest.deal_id request)));
  deal ← scalar_one_or_none deal_result;
  match deal with
  | None =>
      raise (HTTPException 404
        ("Deal " +:+ str_uuid (EscrowReleaseRequest.deal_id request)
         +:+ " not found."))
  | Some (deal_pk, deal) =>
  (* Step 3: the escrow row of the deal *)
  escrow_result ← execute (fun db =>
    select_where (escrow_transactions db) (of_deal deal_pk));
  escrow ← scalar_one_or_none escrow_result;
  match escrow with
  | None =>
      raise (HTTPException 404
        ("No escrow transaction found for deal #"
         +:+ str_int (DealGroup.deal_number deal) +:+ "."))
  | Some (escrow_pk, escrow) =>
  (* Step 4: verify HELD state *)
  if decide (EscrowTransaction.status escrow = EscrowStatus.FUNDS_RELEASED)
  then
    raise (HTTPException 409
      "Funds have already been released for this deal. Double-spending prevented.")
  else if decide (EscrowTransaction.status escrow <> EscrowStatus.HELD)
  then
    raise (HTTPException 400
      ("Escrow is in '"
       +:+ EscrowStatus.value (EscrowTransaction.status escrow)
       +:+ "' state. Only 'held' escrows can be released."))
  else
  (* Step 5: verify the PIN *)
  payer_result ← execute (fun db =>
    select_pk (users db) (EscrowTransaction.payer_id escrow));
  payer ← scalar_one_or_none payer_result;
  match payer with
  | None => raise (HTTPException 404 "Payer account not found.")
  | Some (payer_pk, payer) =>
  if negb (str_truthy (User.escrow_pin_hash payer)) then
    raise (HTTPException 403
      "Payer has no escrow PIN configured. Cannot authorize release.")
  else
  pin_ok ← _verify_pin (EscrowReleaseRequest.pin request)
             (default ""%string (User.escrow_pin_hash payer));
  if negb pin_ok then
    raise (HTTPException 403 "Invalid PIN. Authorization denied.")
  else
  (* Step 6: escrow -> FUNDS_RELEASED *)
  _ ← escrow_setattr escrow_pk "status"
        (EscrowTransaction.set_status EscrowStatus.FUNDS_RELEASED);
  _ ← escrow_setattr escrow_pk "released_at"
        (EscrowTransaction.set_released_at (Some now));
  _ ← escrow_setattr escrow_pk "released_by_id"
        (EscrowTransaction.set_released_by_id (Some payer_pk));
  _ ← (if str_truthy (EscrowReleaseRequest.idempotency_key request)
       then escrow_setattr escrow_pk "idempotency_key"
              (EscrowTransaction.set_idempotency_key
                 (EscrowReleaseRequest.idempotency_key request))
       else mret tt);
  (* Step 7: credit the producer (90%) *)
  producer_result ← execute (fun db =>
    select_pk (users db) (DealGroup.seller_id deal));
  producer ← scalar_one_or_none producer_result;
  match producer with
  | None => raise (HTTPException 404 "Producer (seller) account not found.")
  | Some (producer_pk, producer) =>
  let producer_amount := producer_amount (EscrowTransaction.amount escrow) in
  _ ← user_set_balance producer_pk
        (Decimal.add (Decimal.or_ (User.balance producer) (Dec 0 0))
           producer_amount);
  (* Step 8: credit the driver (10%) *)
  driver_result ← execute (fun db =>
    select_pk (users db) (DealGroup.driver_id deal));
  driver ← scalar_one_or_none driver_result;
  match driver with
  | None => raise (HTTPException 404 "Driver account not found.")
  | Some (driver_pk, driver) =>
  let driver_amount := driver_amount (EscrowTransaction.amount escrow) in
  _ ← user_set_balance driver_pk
        (Decimal.add (Decimal.or_ (User.balance driver) (Dec 0 0))
           driver_amount);
  (* Step 9: shipment -> DELIVERED *)
  shipment_result ← execute (fun db =>
    select_where (shipments db) (fun sh =>
      bool_decide (Shipment.deal_group_id sh = Some deal_pk)));
  shipment ← scalar_one_or_none shipment_result;
  _ ← match shipment with
      | Some (shipment_pk, _) =>
          _ ← shipment_setattr shipment_pk
                (Shipment.set_status ShipmentStatus.DELIVERED);
          shipment_setattr shipment_pk (Shipment.set_delivered_at (Some now))
      | None => mret tt
      end;
  (* Step 10 *)
  mret (release_response request deal escrow_pk escrow producer_pk producer
          driver_pk driver now)
  end end end end end.

(** [async with async_session() as session: ...]: a fresh session on the
    store; closing it discards whatever an open transaction left
    uncommitted. *)
Definition with_session {A} (body : M A) (db : Database)
    (running : EventLoop) : (Exception + A) * Database * EventLoop :=
  match body (new_session db running) with
  | (result, s) => (result, if begun s then db else rows s, loop s)
  end.

(** [release_escrow], escrow.py:72-305. [utcnow] is the value of
    [datetime.utcnow()] during the request. *)
Definition release_escrow (utcnow : datetime)
    (request : EscrowReleaseRequest.t) (db : Database) (loop : EventLoop)
  : (Exception + EscrowReleaseResponse.t) * Database * EventLoop :=
  with_session
    (replay ← idempotency_check utcnow request;
     match replay with
     | Some response => mret response
     | None => session_begin (settle utcnow request)
     end)
    db loop.

(** [get_escrow_status], escrow.py:317-364. *)
Definition get_escrow_status (deal_id : uuid) (db : Database)
    (loop : EventLoop)
  : (Exception + EscrowStatusResponse.t) * Database * EventLoop :=
  with_session
    (deal_result ← execute (fun db =>
       select_pk (deal_groups db) (Some deal_id));
     deal ← scalar_one_or_none deal_result;
     match deal with
     | None => raise (HTTPException 404 "Deal not found.")
     | Some (deal_pk, deal) =>
     escrow_result ← execute (fun db =>
       select_where (escrow_transactions db) (of_deal deal_pk));
     escrow ← scalar_one_or_none escrow_result;
     match escrow with
     | None => raise (HTTPException 404 "No escrow transaction for this deal.")
     | Some (escrow_pk, escrow) =>
     payer_name ←
       match EscrowTransaction.payer_id escrow with
       | Some _ =>
           payer_r ← execute (fun db =>
             (fun kv => User.full_name kv.2) <$>
               select_pk (users db) (EscrowTransaction.payer_id escrow));
           scalar_one_or_none payer_r
       | None => mret None
       end;
     payee_name ←
       match EscrowTransaction.payee_id escrow with
       | Some _ =>
           payee_r ← execute (fun db =>
             (fun kv => User.full_name kv.2) <$>
               select_pk (users db) (EscrowTransaction.payee_id escrow));
           scalar_one_or_none payee_r
       | None => mret None
       end;
     mret
       {| EscrowStatusResponse.escrow_id := str_uuid escrow_pk;
          EscrowStatusResponse.deal_number := DealGroup.deal_number deal;
          EscrowStatusResponse.amount :=
            Decimal.to_float (EscrowTransaction.amount escrow);
          EscrowStatusResponse.currency := EscrowTransaction.currency escrow;
          EscrowStatusResponse.status :=
            EscrowStatus.value (EscrowTransaction.status escrow);
          EscrowStatusResponse.payer := payer_name;
          EscrowStatusResponse.payee := payee_name;
          EscrowStatusResponse.created_at :=
            EscrowTransaction.created_at escrow;
          EscrowStatusResponse.released_at :=
            EscrowTransaction.released_at escrow |}
     end end)
    db loop.

End Release.

(** ** Vocabulary of the statements *)

(** [r], under the key [pk], is the one row of [table] that satisfies
    [where_]. *)
Definition only_row {R} (table : gmap uuid R) (where_ : R -> bool)
    (pk : uuid) (r : R) : Prop :=
  table !! pk = Some r /\ where_ r = true
  /\ forall pk' r', table !! pk' = Some r' -> where_ r' = true -> pk' = pk.

(** A computation that leaves the rows of the session as they are. *)
Definition keeps_rows {A} (m : M A) : Prop :=
  forall s r s', m s = (r, s') -> rows s' = rows s.

(** The escrow row a settlement leaves behind (step 6). *)
Definition settled_escrow (now : datetime) (request : EscrowReleaseRequest.t)
    (payer_pk : uuid) (escrow : EscrowTransaction.t) : EscrowTransaction.t :=
  let released :=
    EscrowTransaction.set_released_by_id (Some payer_pk)
      (EscrowTransaction.set_released_at (Some now)
         (EscrowTransaction.set_status EscrowStatus.FUNDS_RELEASED escrow)) in
  if str_truthy (EscrowReleaseRequest.idempotency_key request)
  then EscrowTransaction.set_idempotency_key
         (EscrowReleaseRequest.idempotency_key request) released
  else released.

(** The account row after [account.balance = (account.balance or 0) + share]
    (steps 7 and 8). *)
Definition credited (share : Decimal) (account : User.t) : User.t :=
  User.set_balance
    (Decimal.add (Decimal.or_ (User.balance account) (Dec 0 0)) share)
    account.

(** The shipment table after step 9. *)
Definition delivered_shipments (now : datetime) (deal_pk : uuid)
    (table : gmap uuid Shipment.t) : gmap uuid Shipment.t :=
  match select_where table (fun sh =>
          bool_decide (Shipment.deal_group_id sh = Some deal_pk)) with
  | [(shipment_pk, _)] =>
      alter (Shipment.set_delivered_at (Some now)) shipment_pk
        (alter (Shipment.set_status ShipmentStatus.DELIVERED) shipment_pk
           table)
  | _ => table
  end.

(** The [committed_state] of the escrow object after the assignments of
    step 6: the previous value of each assigned attribute. *)
Definition settled_committed_state (request : EscrowReleaseRequest.t)
    (escrow : EscrowTransaction.t) : gmap string value :=
  let assigned : gmap string value :=
    <[ "released_by_id"%string :=
         opt_value VUuid (EscrowTransaction.released_by_id escrow) ]>
      (<[ "released_at"%string :=
            opt_value VDatetime (EscrowTransaction.released_at escrow) ]>
         {[ "status"%string :=
              VEnum (EscrowStatus.value (EscrowTransaction.status escrow)) ]})
  in
  if str_truthy (EscrowReleaseRequest.idempotency_key request)
  then <[ "idempotency_key"%string :=
            opt_value VStr (EscrowTransaction.idempotency_key escrow) ]>
         assigned
  else assigned.

(** The monetary columns hold values of their declared type
    [Numeric(12, 2)]. *)
Definition numeric_columns (db : Database) : Prop :=
  (forall pk e, escrow_transactions db !! pk = Some e ->
                Decimal.numeric_12_2 (EscrowTransaction.amount e))
  /\ (forall pk u, users db !! pk = Some u ->
                   Decimal.numeric_12_2 (User.balance u)).

(** The request enters the [session.begin()] block: it carries no
    idempotency key, so that step 1 runs no query and the block can be
    opened. *)
Definition reaches_settlement (request : EscrowReleaseRequest.t) : Prop :=
  str_truthy (EscrowReleaseRequest.idempotency_key request) = false.

(** The account row as the [users] table stores it: the balance rounded to
    the cent. *)
Definition stored (account : User.t) : User.t :=
  User.set_balance (Decimal.round_cents (User.balance account)) account.

(** The balance of the object [pk] fits the column: the UPDATE that a flush
    emits for it succeeds. *)
Definition storable (pk : uuid) (objects : gmap uuid User.t) : bool :=
  match objects !! pk with
  | Some object =>
      match Decimal.store_numeric_12_2 (User.balance object) with
      | Some _ => true
      | None => false
      end
  | None => true
  end.

(** The user objects after the credit of the producer (step 7) and after
    both credits (step 8), for an escrow of the amount [A]. *)
Definition producer_credited (A : Decimal) (producer_pk : uuid)
    (accounts : gmap uuid User.t) : gmap uuid User.t :=
  alter (credited (producer_amount A)) producer_pk accounts.

Definition both_credited (A : Decimal) (producer_pk driver_pk : uuid)
    (accounts : gmap uuid User.t) : gmap uuid User.t :=
  alter (credited (driver_amount A)) driver_pk
    (producer_credited A producer_pk accounts).

(** Both credits of a settlement fit the balance column: the producer's
    balance when it is flushed (before the driver is queried) and the
    driver's (before the shipment is queried). *)
Definition credits_storable (A : Decimal) (producer_pk driver_pk : uuid)
    (accounts : gmap uuid User.t) : bool :=
  storable producer_pk (producer_credited A producer_pk accounts)
  && storable driver_pk (both_credited A producer_pk driver_pk accounts).

(** The credit an account received between two states of the store, in
    cents of its stored balance. *)
Definition credit_cents (db db' : Database) (pk : uuid) : option Z :=
  match users db !! pk, users db' !! pk with
  | Some account, Some account' =>
      Some (Decimal.coef (User.balance account')
            - Decimal.coef (User.balance account))
  | _, _ => None
  end.

(** The two credits of a settlement add up to the escrow amount [A], to
    the cent: what the specification asks of the split. *)
Definition credits_sum_to_amount (db db' : Database) (A : Decimal)
    (producer_pk driver_pk : uuid) : Prop :=
  exists producer_credit driver_credit,
    credit_cents db db' producer_pk = Some producer_credit
    /\ credit_cents db db' driver_pk = Some driver_credit
    /\ producer_credit + driver_credit = Decimal.coef A.

(** The fields on which the response of a replay agrees with the response
    of the settlement it replays. *)
Definition same_settlement (r1 r2 : EscrowReleaseResponse.t) : Prop :=
  EscrowReleaseResponse.status r2 = EscrowReleaseResponse.status r1
  /\ EscrowReleaseResponse.deal_number r2
     = EscrowReleaseResponse.deal_number r1
  /\ EscrowReleaseResponse.deal_title r2 = EscrowReleaseResponse.deal_title r1
  /\ EscrowReleaseResponse.escrow_id r2 = EscrowReleaseResponse.escrow_id r1
  /\ EscrowReleaseResponse.amount r2 = EscrowReleaseResponse.amount r1
  /\ EscrowReleaseResponse.currency r2 = EscrowReleaseResponse.currency r1
  /\ BalanceCredit.amount (EscrowReleaseResponse.producer_credit r2)
     = BalanceCredit.amount (EscrowReleaseResponse.producer_credit r1)
  /\ BalanceCredit.percentage (EscrowReleaseResponse.producer_credit r2)
     = BalanceCredit.percentage (EscrowReleaseResponse.producer_credit r1)
  /\ BalanceCredit.role (EscrowReleaseResponse.producer_credit r2)
     = BalanceCredit.role (EscrowReleaseResponse.producer_credit r1)
  /\ BalanceCredit.amount (EscrowReleaseResponse.driver_credit r2)
     = BalanceCredit.amount (EscrowReleaseResponse.driver_credit r1)
  /\ BalanceCredit.percentage (EscrowReleaseResponse.driver_credit r2)
     = BalanceCredit.percentage (EscrowReleaseResponse.driver_credit r1)
  /\ BalanceCredit.role (EscrowReleaseResponse.driver_credit r2)
     = BalanceCredit.role (EscrowReleaseResponse.driver_credit r1)
  /\ EscrowReleaseResponse.released_at r2
     = EscrowReleaseResponse.released_at r1.

(** An attribute with a change in its history, the test [_get_changes]
    applies: it was assigned, and holds a value that differs from the one
    recorded at its first assignment. *)
Definition history_changed (a : Attribute) : Prop :=
  exists original,
    committed a = Some original /\ value_eqb (current a) original = false.

(** The diff entry of a changed attribute. *)
Definition change_of (a : Attribute) : Change :=
  {| old := _serialize_value (default VNone (committed a));
     new := _serialize_value (current a) |}.

(** The row a task writes when its audit session succeeds. *)
Definition entry_of (task : AuditTask) : AuditLog.t :=
  {| AuditLog.action := task_action task;
     AuditLog.table_name := task_table_name task;
     AuditLog.record_id := task_record_id task;
     AuditLog.changes := task_changes task;
     AuditLog.snapshot := task_snapshot task |}.

(** One iteration of the loop of [_get_changes]. *)
Definition changes_step (changes : gmap string Change) (attr : Attribute)
  : gmap string Change :=
  let hist := history attr in
  if has_changes hist then
    <[ key attr := {| old := _serialize_value (first_or_None (deleted hist));
                      new := _serialize_value (first_or_None (added hist)) |} ]>
      changes
  else changes.

(** ** The seeded deal (seed.py): deal #901, escrow of 4380.00 USD

    The retailer (payer) has the PIN "1234"; the examples use a stand-in for
    bcrypt in which the hash of a PIN is the PIN behind a fixed prefix. *)

Definition demo_checkpw (pin hash : string) : option bool :=
  Some (bool_decide (hash = "$2b$" +:+ pin)).

Definition retailer_pk : uuid := 1%N.
Definition producer_pk : uuid := 2%N.
Definition driver_pk : uuid := 3%N.
Definition deal_pk : uuid := 10%N.
Definition escrow_pk : uuid := 20%N.
Definition shipment_pk : uuid := 30%N.

Definition seeded_at : datetime :=
  {| year := 2026; month := 2; day := 25; hour := 11; minute := 0;
     second := 0; microsecond := 0 |}.

Definition delivery_time : datetime :=
  {| year := 2026; month := 2; day := 27; hour := 5; minute := 30;
     second := 0; microsecond := 0 |}.

Definition later : datetime :=
  {| year := 2026; month := 2; day := 27; hour := 6; minute := 0;
     second := 0; microsecond := 0 |}.

Definition seeded_users : gmap uuid User.t :=
  {[ retailer_pk := {| User.full_name := "Korzinka";
                       User.balance := Dec 0 (-2);
                       User.escrow_pin_hash := Some "$2b$1234"%string |};
     producer_pk := {| User.full_name := "Alisher";
                       User.balance := Dec 10000 (-2);
                       User.escrow_pin_hash := None |};
     driver_pk := {| User.full_name := "Rustam";
                     User.balance := Dec 0 (-2);
                     User.escrow_pin_hash := None |} ]}.

Definition seeded_deal (seller : option uuid) : DealGroup.t :=
  {| DealGroup.deal_number := 901; DealGroup.title := "Golden Apples";
     DealGroup.status := Some DealStatus.IN_TRANSIT;
     DealGroup.seller_id := seller;
     DealGroup.buyer_id := Some retailer_pk;
     DealGroup.driver_id := Some driver_pk;
     DealGroup.agreed_price_per_kg := None;
     DealGroup.agreed_quantity_kg := None;
     DealGroup.created_at := seeded_at; DealGroup.updated_at := seeded_at |}.

Definition seeded_escrow (st : EscrowStatus.t) (k : option string)
  : EscrowTransaction.t :=
  {| EscrowTransaction.deal_group_id := deal_pk;
     EscrowTransaction.amount := Dec 438000 (-2);
     EscrowTransaction.currency := "USD";
     EscrowTransaction.status := st;
     EscrowTransaction.payer_id := Some retailer_pk;
     EscrowTransaction.payee_id := Some producer_pk;
     EscrowTransaction.released_by_id := None;
     EscrowTransaction.idempotency_key := k;
     EscrowTransaction.released_at := None;
     EscrowTransaction.created_at := seeded_at |}.

(** The store after seeding, with the escrow in status [st] and carrying the
    idempotency key [k], and the deal sold by [seller]. *)
Definition seeded_db (st : EscrowStatus.t) (k : option string)
    (seller : option uuid) : Database :=
  {| users := seeded_users;
     deal_groups := {[ deal_pk := seeded_deal seller ]};
     escrow_transactions := {[ escrow_pk := seeded_escrow st k ]};
     shipments :=
       {[ shipment_pk := {| Shipment.deal_group_id := Some deal_pk;
                            Shipment.status := ShipmentStatus.IN_TRANSIT;
                            Shipment.delivered_at := None |} ]};
     audit_logs := [] |}.

Definition release_request (pin : string) (k : option string)
  : EscrowReleaseRequest.t :=
  {| EscrowReleaseRequest.deal_id := deal_pk;
     EscrowReleaseRequest.pin := pin;
     EscrowReleaseRequest.idempotency_key := k |}.

(** The columns declared with [onupdate=datetime.utcnow]: [updated_at] of
    a [DealGroup] (models.py:177); an [EscrowTransaction] has none. *)
Definition deal_onupdate : list string := ["updated_at"%string].
Definition escrow_onupdate : list string := [].

(** The seeded escrow, loaded and flushed after an assignment that leaves
    its status as it was. *)
Definition reassigned_escrow : InstanceState.t :=
  updated_instance escrow_pk escrow_onupdate later
    [("status"%string, VEnum "held")]
    (escrow_columns escrow_pk (seeded_escrow EscrowStatus.HELD None)).

(** The seeded deal, loaded and flushed at [later] after
    [deal.status = DealStatus.DELIVERED]. *)
Definition delivered_deal_columns : list (string * value) :=
  flushed deal_onupdate later [("status"%string, VEnum "delivered")]
    (deal_columns deal_pk (seeded_deal (Some producer_pk))).

Definition delivered_deal : InstanceState.t :=
  updated_instance deal_pk deal_onupdate later
    [("status"%string, VEnum "delivered")]
    (deal_columns deal_pk (seeded_deal (Some producer_pk))).

(** The seeded store with an escrow of 0.05 USD in place of the 4380.00. *)
Definition five_cent_db : Database :=
  with_escrow_transactions
    (fun _ =>
       {[ escrow_pk :=
            {| EscrowTransaction.deal_group_id := deal_pk;
               EscrowTransaction.amount := Dec 5 (-2);
               EscrowTransaction.currency := "USD";
               EscrowTransaction.status := EscrowStatus.HELD;
               EscrowTransaction.payer_id := Some retailer_pk;
               EscrowTransaction.payee_id := Some producer_pk;
               EscrowTransaction.released_by_id := None;
               EscrowTransaction.idempotency_key := None;
               EscrowTransaction.released_at := None;
               EscrowTransaction.created_at := seeded_at |} ]})
    (seeded_db EscrowStatus.HELD None (Some producer_pk)).

(** The seeded store with a producer whose balance, 9999999999.99, is the
    largest the column holds. *)
Definition full_balance_db : Database :=
  with_users
    (insert producer_pk
       {| User.full_name := "Alisher";
          User.balance := Dec 999999999999 (-2);
          User.escrow_pin_hash := None |})
    (seeded_db EscrowStatus.HELD None (Some producer_pk)).

(** The seeded store with a second deal, whose status is NULL. *)
Definition unset_status_db : Database :=
  {| users := seeded_users;
     deal_groups :=
       <[ 11%N :=
            {| DealGroup.deal_number := 902; DealGroup.title := "Red Onions";
               DealGroup.status := None; DealGroup.seller_id := None;
               DealGroup.buyer_id := None; DealGroup.driver_id := None;
               DealGroup.agreed_price_per_kg := None;
               DealGroup.agreed_quantity_kg := None;
               DealGroup.created_at := seeded_at;
               DealGroup.updated_at := seeded_at |} ]>
         {[ deal_pk := seeded_deal (Some producer_pk) ]};
     escrow_transactions :=
       {[ escrow_pk := seeded_escrow EscrowStatus.HELD None ]};
     shipments := ∅;
     audit_logs := [] |}.

(** ** Vocabulary of the further statements *)

(** The session in which the body of [session.begin()] starts, for a request
    that enters the block on the store [db]. *)
Definition in_transaction (db : Database) (running : EventLoop) : Session :=
  set_begun true (new_session db running).

(** What the handler returns for a run of the body of [session.begin()]:
    commit when the body returns, roll back to [db] when it raises or when
    the flush of the commit fails. *)
Definition settlement_outcome {A} (db : Database)
    (run : (Exception + A) * Session) : (Exception + A) * Database * EventLoop :=
  match run with
  | (inr a, s) =>
      match flush s with
      | (inr _, s') =>
          (inr a, with_users (fun _ => users_table s') (rows s'), loop s')
      | (inl exc, s') => (inl exc, db, loop s')
      end
  | (inl exc, s) => (inl exc, db, loop s)
  end.

(** At most one row of [table] satisfies [where_]. *)
Definition at_most_one_row {R} (table : gmap uuid R) (where_ : R -> bool)
  : Prop :=
  forall pk1 r1 pk2 r2,
    table !! pk1 = Some r1 -> where_ r1 = true ->
    table !! pk2 = Some r2 -> where_ r2 = true -> pk1 = pk2.

(** The [where] clause of the query on shipments:
    [Shipment.deal_group_id == deal_pk]. *)
Definition shipment_of_deal (deal_pk : uuid) (sh : Shipment.t) : bool :=
  bool_decide (Shipment.deal_group_id sh = Some deal_pk).

(** The store a settlement commits: the two accounts hold their credited
    balances as the column stores them. *)
Definition settled_db (now : datetime) (request : EscrowReleaseRequest.t)
    (escrow_pk : uuid) (escrow : EscrowTransaction.t)
    (payer_pk producer_pk driver_pk : uuid) (db : Database) : Database :=
  {| users :=
       alter stored driver_pk
         (alter stored producer_pk
            (both_credited (EscrowTransaction.amount escrow) producer_pk
               driver_pk (users db)));
     deal_groups := deal_groups db;
     escrow_transactions :=
       <[ escrow_pk := settled_escrow now request payer_pk escrow ]>
         (escrow_transactions db);
     shipments :=
       delivered_shipments now (EscrowReleaseRequest.deal_id request)
         (shipments db);
     audit_logs := audit_logs db |}.

(** The audit task a settlement hands to the event loop. *)
Definition settlement_task (now : datetime) (request : EscrowReleaseRequest.t)
    (escrow_pk : uuid) (escrow : EscrowTransaction.t) (payer_pk : uuid)
  : AuditTask :=
  let target :=
    instance_state escrow_pk
      (escrow_columns escrow_pk (settled_escrow now request payer_pk escrow))
      (settled_committed_state request escrow) in
  {| task_action := "UPDATE";
     task_table_name := "escrow_transactions";
     task_record_id := str_uuid escrow_pk;
     task_changes := _get_changes target;
     task_snapshot := _get_snapshot target |}.

(** A computation that raises only exceptions satisfying [P]. *)
Definition raises_only {A} (P : Exception -> Prop) (m : M A) : Prop :=
  forall s exc s', m s = (inl exc, s') -> P exc.

(** A credit of the settlement of the deal of [request] that does not fit
    the balance column: the producer's, or else the driver's. *)
Definition credit_overflow (request : EscrowReleaseRequest.t) (db : Database)
  : Prop :=
  exists deal escrow_pk escrow producer_pk,
    deal_groups db !! EscrowReleaseRequest.deal_id request = Some deal
    /\ only_row (escrow_transactions db)
         (of_deal (EscrowReleaseRequest.deal_id request)) escrow_pk escrow
    /\ DealGroup.seller_id deal = Some producer_pk
    /\ (storable producer_pk
          (producer_credited (EscrowTransaction.amount escrow) producer_pk
             (users db)) = false
        \/ exists driver_pk,
             DealGroup.driver_id deal = Some driver_pk
             /\ storable driver_pk
                  (both_credited (EscrowTransaction.amount escrow) producer_pk
                     driver_pk (users db)) = false).

(** The exceptions with which [release_escrow] can end, each with what it
    takes to get it. *)
Definition release_failure (checkpw : string -> string -> option bool)
    (request : EscrowReleaseRequest.t) (db : Database) (exc : Exception)
  : Prop :=
  match exc with
  | HTTPException status_code _ => status_code ∈ [400; 403; 404; 409]
  | MultipleResultsFound => True
  | NoResultFound | InvalidRequestError =>
      str_truthy (EscrowReleaseRequest.idempotency_key request) = true
  | ValueError =>
      exists hash, checkpw (EscrowReleaseRequest.pin request) hash = None
  | DBAPIError =>
      str_truthy (EscrowReleaseRequest.idempotency_key request) = false
      /\ credit_overflow request db
  | AttributeError => False
  end.

(** The exceptions with which the settlement block can end. *)
Definition settle_failure (checkpw : string -> string -> option bool)
    (request : EscrowReleaseRequest.t) (exc : Exception) : Prop :=
  match exc with
  | HTTPException status_code _ => status_code ∈ [400; 403; 404; 409]
  | MultipleResultsFound | DBAPIError => True
  | ValueError =>
      exists hash, checkpw (EscrowReleaseRequest.pin request) hash = None
  | NoResultFound | InvalidRequestError | AttributeError => False
  end.

(** ** [backend/auth.py]: role-based access control *)

(** [role.value] of a [UserRole], models.py:35-39. *)
Definition UserRole_value (r : UserRole) : string :=
  match r with
  | PRODUCER => "producer" | DRIVER => "driver"
  | RETAILER => "retailer" | ADMIN => "admin"
  end.

#[global] Instance UserRole_eq_dec : EqDecision UserRole.
Proof. solve_decision. Defined.

(** [sep.join(l)] *)
Fixpoint join (sep : string) (l : list string) : string :=
  match l with
  | [] => EmptyString
  | x :: rest =>
      match rest with
      | [] => x
      | _ :: _ => x +:+ sep +:+ join sep rest
      end
  end.

Module CurrentUser.
(** The authenticated [User] that [get_current_user] hands to its
    dependants: the columns read here. *)
Record t := { id : uuid; email : string; role : UserRole }.
End CurrentUser.

(** [RoleChecker(allowed_roles).__call__], auth.py:193-208. *)
Definition RoleChecker (allowed_roles : list string) (user : CurrentUser.t)
  : Exception + CurrentUser.t :=
  if bool_decide (UserRole_value (CurrentUser.role user) ∈ allowed_roles)
  then inr user
  else
    inl (HTTPException 403
           ("Access denied. This endpoint requires one of these roles: "
            +:+ join ", " allowed_roles +:+ ". Your role: "
            +:+ UserRole_value (CurrentUser.role user) +:+ ".")).

(** [POST /api/escrow/release] behind its dependency
    [Depends(RoleChecker(["retailer"]))], escrow.py:67-72: the handler runs
    only when the dependency returns, and is not given the user. *)
Definition post_release (checkpw : string -> string -> option bool)
    (utcnow : datetime) (user : CurrentUser.t)
    (request : EscrowReleaseRequest.t) (db : Database) (loop : EventLoop)
  : (Exception + EscrowReleaseResponse.t) * Database * EventLoop :=
  match RoleChecker ["retailer"%string] user with
  | inl exc => (inl exc, db, loop)
  | inr _ => release_escrow checkpw utcnow request db loop
  end.

(** ** [backend/main.py]: the deal listing *)

Module DealItem.
(** One element of the list [list_deals] returns. *)
Record t := {
  id : string;
  deal_number : Z;
  title : string;
  status : string;
  agreed_price_per_kg : option float;
  agreed_quantity_kg : option float
}.
End DealItem.

(** [float(x) if x else None] *)
Definition float_or_None (x : option Decimal) : option float :=
  match x with
  | Some d => if Decimal.truthy d then Some (Decimal.to_float d) else None
  | None => None
  end.

(** One element of the list comprehension of [list_deals];
    [deal.status.value] raises [AttributeError] when the status is NULL. *)
Definition deal_item (pk : uuid) (deal : DealGroup.t)
  : Exception + DealItem.t :=
  match DealGroup.status deal with
  | Some st =>
      inr {| DealItem.id := str_uuid pk;
             DealItem.deal_number := DealGroup.deal_number deal;
             DealItem.title := DealGroup.title deal;
             DealItem.status := DealStatus.value st;
             DealItem.agreed_price_per_kg :=
               float_or_None (DealGroup.agreed_price_per_kg deal);
             DealItem.agreed_quantity_kg :=
               float_or_None (DealGroup.agreed_quantity_kg deal) |}
  | None => inl AttributeError
  end.

(** [[f(x) for x in l]], where [f] may raise. *)
Fixpoint comprehension {A B} (f : A -> Exception + B) (l : list A)
  : M (list B) :=
  match l with
  | [] => mret []
  | x :: rest =>
      match f x with
      | inr y => ys ← comprehension f rest; mret (y :: ys)
      | inl exc => raise exc
      end
  end.

(** [list_deals], main.py:166-185. *)
Definition list_deals (db : Database) (loop : EventLoop)
  : (Exception + list DealItem.t) * Database * EventLoop :=
  with_session
    (deals ← execute (fun db => map_to_list (deal_groups db));
     comprehension (fun kv : uuid * DealGroup.t => deal_item kv.1 kv.2) deals)
    db loop.

(** * Properties *)

(** ** Decimal arithmetic *)

Lemma fix_small (d : Decimal) :
  Z.abs (Decimal.coef d) < 10 ^ 28 -> Decimal.fix_ d = d.
Proof.
  intros Hsmall. unfold Decimal.fix_.
  assert (Hs : Decimal.excess_digits
                 (Z.to_nat (Z.log2 (Z.abs (Decimal.coef d)) + 1))
                 (Z.abs (Decimal.coef d)) 0 = 0).
  { destruct (Z.to_nat _) as [|fuel]; [reflexivity|].
    simpl. unfold Decimal.prec.
    destruct (Z.ltb_spec (Z.abs (Decimal.coef d)) (10 ^ (28 + 0))) as [_|Hge];
      [reflexivity|].
    change (10 ^ (28 + 0)) with (10 ^ 28) in Hge. lia. }
  rewrite Hs. reflexivity.
Qed.

Lemma excess_digits_bound (fuel : nat) (n s : Z) :
  n < 10 ^ (28 + s + Z.of_nat fuel) ->
  n < 10 ^ (28 + Decimal.excess_digits fuel n s).
Proof.
  revert s. induction fuel as [|fuel IH]; intros s Hn.
  - cbn [Decimal.excess_digits]. rewrite Z.add_0_r in Hn. exact Hn.
  - cbn [Decimal.excess_digits]. unfold Decimal.prec.
    destruct (Z.ltb_spec n (10 ^ (28 + s))) as [Hlt|_]; [exact Hlt|].
    apply IH. replace (28 + (s + 1) + Z.of_nat fuel)
      with (28 + s + Z.of_nat (S fuel)) by lia. exact Hn.
Qed.

Lemma excess_digits_nonneg (fuel : nat) (n s : Z) :
  0 <= s -> 0 <= Decimal.excess_digits fuel n s.
Proof.
  revert s. induction fuel as [|fuel IH]; intros s Hs; cbn; [exact Hs|].
  destruct (n <? 10 ^ (Decimal.prec + s)); [exact Hs|]. apply IH. lia.
Qed.

(** The search of [fix_] has fuel enough: the result of [fix_] always fits
    the context precision. *)
Lemma fix_precision (d : Decimal) :
  Z.abs (Decimal.coef (Decimal.fix_ d)) < 10 ^ 28.
Proof.
  unfold Decimal.fix_.
  set (n := Z.abs (Decimal.coef d)).
  set (s := Decimal.excess_digits (Z.to_nat (Z.log2 n + 1)) n 0).
  assert (Hn0 : 0 <= n) by apply Z.abs_nonneg.
  assert (Hs0 : 0 <= s) by (apply excess_digits_nonneg; lia).
  assert (Hfit : n < 10 ^ (28 + s)).
  { apply excess_digits_bound. rewrite Z.add_0_r.
    pose proof (Z.log2_nonneg n) as Hlog.
    rewrite Z2Nat.id by lia.
    destruct (Z.eq_dec n 0) as [->|Hnz].
    - apply Z.pow_pos_nonneg; lia.
    - destruct (Z.log2_spec n ltac:(lia)) as [_ Hupper].
      eapply Z.lt_le_trans; [exact Hupper|].
      replace (Z.succ (Z.log2 n)) with (Z.log2 n + 1) by lia.
      transitivity (10 ^ (Z.log2 n + 1)).
      + apply Z.pow_le_mono_l. lia.
      + apply Z.pow_le_mono_r; lia. }
  destruct (Z.eqb_spec s 0) as [Hs|Hs].
  - rewrite Hs, Z.add_0_r in Hfit. exact Hfit.
  - assert (Hpow : 0 < 10 ^ s) by (apply Z.pow_pos_nonneg; lia).
    assert (Hq : 0 <= n / 10 ^ s < 10 ^ 28).
    { split; [apply Z.div_pos; lia|].
      apply Z.div_lt_upper_bound; [exact Hpow|].
      rewrite <- Z.pow_add_r by lia. rewrite (Z.add_comm s 28). exact Hfit. }
    assert (Hround : 0 <= Decimal.round_half_even n (10 ^ s) <= 10 ^ 28).
    { unfold Decimal.round_half_even. destruct (_ || _); lia. }
    assert (Hsgn : Z.abs (Z.sgn (Decimal.coef d)) <= 1).
    { destruct (Decimal.coef d); cbn; lia. }
    destruct (Z.eqb_spec (Decimal.round_half_even n (10 ^ s))
                (10 ^ Decimal.prec)) as [_|Hne]; cbn [Decimal.coef].
    + rewrite Z.abs_mul. unfold Decimal.prec.
      change (10 ^ (28 - 1)) with 1000000000000000000000000000.
      change (10 ^ 28) with 10000000000000000000000000000. lia.
    + rewrite Z.abs_mul. unfold Decimal.prec in Hne.
      rewrite (Z.abs_eq (Decimal.round_half_even n (10 ^ s))) by lia.
      nia.
Qed.

Lemma mul_share (a : Decimal) (c : Z) :
  Decimal.numeric_12_2 a -> 0 <= c <= 100 ->
  Decimal.mul a (Dec c (-2)) = Dec (Decimal.coef a * c) (-4).
Proof.
  intros [He Hc] Hshare. unfold Decimal.mul. simpl. rewrite He.
  apply fix_small. simpl.
  change (10 ^ 12) with 1000000000000 in Hc.
  change (10 ^ 28) with 10000000000000000000000000000. nia.
Qed.

Lemma producer_amount_exact (a : Decimal) :
  Decimal.numeric_12_2 a -> producer_amount a = Dec (Decimal.coef a * 90) (-4).
Proof. intros H. apply mul_share; [exact H | lia]. Qed.

Lemma driver_amount_exact (a : Decimal) :
  Decimal.numeric_12_2 a -> driver_amount a = Dec (Decimal.coef a * 10) (-4).
Proof. intros H. apply mul_share; [exact H | lia]. Qed.

(** ** The session monad *)

Lemma bind_inr {A B} (m : M A) (f : A -> M B) s b s' :
  (m ≫= f) s = (inr b, s') ->
  exists a s1, m s = (inr a, s1) /\ f a s1 = (inr b, s').
Proof.
  unfold mbind, M_bind. destruct (m s) as [[exc|a] s1]; intros H.
  - discriminate.
  - eauto.
Qed.

Lemma bind_mret {A B} (a : A) (f : A -> M B) s : (mret a ≫= f) s = f a s.
Proof. reflexivity. Qed.

Lemma bind_raise {A B} (exc : Exception) (f : A -> M B) s :
  (raise exc ≫= f) s = (inl exc, s).
Proof. reflexivity. Qed.

(** A session without modified user objects flushes without a statement on
    [users]. *)
Lemma bind_execute {A B} (query : Database -> A) (f : A -> M B) s :
  dirty_users s = [] ->
  (execute query ≫= f) s
  = f (query (rows s))
      {| rows := rows s; begun := true; committed_state := [];
         dirty_users := []; users_table := users_table s;
         loop :=
           flush_events (escrow_transactions (rows s)) (committed_state s)
             (loop s) |}.
Proof.
  intros Hclean. unfold execute, mbind, M_bind, flush. rewrite Hclean.
  reflexivity.
Qed.

(** The flush of one modified user object. *)
Lemma flush_users_one pk objects table :
  flush_users [pk] objects table
  = match objects !! pk with
    | Some object =>
        if storable pk objects
        then Some (alter
                     (User.set_balance
                        (Decimal.round_cents (User.balance object)))
                     pk table)
        else None
    | None => Some table
    end.
Proof.
  unfold storable, Decimal.store_numeric_12_2. cbn [flush_users].
  destruct (objects !! pk) as [object|]; [|reflexivity].
  unfold Decimal.store_numeric_12_2.
  destruct (Z.abs _ <? 10 ^ 12); reflexivity.
Qed.

Lemma bind_execute_user {A B} (query : Database -> A) (f : A -> M B) s pk
    object :
  dirty_users s = [pk] -> users (rows s) !! pk = Some object ->
  (execute query ≫= f) s
  = if storable pk (users (rows s))
    then f (query (rows s))
           {| rows := rows s; begun := true; committed_state := [];
              dirty_users := [];
              users_table :=
                alter
                  (User.set_balance
                     (Decimal.round_cents (User.balance object)))
                  pk (users_table s);
              loop :=
                flush_events (escrow_transactions (rows s))
                  (committed_state s) (loop s) |}
    else (inl DBAPIError, s).
Proof.
  intros Hdirty Hobject. unfold execute, mbind, M_bind, flush.
  rewrite Hdirty, flush_users_one, Hobject.
  destruct (storable pk (users (rows s))); reflexivity.
Qed.

Lemma flush_rows s r s' : flush s = (r, s') -> rows s' = rows s.
Proof.
  unfold flush. destruct (flush_users _ _ _); intros H; injection H as _ <-;
    reflexivity.
Qed.

Lemma flush_inl s exc s' : flush s = (inl exc, s') -> exc = DBAPIError.
Proof.
  unfold flush. destruct (flush_users _ _ _); intros H; [discriminate|].
  injection H as <- _. reflexivity.
Qed.

Lemma keeps_rows_mret {A} (a : A) : keeps_rows (mret a : M A).
Proof. intros s r s' H. injection H as _ <-. reflexivity. Qed.

Lemma keeps_rows_raise {A} exc : keeps_rows (raise exc : M A).
Proof. intros s r s' H. injection H as _ <-. reflexivity. Qed.

Lemma keeps_rows_bind {A B} (m : M A) (f : A -> M B) :
  keeps_rows m -> (forall a, keeps_rows (f a)) -> keeps_rows (m ≫= f).
Proof.
  intros Hm Hf s r s'. unfold mbind, M_bind.
  destruct (m s) as [[exc|a] s1] eqn:E; intros H.
  - injection H as _ <-. eauto.
  - rewrite (Hf a _ _ _ H). eauto.
Qed.

Lemma keeps_rows_execute {A} (query : Database -> A) :
  keeps_rows (execute query).
Proof.
  intros s r s'. unfold execute, mbind, M_bind.
  destruct (flush s) as [[exc|[]] s1] eqn:Hflush; intros H;
    injection H as _ <-; exact (flush_rows _ _ _ Hflush).
Qed.

Lemma keeps_rows_scalar_one_or_none {R} (result : list R) :
  keeps_rows (scalar_one_or_none result).
Proof.
  destruct result as [|r [|r' rest]]; simpl;
    auto using keeps_rows_mret, keeps_rows_raise.
Qed.

Lemma keeps_rows_scalar_one {R} (result : list R) :
  keeps_rows (scalar_one result).
Proof.
  destruct result as [|r [|r' rest]]; simpl;
    auto using keeps_rows_mret, keeps_rows_raise.
Qed.

Lemma idempotency_check_keeps_rows utcnow request :
  keeps_rows (idempotency_check utcnow request).
Proof.
  unfold idempotency_check.
  destruct (str_truthy _); [|apply keeps_rows_mret].
  apply keeps_rows_bind; [apply keeps_rows_execute|]. intros existing.
  apply keeps_rows_bind; [apply keeps_rows_scalar_one_or_none|].
  intros [[existing_pk existing_escrow]|]; [|apply keeps_rows_mret].
  destruct (decide _); [|apply keeps_rows_raise].
  apply keeps_rows_bind; [apply keeps_rows_execute|]. intros deal_result.
  apply keeps_rows_bind; [apply keeps_rows_scalar_one|]. intros deal.
  apply keeps_rows_mret.
Qed.

Lemma transaction_rollback {A} (body : M A) s exc s' :
  transaction body s = (inl exc, s') -> rows s' = rows s.
Proof.
  unfold transaction. destruct (body (set_begun true s)) as [[e|a] s1].
  - intros H. injection H as _ <-. reflexivity.
  - destruct (flush s1) as [[e|[]] s2]; [|discriminate].
    intros H. injection H as _ <-. reflexivity.
Qed.

Lemma release_inl_rows checkpw utcnow request db running exc db' running' :
  release_escrow checkpw utcnow request db running
    = (inl exc, db', running') ->
  db' = db.
Proof.
  unfold release_escrow, with_session.
  set (s0 := new_session db running).
  unfold mbind at 1. unfold M_bind at 1.
  destruct (idempotency_check utcnow request s0) as [[e|replay] s1] eqn:Hcheck.
  - intros H. injection H as _ <- _.
    rewrite (idempotency_check_keeps_rows _ _ _ _ _ Hcheck).
    destruct (begun s1); reflexivity.
  - pose proof (idempotency_check_keeps_rows _ _ _ _ _ Hcheck) as Hrows.
    destruct replay as [response|].
    + discriminate.
    + unfold session_begin. destruct (begun s1) eqn:Hb.
      * intros H. injection H as _ <- _. rewrite Hb. reflexivity.
      * destruct (transaction _ s1) as [[e|a] s2] eqn:Htx; [|discriminate].
        intros H. injection H as _ <- _.
        rewrite (transaction_rollback _ _ _ _ Htx), Hrows.
        destruct (begun s2); reflexivity.
Qed.

(** C3. A release call that fails, with whatever exception (deal or escrow
    missing, already released, invalid state, no PIN configured, wrong PIN,
    payer, producer or driver account missing, or any other), leaves every
    table as it was before the call: escrow rows, shipment rows and account
    balances. *)
Theorem release_failure_aborts checkpw utcnow request db running exc db'
    running' :
  release_escrow checkpw utcnow request db running
    = (inl exc, db', running') ->
  db' = db
  /\ (forall pk, escrow_transactions db' !! pk = escrow_transactions db !! pk)
  /\ (forall pk, shipments db' !! pk = shipments db !! pk)
  /\ (forall pk, users db' !! pk = users db !! pk).
Proof.
  intros H. apply release_inl_rows in H. subst db'. auto.
Qed.

(** ** Queries *)

Lemma select_where_elem {R} (table : gmap uuid R) (where_ : R -> bool) pk r :
  (pk, r) ∈ select_where table where_ <->
  table !! pk = Some r /\ where_ r = true.
Proof.
  unfold select_where. rewrite elem_of_map_to_list.
  rewrite map_lookup_filter_Some. reflexivity.
Qed.

Lemma select_where_singleton {R} (table : gmap uuid R) (where_ : R -> bool)
    pk r :
  select_where table where_ = [(pk, r)] ->
  table !! pk = Some r /\ where_ r = true
  /\ forall pk' r', table !! pk' = Some r' -> where_ r' = true ->
                    pk' = pk /\ r' = r.
Proof.
  intros H.
  assert (Hin : (pk, r) ∈ select_where table where_)
    by (rewrite H; apply list_elem_of_singleton; reflexivity).
  apply select_where_elem in Hin as [Hl Hw]. repeat split; try assumption.
  - assert (Hin' : (pk', r') ∈ select_where table where_)
      by (apply select_where_elem; auto).
    rewrite H in Hin'. apply list_elem_of_singleton in Hin'. congruence.
  - assert (Hin' : (pk', r') ∈ select_where table where_)
      by (apply select_where_elem; auto).
    rewrite H in Hin'. apply list_elem_of_singleton in Hin'. congruence.
Qed.

Lemma select_where_only_row {R} (table : gmap uuid R) (where_ : R -> bool)
    pk r :
  only_row table where_ pk r -> select_where table where_ = [(pk, r)].
Proof.
  intros (Hl & Hw & Huniq). unfold select_where.
  assert (Hf : filter (fun kv : uuid * R => where_ kv.2 = true) table
               = {[ pk := r ]}).
  { apply map_eq. intros j. destruct (decide (j = pk)) as [->|Hne].
    - rewrite lookup_singleton_eq. apply map_lookup_filter_Some. auto.
    - rewrite lookup_singleton_ne by congruence.
      apply map_lookup_filter_None. right. intros r' Hr' Hw'.
      simpl in Hw'. apply Hne. eauto. }
  rewrite Hf. apply map_to_list_singleton.
Qed.

Lemma select_where_nil {R} (table : gmap uuid R) (where_ : R -> bool) :
  (forall pk r, table !! pk = Some r -> where_ r = false) ->
  select_where table where_ = [].
Proof.
  intros Hnone. unfold select_where.
  assert (Hf : filter (fun kv : uuid * R => where_ kv.2 = true) table = ∅).
  { apply map_eq. intros j. rewrite lookup_empty.
    apply map_lookup_filter_None. right. intros r Hr Hw. simpl in Hw.
    rewrite (Hnone _ _ Hr) in Hw. discriminate. }
  rewrite Hf. apply map_to_list_empty.
Qed.

(** ** The settlement unit *)

Lemma scalar_one_or_none_inr {R} (result : list R) s o s' :
  scalar_one_or_none result s = (inr o, s') ->
  s' = s /\ (result = [] /\ o = None \/ exists r, result = [r] /\ o = Some r).
Proof.
  destruct result as [|r [|r' rest]]; simpl; intros H.
  - injection H as <- <-. auto.
  - injection H as <- <-. eauto.
  - discriminate.
Qed.

Lemma select_pk_singleton {R} (table : gmap uuid R) (o : option uuid) pk r :
  select_pk table o = [(pk, r)] -> o = Some pk /\ table !! pk = Some r.
Proof.
  unfold select_pk. destruct o as [k|]; [|discriminate].
  destruct (table !! k) as [r0|] eqn:E; [|discriminate].
  intros H. injection H as -> ->. auto.
Qed.

Lemma bind_escrow_setattr {B} pk k set (f : unit -> M B) s row :
  escrow_transactions (rows s) !! pk = Some row ->
  (escrow_setattr pk k set ≫= f) s
  = f tt {| rows := with_escrow_transactions (insert pk (set row)) (rows s);
            begun := begun s;
            committed_state :=
              record_previous pk k (getattr (escrow_columns pk row) k)
                (committed_state s);
            dirty_users := dirty_users s; users_table := users_table s;
            loop := loop s |}.
Proof.
  intros Hrow. unfold mbind, M_bind, escrow_setattr. rewrite Hrow.
  reflexivity.
Qed.

Lemma bind_user_set_balance {B} pk v (f : unit -> M B) s :
  (user_set_balance pk v ≫= f) s
  = f tt {| rows := with_users (alter (User.set_balance v) pk) (rows s);
            begun := begun s; committed_state := committed_state s;
            dirty_users := dirty_users s ++ [pk];
            users_table := users_table s; loop := loop s |}.
Proof. reflexivity. Qed.

(** A query that returns did flush: the session it reads in has no pending
    statement, whatever the flush wrote to [users]. *)
Lemma bind_execute_inr {A B} (query : Database -> A) (f : A -> M B) s b s' :
  (execute query ≫= f) s = (inr b, s') ->
  exists table,
    f (query (rows s))
      {| rows := rows s; begun := true; committed_state := [];
         dirty_users := []; users_table := table;
         loop :=
           flush_events (escrow_transactions (rows s)) (committed_state s)
             (loop s) |}
    = (inr b, s').
Proof.
  unfold execute, mbind, M_bind, flush.
  destruct (flush_users _ _ _) as [table|]; [|discriminate].
  intros H. exists table. exact H.
Qed.

Lemma bind_shipment_setattr {B} pk set (f : unit -> M B) s :
  (shipment_setattr pk set ≫= f) s
  = f tt (set_rows (with_shipments (alter set pk) (rows s)) s).
Proof. reflexivity. Qed.

Lemma alter_credited (table : gmap uuid User.t) pk account share :
  table !! pk = Some account ->
  alter (User.set_balance
           (Decimal.add (Decimal.or_ (User.balance account) (Dec 0 0)) share))
    pk table
  = alter (credited share) pk table.
Proof.
  intros Hl. apply alter_ext. intros x Hx. rewrite Hl in Hx.
  injection Hx as <-. reflexivity.
Qed.

Lemma record_previous_head pk k previous d rest :
  d !! k = None ->
  record_previous pk k previous ((pk, d) :: rest)
  = (pk, <[ k := previous ]> d) :: rest.
Proof.
  intros Hd. simpl. destruct (decide (pk = pk)); [|congruence].
  rewrite Hd. reflexivity.
Qed.

Ltac fetch H x Hres :=
  apply bind_inr in H as (x & ? & Hres & H);
  apply scalar_one_or_none_inr in Hres as [-> Hres].

Lemma settle_success checkpw now request s r s' :
  settle checkpw now request s = (inr r, s') ->
  exists deal escrow_pk escrow payer_pk payer hash producer_pk producer
         driver_pk driver,
    let deal_pk := EscrowReleaseRequest.deal_id request in
    let users1 :=
      alter (credited (producer_amount (EscrowTransaction.amount escrow)))
        producer_pk (users (rows s)) in
    deal_groups (rows s) !! deal_pk = Some deal
    /\ select_where (escrow_transactions (rows s)) (of_deal deal_pk)
       = [(escrow_pk, escrow)]
    /\ EscrowTransaction.status escrow = EscrowStatus.HELD
    /\ EscrowTransaction.payer_id escrow = Some payer_pk
    /\ users (rows s) !! payer_pk = Some payer
    /\ User.escrow_pin_hash payer = Some hash /\ hash <> ""%string
    /\ checkpw (EscrowReleaseRequest.pin request) hash = Some true
    /\ DealGroup.seller_id deal = Some producer_pk
    /\ users (rows s) !! producer_pk = Some producer
    /\ DealGroup.driver_id deal = Some driver_pk
    /\ users1 !! driver_pk = Some driver
    /\ r = release_response request deal escrow_pk escrow producer_pk
             producer driver_pk driver now
    /\ users (rows s')
       = alter (credited (driver_amount (EscrowTransaction.amount escrow)))
           driver_pk users1
    /\ escrow_transactions (rows s')
       = <[ escrow_pk := settled_escrow now request payer_pk escrow ]>
           (escrow_transactions (rows s))
    /\ shipments (rows s')
       = delivered_shipments now deal_pk (shipments (rows s))
    /\ deal_groups (rows s') = deal_groups (rows s)
    /\ audit_logs (rows s') = audit_logs (rows s)
    /\ loop s'
       = escrow_after_update
           (instance_state escrow_pk
              (escrow_columns escrow_pk
                 (settled_escrow now request payer_pk escrow))
              (settled_committed_state request escrow))
           (flush_events (escrow_transactions (rows s)) (committed_state s)
              (loop s))
    /\ committed_state s' = [].
Proof.
  unfold settle. intros H. apply bind_execute_inr in H as (table0 & H).
  fetch H deal Hdeal.
  destruct deal as [[deal_pk deal]|]; [|discriminate].
  destruct Hdeal as [[_ ?]|(x & Hdeal & Hx)]; [discriminate|].
  injection Hx as <-. apply select_pk_singleton in Hdeal as [Hpk Hdeal].
  injection Hpk as <-.
  apply bind_execute_inr in H as (table1 & H). cbn [rows] in H.
  fetch H escrow Hescrow.
  destruct escrow as [[escrow_pk escrow]|]; [|discriminate].
  destruct Hescrow as [[_ ?]|(x & Hescrow & Hx)]; [discriminate|].
  injection Hx as <-.
  destruct (decide (EscrowTransaction.status escrow
                    = EscrowStatus.FUNDS_RELEASED)); [discriminate|].
  destruct (decide (EscrowTransaction.status escrow <> EscrowStatus.HELD))
    as [|Hheld]; [discriminate|].
  apply dec_stable in Hheld.
  apply bind_execute_inr in H as (table2 & H). cbn [rows] in H.
  fetch H payer Hpayer.
  destruct payer as [[payer_pk payer]|]; [|discriminate].
  destruct Hpayer as [[_ ?]|(x & Hpayer & Hx)]; [discriminate|].
  injection Hx as <-. apply select_pk_singleton in Hpayer as [Hpayer_id Hpayer].
  destruct (User.escrow_pin_hash payer) as [hash|] eqn:Hhash;
    [|discriminate].
  cbn [str_truthy default from_option id] in H.
  destruct (bool_decide (hash = ""%string)) eqn:Hne; [discriminate|].
  apply bool_decide_eq_false in Hne. cbn [negb] in H.
  apply bind_inr in H as (pin_ok & ? & Hpin & H).
  unfold _verify_pin in Hpin.
  destruct (checkpw _ _) as [ok|] eqn:Hcheck; [|discriminate].
  injection Hpin as -> <-.
  destruct pin_ok; [|discriminate]. cbn [negb] in H.
  pose proof (select_where_singleton _ _ _ _ Hescrow) as (Hrow & _ & _).
  rewrite (bind_escrow_setattr _ _ _ _ _ escrow) in H by exact Hrow.
  rewrite (bind_escrow_setattr _ _ _ _ _
             (EscrowTransaction.set_status EscrowStatus.FUNDS_RELEASED escrow))
    in H by (cbn; apply lookup_insert_eq).
  rewrite (bind_escrow_setattr _ _ _ _ _
             (EscrowTransaction.set_released_at (Some now)
               (EscrowTransaction.set_status EscrowStatus.FUNDS_RELEASED
                  escrow)))
    in H by (cbn; apply lookup_insert_eq).
  match type of H with
  | (_ ≫= ?k) _ = _ => assert (Hstep6 : exists s6,
    k tt s6 = (inr r, s')
    /\ users (rows s6) = users (rows s)
    /\ escrow_transactions (rows s6)
       = <[ escrow_pk := settled_escrow now request payer_pk escrow ]>
           (escrow_transactions (rows s))
    /\ shipments (rows s6) = shipments (rows s)
    /\ deal_groups (rows s6) = deal_groups (rows s)
    /\ audit_logs (rows s6) = audit_logs (rows s)
    /\ committed_state s6
       = [(escrow_pk, settled_committed_state request escrow)]
    /\ loop s6
       = flush_events (escrow_transactions (rows s)) (committed_state s)
           (loop s))
  end.
  { unfold settled_escrow, settled_committed_state.
    destruct (str_truthy (EscrowReleaseRequest.idempotency_key request)).
    - rewrite (bind_escrow_setattr _ _ _ _ _
                 (EscrowTransaction.set_released_by_id (Some payer_pk)
                   (EscrowTransaction.set_released_at (Some now)
                     (EscrowTransaction.set_status EscrowStatus.FUNDS_RELEASED
                        escrow))))
        in H by (cbn; apply lookup_insert_eq).
      eexists. split; [exact H|]. cbn [rows users escrow_transactions
        shipments deal_groups audit_logs with_escrow_transactions
        committed_state loop].
      rewrite !insert_insert_eq.
      change (record_previous escrow_pk "status" ?v [])
        with [(escrow_pk, ({[ "status"%string := v ]} : gmap string value))].
      rewrite !record_previous_head by reflexivity. auto 10.
    - rewrite bind_mret in H.
      eexists. split; [exact H|]. cbn [rows users escrow_transactions
        shipments deal_groups audit_logs with_escrow_transactions
        committed_state loop].
      rewrite !insert_insert_eq.
      change (record_previous escrow_pk "status" ?v [])
        with [(escrow_pk, ({[ "status"%string := v ]} : gmap string value))].
      rewrite !record_previous_head by reflexivity. auto 10. }
  clear H. destruct Hstep6 as (s6 & H & Husers6 & Hescrows6 & Hship6 & Hdeals6
                               & Hlogs6 & Hcs6 & Hloop6).
  cbv beta in H.
  apply bind_execute_inr in H as (table3 & H). cbn [rows] in H.
  fetch H producer Hproducer.
  destruct producer as [[producer_pk producer]|]; [|discriminate].
  destruct Hproducer as [[_ ?]|(x & Hproducer & Hx)]; [discriminate|].
  injection Hx as <-.
  apply select_pk_singleton in Hproducer as [Hseller Hproducer].
  rewrite bind_user_set_balance in H.
  apply bind_execute_inr in H as (table4 & H). cbn [rows set_rows] in H.
  fetch H driver Hdriver.
  destruct driver as [[driver_pk driver]|]; [|discriminate].
  destruct Hdriver as [[_ ?]|(x & Hdriver & Hx)]; [discriminate|].
  injection Hx as <-.
  apply select_pk_singleton in Hdriver as [Hdriver_id Hdriver].
  cbn [users with_users] in Hdriver.
  rewrite (alter_credited _ _ _ _ Hproducer) in Hdriver.
  rewrite bind_user_set_balance in H.
  apply bind_execute_inr in H as (table5 & H).
  cbn [rows set_rows shipments with_users committed_state loop
       escrow_transactions] in H.
  rewrite Hship6, Hcs6, Hescrows6, Hloop6 in H.
  rewrite Husers6 in Hproducer, Hdriver.
  change (flush_events ?t [] ?l) with l in H.
  unfold flush_events in H. cbn [foldl fst snd] in H.
  rewrite lookup_insert_eq in H.
  fold (flush_events (escrow_transactions (rows s)) (committed_state s)
          (loop s)) in H.
  fetch H shipment Hship.
  exists deal, escrow_pk, escrow, payer_pk, payer, hash, producer_pk,
    producer, driver_pk, driver.
  cbv zeta. unfold delivered_shipments.
  destruct shipment as [[shipment_pk sh]|].
  - destruct Hship as [[_ ?]|(x & Hship & Hx)]; [discriminate|].
    injection Hx as <-. rewrite Hship.
    unfold mbind, M_bind, shipment_setattr, mret, M_ret in H.
    cbv beta iota in H. injection H as <- <-.
    cbn [rows set_rows users shipments escrow_transactions deal_groups
         audit_logs with_users with_shipments loop committed_state].
    rewrite Husers6, Hescrows6, Hship6, Hdeals6, Hlogs6.
    rewrite (alter_credited _ _ _ _ Hproducer).
    rewrite (alter_credited _ _ _ _ Hdriver).
    repeat split; auto.
  - destruct Hship as [[Hship _]|(x & _ & ?)]; [|discriminate].
    rewrite Hship.
    unfold mbind, M_bind, mret, M_ret in H.
    cbv beta iota in H. injection H as <- <-.
    cbn [rows set_rows users shipments escrow_transactions deal_groups
         audit_logs with_users with_shipments loop committed_state].
    rewrite Husers6, Hescrows6, Hship6, Hdeals6, Hlogs6.
    rewrite (alter_credited _ _ _ _ Hproducer).
    rewrite (alter_credited _ _ _ _ Hdriver).
    repeat split; auto.
Qed.

(** ** The released escrow *)

Lemma settled_escrow_status now request payer_pk escrow :
  EscrowTransaction.status (settled_escrow now request payer_pk escrow)
  = EscrowStatus.FUNDS_RELEASED.
Proof. unfold settled_escrow. destruct (str_truthy _); reflexivity. Qed.

(** ** The audit listeners *)

Lemma has_changes_history (a : Attribute) :
  has_changes (history a) = true <-> history_changed a.
Proof.
  unfold history, history_changed. destruct (committed a) as [original|].
  - destruct (value_eqb (current a) original) eqn:E; cbn.
    + split; [discriminate|]. intros (o & Ho & Hne). congruence.
    + split; [eauto|reflexivity].
  - cbn. split; [discriminate|]. intros (o & Ho & _). discriminate.
Qed.

Lemma changed_entry (a : Attribute) :
  history_changed a ->
  {| old := _serialize_value (first_or_None (deleted (history a)));
     new := _serialize_value (first_or_None (added (history a))) |}
  = change_of a.
Proof.
  intros (original & Ho & Hne). unfold history, change_of.
  rewrite Ho, Hne. reflexivity.
Qed.

Lemma foldl_changes (attrs : list Attribute) (acc : gmap string Change) k ch :
  NoDup (key <$> attrs) ->
  (forall a, a ∈ attrs -> acc !! key a = None) ->
  foldl changes_step acc attrs !! k = Some ch <->
  acc !! k = Some ch
  \/ exists a, a ∈ attrs /\ key a = k /\ history_changed a
               /\ ch = change_of a.
Proof.
  revert acc. induction attrs as [|a attrs IH]; intros acc Hnodup Hfresh.
  - cbn. split; [auto|]. intros [H|(a & Ha & _)]; [exact H|].
    apply elem_of_nil in Ha. contradiction.
  - rewrite fmap_cons in Hnodup. apply NoDup_cons in Hnodup as [Hnotin Hnodup].
    cbn [foldl]. rewrite IH; [|exact Hnodup|].
    + unfold changes_step.
      destruct (has_changes (history a)) eqn:Hch.
      * apply has_changes_history in Hch.
        rewrite (changed_entry a Hch). split.
        -- intros [Hins|(b & Hb & Hk & Hc & Hv)].
           ++ apply lookup_insert_Some in Hins as [[<- <-]|[Hne Hacc]].
              ** right. exists a. split; [apply list_elem_of_here|auto].
              ** left. exact Hacc.
           ++ right. exists b. split; [apply list_elem_of_further, Hb|auto].
        -- intros [Hacc|(b & Hb & Hk & Hc & Hv)].
           ++ left. apply lookup_insert_Some. right. split; [|exact Hacc].
              intros <-. rewrite Hfresh in Hacc by apply list_elem_of_here.
              discriminate.
           ++ apply elem_of_cons in Hb as [->|Hb].
              ** left. subst. apply lookup_insert_eq.
              ** right. exists b. auto.
      * split.
        -- intros [Hacc|(b & Hb & Hk & Hc & Hv)]; [left; exact Hacc|].
           right. exists b. split; [apply list_elem_of_further, Hb|auto].
        -- intros [Hacc|(b & Hb & Hk & Hc & Hv)]; [left; exact Hacc|].
           apply elem_of_cons in Hb as [->|Hb].
           ++ apply has_changes_history in Hc. congruence.
           ++ right. exists b. auto.
    + intros b Hb. unfold changes_step.
      assert (Hne : key a <> key b).
      { intros Heq. apply Hnotin. rewrite Heq.
        apply list_elem_of_fmap. exists b. auto. }
      destruct (has_changes (history a)).
      * rewrite lookup_insert_ne by exact Hne.
        apply Hfresh, list_elem_of_further, Hb.
      * apply Hfresh, list_elem_of_further, Hb.
Qed.

Lemma get_changes_lookup (target : InstanceState.t) k ch :
  NoDup (key <$> InstanceState.attrs target) ->
  _get_changes target !! k = Some ch <->
  exists a, a ∈ InstanceState.attrs target /\ key a = k
            /\ history_changed a /\ ch = change_of a.
Proof.
  intros Hnodup. unfold _get_changes.
  change (foldl _ ∅ (InstanceState.attrs target))
    with (foldl changes_step ∅ (InstanceState.attrs target)).
  rewrite foldl_changes; [|exact Hnodup|intros; apply lookup_empty].
  rewrite lookup_empty. split.
  - intros [?|H]; [discriminate|exact H].
  - auto.
Qed.

Lemma get_changes_empty (target : InstanceState.t) :
  (forall a, a ∈ InstanceState.attrs target -> ~ history_changed a) ->
  _get_changes target = ∅.
Proof.
  intros Hnone. unfold _get_changes.
  induction (InstanceState.attrs target) as [|a attrs IH]; [reflexivity|].
  cbn [foldl]. destruct (has_changes (history a)) eqn:Hch.
  - apply has_changes_history in Hch. exfalso.
    apply (Hnone a); [apply list_elem_of_here|exact Hch].
  - apply IH. intros b Hb. apply Hnone, list_elem_of_further, Hb.
Qed.

Lemma foldl_snapshot (attrs : list Attribute) (acc : gmap string json) a :
  NoDup (key <$> attrs) -> a ∈ attrs ->
  foldl (fun snapshot attr =>
           <[ key attr := _serialize_value (current attr) ]> snapshot)
    acc attrs !! key a
  = Some (_serialize_value (current a)).
Proof.
  revert acc. induction attrs as [|b attrs IH]; intros acc Hnodup Ha.
  - apply elem_of_nil in Ha. contradiction.
  - rewrite fmap_cons in Hnodup. apply NoDup_cons in Hnodup as [Hnotin Hnodup].
    cbn [foldl]. apply elem_of_cons in Ha as [->|Ha].
    + clear IH. revert acc. induction attrs as [|c attrs IH]; intros acc.
      * cbn. apply lookup_insert_eq.
      * cbn [foldl]. rewrite fmap_cons in Hnotin, Hnodup.
        apply not_elem_of_cons in Hnotin as [Hne Hnotin].
        apply NoDup_cons in Hnodup as [_ Hnodup].
        rewrite insert_insert_ne by congruence.
        apply IH; assumption.
    + apply IH; assumption.
Qed.

Lemma NoDup_column_keys (attrs : list Attribute) :
  NoDup (key <$> attrs) ->
  NoDup (key <$> filter (fun attr => is_column attr = true) attrs).
Proof.
  induction attrs as [|b attrs IH]; intros Hnodup; [constructor|].
  rewrite fmap_cons in Hnodup. apply NoDup_cons in Hnodup as [Hnotin Hnodup].
  rewrite filter_cons. destruct (decide (is_column b = true)).
  - rewrite fmap_cons. apply NoDup_cons. split.
    + intros Hin. apply Hnotin.
      apply list_elem_of_fmap in Hin as (c & Hkey & Hc).
      apply list_elem_of_filter in Hc as [_ Hc].
      apply list_elem_of_fmap. exists c. auto.
    + apply IH. exact Hnodup.
  - apply IH. exact Hnodup.
Qed.

Lemma get_snapshot_lookup (target : InstanceState.t) a :
  NoDup (key <$> InstanceState.attrs target) ->
  a ∈ InstanceState.attrs target -> is_column a = true ->
  _get_snapshot target !! key a = Some (_serialize_value (current a)).
Proof.
  intros Hnodup Ha Hcol. unfold _get_snapshot. apply foldl_snapshot.
  - apply NoDup_column_keys. exact Hnodup.
  - apply list_elem_of_filter. auto.
Qed.

Lemma after_update_changed table_name (target : InstanceState.t) tasks :
  _get_changes target <> ∅ ->
  after_update table_name target (Some tasks)
  = Some (tasks ++ [ {| task_action := "UPDATE";
                        task_table_name := table_name;
                        task_record_id := str_uuid (InstanceState.id target);
                        task_changes := _get_changes target;
                        task_snapshot := _get_snapshot target |} ]).
Proof.
  intros Hne. unfold after_update.
  destruct (decide (_get_changes target = ∅)); [contradiction|reflexivity].
Qed.

(** ** The audit of a settlement *)

Lemma escrow_columns_keys pk row cs :
  key <$> InstanceState.attrs (instance_state pk (escrow_columns pk row) cs)
  = ["id"; "deal_group_id"; "amount"; "currency"; "status"; "payer_id";
     "payee_id"; "released_by_id"; "idempotency_key"; "released_at";
     "created_at"]%string.
Proof. reflexivity. Qed.

Lemma escrow_columns_NoDup pk row cs :
  NoDup (key <$> InstanceState.attrs
                   (instance_state pk (escrow_columns pk row) cs)).
Proof.
  rewrite escrow_columns_keys.
  apply (bool_decide_unpack (NoDup _)). vm_compute. exact I.
Qed.

Lemma settled_status_change now request payer_pk escrow_pk escrow :
  EscrowTransaction.status escrow = EscrowStatus.HELD ->
  _get_changes
    (instance_state escrow_pk
       (escrow_columns escrow_pk (settled_escrow now request payer_pk escrow))
       (settled_committed_state request escrow))
  !! "status"%string
  = Some {| old := JString "held"; new := JString "funds_released" |}.
Proof.
  intros Hheld. apply get_changes_lookup; [apply escrow_columns_NoDup|].
  exists {| key := "status"; is_column := true;
            committed := Some (VEnum "held");
            current := VEnum "funds_released" |}.
  split; [|split; [reflexivity|split]].
  - unfold instance_state, escrow_columns.
    cbn [InstanceState.attrs fmap list_fmap].
    rewrite settled_escrow_status.
    do 4 apply list_elem_of_further.
    replace (settled_committed_state request escrow !! "status"%string)
      with (Some (VEnum "held")); [apply list_elem_of_here|].
    unfold settled_committed_state. rewrite Hheld.
    destruct (str_truthy _); reflexivity.
  - exists (VEnum "held"). split; reflexivity.
  - reflexivity.
Qed.

Lemma run_tasks_business faults tasks db :
  let db' := run_tasks faults tasks db in
  users db' = users db /\ deal_groups db' = deal_groups db
  /\ escrow_transactions db' = escrow_transactions db
  /\ shipments db' = shipments db.
Proof.
  revert faults db. induction tasks as [|task tasks IH]; intros faults db.
  - cbn. auto.
  - cbn [run_tasks]. cbv zeta in *.
    destruct (IH (tail faults)
                (with_audit_logs (run_task (default None (head faults)) task)
                   db)) as (Hu & Hd & He & Hs).
    rewrite Hu, Hd, He, Hs. auto.
Qed.

(** ** Entering the settlement *)

Lemma flush_events_nil escrows running :
  flush_events escrows [] running = running.
Proof. reflexivity. Qed.

Lemma select_pk_lookup {R} (table : gmap uuid R) pk r :
  table !! pk = Some r -> select_pk table (Some pk) = [(pk, r)].
Proof. intros H. unfold select_pk. rewrite H. reflexivity. Qed.

Lemma select_pk_missing {R} (table : gmap uuid R) (o : option uuid) :
  (forall pk, o = Some pk -> table !! pk = None) -> select_pk table o = [].
Proof.
  intros Hmissing. unfold select_pk. destruct o as [pk|]; [|reflexivity].
  rewrite (Hmissing pk eq_refl). reflexivity.
Qed.

Lemma select_where_at_most_one {R} (table : gmap uuid R) (where_ : R -> bool) :
  at_most_one_row table where_ ->
  select_where table where_ = []
  \/ exists pk r, select_where table where_ = [(pk, r)].
Proof.
  intros Hone.
  destruct (select_where table where_) as [|[pk r] [|[pk' r'] rest]] eqn:Hsel;
    [left; reflexivity | right; eauto |].
  exfalso.
  assert (H1 : (pk, r) ∈ select_where table where_)
    by (rewrite Hsel; apply list_elem_of_here).
  assert (H2 : (pk', r') ∈ select_where table where_)
    by (rewrite Hsel; apply list_elem_of_further, list_elem_of_here).
  apply select_where_elem in H1 as [Hl1 Hw1].
  apply select_where_elem in H2 as [Hl2 Hw2].
  assert (pk = pk') by (eapply Hone; eauto). subst pk'.
  assert (r = r') by congruence. subst r'.
  pose proof (NoDup_map_to_list
                (filter (fun kv : uuid * R => where_ kv.2 = true) table))
    as Hnodup.
  unfold select_where in Hsel. rewrite Hsel in Hnodup.
  apply NoDup_cons in Hnodup as [Hnotin _]. apply Hnotin.
  apply list_elem_of_here.
Qed.

Lemma select_where_two {R} (table : gmap uuid R) (where_ : R -> bool)
    pk1 r1 pk2 r2 :
  table !! pk1 = Some r1 -> where_ r1 = true ->
  table !! pk2 = Some r2 -> where_ r2 = true -> pk1 <> pk2 ->
  exists x y rest, select_where table where_ = x :: y :: rest.
Proof.
  intros Hl1 Hw1 Hl2 Hw2 Hne.
  assert (H1 : (pk1, r1) ∈ select_where table where_)
    by (apply select_where_elem; auto).
  assert (H2 : (pk2, r2) ∈ select_where table where_)
    by (apply select_where_elem; auto).
  destruct (select_where table where_) as [|x [|y rest]]; [| |eauto].
  - apply elem_of_nil in H1. contradiction.
  - apply list_elem_of_singleton in H1, H2. congruence.
Qed.

Lemma idempotency_check_keyless utcnow request s :
  reaches_settlement request ->
  idempotency_check utcnow request s = (inr None, s).
Proof.
  intros Hreach. unfold idempotency_check. rewrite Hreach. reflexivity.
Qed.

Lemma release_enters checkpw utcnow request db running :
  reaches_settlement request ->
  release_escrow checkpw utcnow request db running
  = settlement_outcome db
      (settle checkpw utcnow request (in_transaction db running)).
Proof.
  intros Hreach. unfold release_escrow, with_session.
  unfold mbind at 1. unfold M_bind at 1.
  rewrite (idempotency_check_keyless _ _ _ Hreach).
  unfold session_begin. cbn [begun new_session]. unfold transaction.
  change (set_begun true (new_session db running))
    with (in_transaction db running).
  unfold settlement_outcome.
  destruct (settle checkpw utcnow request (in_transaction db running))
    as [[exc|r] s1]; [reflexivity|].
  destruct (flush s1) as [[exc|[]] s2]; reflexivity.
Qed.

Lemma idempotency_check_inr utcnow request db running o s1 :
  idempotency_check utcnow request (new_session db running) = (inr o, s1) ->
  rows s1 = db /\ loop s1 = running
  /\ (str_truthy (EscrowReleaseRequest.idempotency_key request) = true ->
      begun s1 = true)
  /\ match o with
     | Some response =>
         exists existing_pk existing deal,
           str_truthy (EscrowReleaseRequest.idempotency_key request) = true
           /\ select_where (escrow_transactions db)
                (with_key (EscrowReleaseRequest.idempotency_key request))
              = [(existing_pk, existing)]
           /\ EscrowTransaction.status existing = EscrowStatus.FUNDS_RELEASED
           /\ deal_groups db !! EscrowTransaction.deal_group_id existing
              = Some deal
           /\ response
              = replay_response request deal existing_pk existing utcnow
     | None => True
     end.
Proof.
  unfold idempotency_check.
  destruct (str_truthy (EscrowReleaseRequest.idempotency_key request)) eqn:Hkey.
  - rewrite bind_execute by reflexivity.
    cbn [rows committed_state loop new_session users_table].
    rewrite flush_events_nil. intros H.
    fetch H existing Hexisting.
    destruct existing as [[existing_pk existing]|].
    + destruct Hexisting as [[_ ?]|(x & Hexisting & Hx)]; [discriminate|].
      injection Hx as <-.
      destruct (decide (EscrowTransaction.status existing
                        = EscrowStatus.FUNDS_RELEASED)) as [Hfr|];
        [|discriminate].
      rewrite bind_execute in H by reflexivity.
      cbn [rows committed_state loop] in H.
      rewrite flush_events_nil in H.
      apply bind_inr in H as (deal & s2 & Hdeal & H).
      injection H as <- <-.
      destruct (select_pk _ _) as [|[deal_pk deal0] [|]] eqn:Hsel;
        try discriminate.
      simpl in Hdeal. injection Hdeal as <- <-.
      apply select_pk_singleton in Hsel as [Hpk Hsel]. injection Hpk as <-.
      cbn. repeat split. eauto 10.
    + destruct Hexisting as [[Hexisting _]|(x & _ & ?)]; [|discriminate].
      injection H as <- <-. cbn. auto 10.
  - intros H. injection H as <- <-. repeat split; auto.
Qed.

(** A request with a key returns a response only as a replay. *)
Lemma release_keyed checkpw utcnow request db running r db' running' :
  str_truthy (EscrowReleaseRequest.idempotency_key request) = true ->
  release_escrow checkpw utcnow request db running = (inr r, db', running') ->
  exists existing_pk existing deal,
    select_where (escrow_transactions db)
      (with_key (EscrowReleaseRequest.idempotency_key request))
    = [(existing_pk, existing)]
    /\ EscrowTransaction.status existing = EscrowStatus.FUNDS_RELEASED
    /\ deal_groups db !! EscrowTransaction.deal_group_id existing = Some deal
    /\ r = replay_response request deal existing_pk existing utcnow
    /\ db' = db /\ running' = running.
Proof.
  intros Hkey. unfold release_escrow, with_session.
  unfold mbind at 1. unfold M_bind at 1.
  destruct (idempotency_check utcnow request (new_session db running))
    as [[e|replay] s1] eqn:Hcheck; [discriminate|].
  apply idempotency_check_inr in Hcheck as (Hrows & Hloop & Hbegun & Hreplay).
  destruct replay as [response|].
  - intros H. injection H as <- <- <-.
    destruct Hreplay as (existing_pk & existing & deal & _ & ? & ? & ? & ?).
    exists existing_pk, existing, deal. rewrite Hrows, Hloop.
    repeat split; auto. destruct (begun s1); reflexivity.
  - unfold session_begin. rewrite (Hbegun Hkey). discriminate.
Qed.
(** ** Running the settlement forward *)

Lemma step6_bind {B} (k : unit -> M B) s pk escrow now request payer_pk :
  escrow_transactions (rows s) !! pk = Some escrow ->
  committed_state s = [] ->
  (escrow_setattr pk "status"
     (EscrowTransaction.set_status EscrowStatus.FUNDS_RELEASED)
   ≫= fun _ =>
   escrow_setattr pk "released_at"
     (EscrowTransaction.set_released_at (Some now))
   ≫= fun _ =>
   escrow_setattr pk "released_by_id"
     (EscrowTransaction.set_released_by_id (Some payer_pk))
   ≫= fun _ =>
   (if str_truthy (EscrowReleaseRequest.idempotency_key request)
    then escrow_setattr pk "idempotency_key"
           (EscrowTransaction.set_idempotency_key
              (EscrowReleaseRequest.idempotency_key request))
    else mret tt)
   ≫= k) s
  = k tt
      {| rows :=
           with_escrow_transactions
             (insert pk (settled_escrow now request payer_pk escrow)) (rows s);
         begun := begun s;
         committed_state := [(pk, settled_committed_state request escrow)];
         dirty_users := dirty_users s; users_table := users_table s;
         loop := loop s |}.
Proof.
  intros Hrow Hcs.
  rewrite (bind_escrow_setattr _ _ _ _ _ escrow) by exact Hrow.
  rewrite (bind_escrow_setattr _ _ _ _ _
             (EscrowTransaction.set_status EscrowStatus.FUNDS_RELEASED escrow))
    by (cbn; apply lookup_insert_eq).
  rewrite (bind_escrow_setattr _ _ _ _ _
             (EscrowTransaction.set_released_at (Some now)
               (EscrowTransaction.set_status EscrowStatus.FUNDS_RELEASED
                  escrow)))
    by (cbn; apply lookup_insert_eq).
  unfold settled_escrow, settled_committed_state.
  destruct (str_truthy (EscrowReleaseRequest.idempotency_key request)).
  - rewrite (bind_escrow_setattr _ _ _ _ _
               (EscrowTransaction.set_released_by_id (Some payer_pk)
                 (EscrowTransaction.set_released_at (Some now)
                   (EscrowTransaction.set_status EscrowStatus.FUNDS_RELEASED
                      escrow))))
      by (cbn; apply lookup_insert_eq).
    f_equal. cbn [rows begun committed_state dirty_users users_table loop].
    rewrite Hcs.
    change (record_previous pk "status" ?v [])
      with [(pk, ({[ "status"%string := v ]} : gmap string value))].
    rewrite !record_previous_head by reflexivity.
    unfold with_escrow_transactions. cbn [users deal_groups escrow_transactions
      shipments audit_logs]. rewrite !insert_insert_eq. reflexivity.
  - rewrite bind_mret.
    f_equal. cbn [rows begun committed_state dirty_users users_table loop].
    rewrite Hcs.
    change (record_previous pk "status" ?v [])
      with [(pk, ({[ "status"%string := v ]} : gmap string value))].
    rewrite !record_previous_head by reflexivity.
    unfold with_escrow_transactions. cbn [users deal_groups escrow_transactions
      shipments audit_logs]. rewrite !insert_insert_eq. reflexivity.
Qed.

Lemma settlement_task_created now request escrow_pk escrow payer_pk running :
  EscrowTransaction.status escrow = EscrowStatus.HELD ->
  escrow_after_update
    (instance_state escrow_pk
       (escrow_columns escrow_pk (settled_escrow now request payer_pk escrow))
       (settled_committed_state request escrow)) running
  = create_task (settlement_task now request escrow_pk escrow payer_pk)
      running.
Proof.
  intros Hheld. unfold escrow_after_update, after_update.
  destruct (decide _) as [Hempty|_]; [|reflexivity].
  pose proof (settled_status_change now request payer_pk escrow_pk escrow Hheld)
    as Hstatus.
  rewrite Hempty, lookup_empty in Hstatus. discriminate.
Qed.

Lemma flush_settlement now request escrow_pk escrow payer_pk escrows running :
  EscrowTransaction.status escrow = EscrowStatus.HELD ->
  flush_events
    (<[ escrow_pk := settled_escrow now request payer_pk escrow ]> escrows)
    [(escrow_pk, settled_committed_state request escrow)] running
  = create_task (settlement_task now request escrow_pk escrow payer_pk)
      running.
Proof.
  intros Hheld. unfold flush_events. cbn [foldl fst snd].
  rewrite lookup_insert_eq. apply settlement_task_created. exact Hheld.
Qed.

Lemma str_truthy_Some (hash : string) :
  hash <> ""%string -> str_truthy (Some hash) = true.
Proof.
  intros Hne. unfold str_truthy. rewrite bool_decide_eq_false_2 by exact Hne.
  reflexivity.
Qed.

(** Steps 2 to 4 on a deal with its one HELD escrow. *)
Ltac run_checks Hdeal Hescrow Hheld :=
  unfold settle, in_transaction, new_session, set_begun;
  cbn [rows begun committed_state dirty_users users_table loop];
  rewrite bind_execute by reflexivity;
  cbn [rows committed_state dirty_users users_table loop];
  rewrite flush_events_nil, (select_pk_lookup _ _ _ Hdeal);
  cbn [scalar_one_or_none]; rewrite bind_mret;
  rewrite bind_execute by reflexivity;
  cbn [rows committed_state dirty_users users_table loop];
  rewrite flush_events_nil;
  rewrite (select_where_only_row _ _ _ _ Hescrow);
  cbn [scalar_one_or_none]; rewrite bind_mret;
  destruct (decide (EscrowTransaction.status _ = EscrowStatus.FUNDS_RELEASED));
    [congruence|];
  destruct (decide (EscrowTransaction.status _ <> EscrowStatus.HELD));
    [contradiction|];
  rewrite bind_execute by reflexivity;
  cbn [rows committed_state dirty_users users_table loop];
  rewrite flush_events_nil.

(** Step 5 with a payer whose PIN matches, then step 6 and the flush of
    step 7. *)
Ltac run_authorized Hescrow Hheld Hpayer_id Hpayer Hhash Hne Hpin :=
  rewrite Hpayer_id, (select_pk_lookup _ _ _ Hpayer);
  cbn [scalar_one_or_none]; rewrite bind_mret;
  rewrite Hhash, (str_truthy_Some _ Hne); cbn [negb default from_option id];
  unfold _verify_pin; rewrite Hpin, bind_mret; cbn [negb];
  rewrite (step6_bind _ _ _ _) by first [exact (proj1 Hescrow) | reflexivity];
  rewrite bind_execute by reflexivity;
  cbn [rows committed_state dirty_users users_table loop escrow_transactions
       with_escrow_transactions users];
  rewrite (flush_settlement _ _ _ _ _ _ _ Hheld).

(** A credit (step 7 or 8) and the flush before the next query: the object
    keeps the sum as computed, the table stores it rounded, unless it does
    not fit the column. *)
Lemma bind_credit_execute {A B} pk account share (query : Database -> A)
    (f : A -> M B) s :
  dirty_users s = [] -> users (rows s) !! pk = Some account ->
  (user_set_balance pk
     (Decimal.add (Decimal.or_ (User.balance account) (Dec 0 0)) share)
   ≫= fun _ => execute query ≫= f) s
  = if storable pk (alter (credited share) pk (users (rows s)))
    then f (query (with_users (alter (credited share) pk) (rows s)))
           {| rows := with_users (alter (credited share) pk) (rows s);
              begun := true; committed_state := []; dirty_users := [];
              users_table :=
                alter
                  (User.set_balance
                     (Decimal.round_cents
                        (User.balance (credited share account))))
                  pk (users_table s);
              loop :=
                flush_events (escrow_transactions (rows s))
                  (committed_state s) (loop s) |}
    else (inl DBAPIError,
          {| rows := with_users (alter (credited share) pk) (rows s);
             begun := begun s; committed_state := committed_state s;
             dirty_users := [pk]; users_table := users_table s;
             loop := loop s |}).
Proof.
  intros Hclean Haccount. rewrite bind_user_set_balance.
  rewrite (bind_execute_user _ _ _ pk (credited share account)).
  - cbn [rows users with_users committed_state dirty_users users_table loop
         begun escrow_transactions].
    unfold with_users.
    rewrite Hclean, (alter_credited _ _ _ _ Haccount). reflexivity.
  - cbn [dirty_users]. rewrite Hclean. reflexivity.
  - cbn [rows users with_users]. rewrite lookup_alter_eq, Haccount.
    reflexivity.
Qed.

Lemma release_response_driver_name request deal escrow_pk escrow producer_pk
    producer driver_pk driver driver' now :
  User.full_name driver' = User.full_name driver ->
  release_response request deal escrow_pk escrow producer_pk producer
    driver_pk driver' now
  = release_response request deal escrow_pk escrow producer_pk producer
      driver_pk driver now.
Proof. intros Hname. unfold release_response. rewrite Hname. reflexivity. Qed.

Lemma round_cents_idem a :
  Decimal.round_cents (Decimal.round_cents a) = Decimal.round_cents a.
Proof.
  unfold Decimal.round_cents at 2 3.
  destruct (-2 <=? Decimal.exp a); unfold Decimal.round_cents;
    cbn [Decimal.exp Decimal.coef];
    change (-2 <=? -2) with true; cbv iota;
    change (10 ^ (-2 + 2)) with 1; rewrite Z.mul_1_r; reflexivity.
Qed.

Lemma stored_idem account : stored (stored account) = stored account.
Proof.
  unfold stored. destruct account. cbn. rewrite round_cents_idem.
  reflexivity.
Qed.

Lemma stored_is account v :
  v = Decimal.round_cents (User.balance account) ->
  User.set_balance v account = stored account.
Proof. intros ->. reflexivity. Qed.

(** The [users] table after the two UPDATEs of a settlement. *)
Lemma settled_users A p d (accounts : gmap uuid User.t) producer driver1 :
  accounts !! p = Some producer ->
  producer_credited A p accounts !! d = Some driver1 ->
  alter (User.set_balance
           (Decimal.round_cents
              (User.balance (credited (driver_amount A) driver1)))) d
    (alter (User.set_balance
              (Decimal.round_cents
                 (User.balance (credited (producer_amount A) producer)))) p
       accounts)
  = alter stored d (alter stored p (both_credited A p d accounts)).
Proof.
  intros Hproducer Hdriver1. unfold both_credited.
  unfold producer_credited in *.
  apply map_eq. intros k.
  destruct (decide (k = d)) as [->|Hkd];
    [destruct (decide (d = p)) as [->|Hdp]
    |destruct (decide (k = p)) as [->|Hkp]];
    repeat first [rewrite lookup_alter_eq
                 |rewrite lookup_alter_ne by congruence];
    repeat first [rewrite lookup_alter_eq in Hdriver1
                 |rewrite lookup_alter_ne in Hdriver1 by congruence].
  - rewrite Hproducer in *. cbn in *. injection Hdriver1 as <-. f_equal.
    rewrite stored_idem. reflexivity.
  - rewrite Hdriver1. reflexivity.
  - rewrite Hproducer. reflexivity.
  - reflexivity.
Qed.

Lemma credited_full_name share account :
  User.full_name (credited share account) = User.full_name account.
Proof. reflexivity. Qed.

Lemma producer_credited_driver A p d (accounts : gmap uuid User.t) driver :
  accounts !! d = Some driver ->
  exists driver1,
    producer_credited A p accounts !! d = Some driver1
    /\ User.full_name driver1 = User.full_name driver.
Proof.
  intros Hdriver. unfold producer_credited.
  destruct (decide (p = d)) as [->|Hneq].
  - rewrite lookup_alter_eq, Hdriver. eexists. split; reflexivity.
  - rewrite lookup_alter_ne by exact Hneq. eauto.
Qed.
(** A credit on an existing account, and the flush that precedes the next
    query. *)
Ltac run_credit Hid account Haccount :=
  rewrite Hid, (select_pk_lookup _ _ _ Haccount);
  cbn [scalar_one_or_none]; rewrite bind_mret;
  rewrite (bind_credit_execute _ account)
    by first [reflexivity | exact Haccount];
  cbn [rows set_rows users with_users committed_state dirty_users users_table
       loop escrow_transactions with_escrow_transactions shipments
       deal_groups audit_logs begun];
  rewrite ?flush_events_nil.

(** The store a settlement commits, with the [users] table as the two
    UPDATEs leave it. *)
Lemma settled_users_table now request escrow_pk escrow payer_pk p d db
    producer driver1 :
  users db !! p = Some producer ->
  producer_credited (EscrowTransaction.amount escrow) p (users db) !! d
  = Some driver1 ->
  {| users :=
       alter (User.set_balance
                (Decimal.round_cents
                   (User.balance
                      (credited (driver_amount (EscrowTransaction.amount escrow))
                         driver1)))) d
         (alter (User.set_balance
                   (Decimal.round_cents
                      (User.balance
                         (credited
                            (producer_amount (EscrowTransaction.amount escrow))
                            producer)))) p
            (users db));
     deal_groups := deal_groups db;
     escrow_transactions :=
       <[ escrow_pk := settled_escrow now request payer_pk escrow ]>
         (escrow_transactions db);
     shipments :=
       delivered_shipments now (EscrowReleaseRequest.deal_id request)
         (shipments db);
     audit_logs := audit_logs db |}
  = settled_db now request escrow_pk escrow payer_pk p d db.
Proof.
  intros Hproducer Hdriver1. unfold settled_db.
  rewrite (settled_users _ _ _ _ _ _ Hproducer Hdriver1). reflexivity.
Qed.

Lemma credits_storable_true A p d accounts :
  credits_storable A p d accounts = true ->
  storable p (producer_credited A p accounts) = true
  /\ storable d (both_credited A p d accounts) = true.
Proof. unfold credits_storable. apply andb_prop. Qed.

Lemma lookup_producer_credited A p (accounts : gmap uuid User.t) producer :
  accounts !! p = Some producer ->
  producer_credited A p accounts !! p
  = Some (credited (producer_amount A) producer).
Proof.
  intros H. unfold producer_credited. rewrite lookup_alter_eq, H. reflexivity.
Qed.

Lemma lookup_both_credited A p d (accounts : gmap uuid User.t) driver1 :
  producer_credited A p accounts !! d = Some driver1 ->
  both_credited A p d accounts !! d
  = Some (credited (driver_amount A) driver1).
Proof.
  intros H. unfold both_credited. rewrite lookup_alter_eq, H. reflexivity.
Qed.

Lemma release_settles_run checkpw utcnow request db running deal
    escrow_pk escrow payer_pk payer hash producer_pk producer driver_pk
    driver :
  reaches_settlement request ->
  deal_groups db !! EscrowReleaseRequest.deal_id request = Some deal ->
  only_row (escrow_transactions db)
    (of_deal (EscrowReleaseRequest.deal_id request)) escrow_pk escrow ->
  EscrowTransaction.status escrow = EscrowStatus.HELD ->
  EscrowTransaction.payer_id escrow = Some payer_pk ->
  users db !! payer_pk = Some payer ->
  User.escrow_pin_hash payer = Some hash -> hash <> ""%string ->
  checkpw (EscrowReleaseRequest.pin request) hash = Some true ->
  DealGroup.seller_id deal = Some producer_pk ->
  users db !! producer_pk = Some producer ->
  DealGroup.driver_id deal = Some driver_pk ->
  users db !! driver_pk = Some driver ->
  credits_storable (EscrowTransaction.amount escrow) producer_pk driver_pk
    (users db) = true ->
  at_most_one_row (shipments db)
    (shipment_of_deal (EscrowReleaseRequest.deal_id request)) ->
  release_escrow checkpw utcnow request db running
  = (inr (release_response request deal escrow_pk escrow producer_pk producer
            driver_pk driver utcnow),
     settled_db utcnow request escrow_pk escrow payer_pk producer_pk driver_pk
       db,
     create_task (settlement_task utcnow request escrow_pk escrow payer_pk)
       running).
Proof.
  intros Hreach Hdeal Hescrow Hheld Hpayer_id Hpayer Hhash Hne Hpin Hseller
    Hproducer Hdriver_id Hdriver Hfit Hship.
  apply credits_storable_true in Hfit as [Hsp Hsd].
  destruct (producer_credited_driver (EscrowTransaction.amount escrow)
              producer_pk driver_pk (users db) driver Hdriver)
    as (driver1 & Hdriver1 & Hname).
  rewrite <- (settled_users_table utcnow request _ _ _ _ _ _ _ _ Hproducer
                Hdriver1).
  unfold both_credited, producer_credited in *.
  rewrite (release_enters _ _ _ _ _ Hreach).
  run_checks Hdeal Hescrow Hheld.
  run_authorized Hescrow Hheld Hpayer_id Hpayer Hhash Hne Hpin.
  run_credit Hseller producer Hproducer.
  rewrite Hsp.
  run_credit Hdriver_id driver1 Hdriver1.
  rewrite Hsd.
  rewrite (release_response_driver_name _ _ _ _ _ _ _ driver driver1 _ Hname).
  change (fun sh : Shipment.t =>
            bool_decide (Shipment.deal_group_id sh
                         = Some (EscrowReleaseRequest.deal_id request)))
    with (shipment_of_deal (EscrowReleaseRequest.deal_id request)).
  unfold delivered_shipments.
  change (fun sh : Shipment.t =>
            bool_decide (Shipment.deal_group_id sh
                         = Some (EscrowReleaseRequest.deal_id request)))
    with (shipment_of_deal (EscrowReleaseRequest.deal_id request)).
  destruct (select_where_at_most_one _ _ Hship) as [Hsel|(pk & sh & Hsel)];
    rewrite Hsel; cbn [scalar_one_or_none]; rewrite bind_mret;
    unfold mbind, M_bind, shipment_setattr, mret, M_ret, settlement_outcome,
      flush;
    cbv beta iota;
    unfold with_users, with_shipments, with_escrow_transactions, set_rows;
    cbn [rows users deal_groups escrow_transactions shipments audit_logs
         committed_state dirty_users users_table loop begun flush_users
         default from_option id];
    rewrite ?flush_events_nil; reflexivity.
Qed.

Lemma release_two_shipments checkpw utcnow request db running
    deal escrow_pk escrow payer_pk payer hash producer_pk producer driver_pk
    driver pk1 sh1 pk2 sh2 :
  reaches_settlement request ->
  deal_groups db !! EscrowReleaseRequest.deal_id request = Some deal ->
  only_row (escrow_transactions db)
    (of_deal (EscrowReleaseRequest.deal_id request)) escrow_pk escrow ->
  EscrowTransaction.status escrow = EscrowStatus.HELD ->
  EscrowTransaction.payer_id escrow = Some payer_pk ->
  users db !! payer_pk = Some payer ->
  User.escrow_pin_hash payer = Some hash -> hash <> ""%string ->
  checkpw (EscrowReleaseRequest.pin request) hash = Some true ->
  DealGroup.seller_id deal = Some producer_pk ->
  users db !! producer_pk = Some producer ->
  DealGroup.driver_id deal = Some driver_pk ->
  users db !! driver_pk = Some driver ->
  credits_storable (EscrowTransaction.amount escrow) producer_pk driver_pk
    (users db) = true ->
  shipments db !! pk1 = Some sh1 ->
  shipment_of_deal (EscrowReleaseRequest.deal_id request) sh1 = true ->
  shipments db !! pk2 = Some sh2 ->
  shipment_of_deal (EscrowReleaseRequest.deal_id request) sh2 = true ->
  pk1 <> pk2 ->
  release_escrow checkpw utcnow request db running
  = (inl MultipleResultsFound, db,
     create_task (settlement_task utcnow request escrow_pk escrow payer_pk)
       running).
Proof.
  intros Hreach Hdeal Hescrow Hheld Hpayer_id Hpayer Hhash Hne Hpin Hseller
    Hproducer Hdriver_id Hdriver Hfit Hl1 Hw1 Hl2 Hw2 Hneq.
  apply credits_storable_true in Hfit as [Hsp Hsd].
  destruct (producer_credited_driver (EscrowTransaction.amount escrow)
              producer_pk driver_pk (users db) driver Hdriver)
    as (driver1 & Hdriver1 & Hname).
  unfold both_credited, producer_credited in *.
  rewrite (release_enters _ _ _ _ _ Hreach).
  run_checks Hdeal Hescrow Hheld.
  run_authorized Hescrow Hheld Hpayer_id Hpayer Hhash Hne Hpin.
  run_credit Hseller producer Hproducer.
  rewrite Hsp.
  run_credit Hdriver_id driver1 Hdriver1.
  rewrite Hsd.
  change (fun sh : Shipment.t =>
            bool_decide (Shipment.deal_group_id sh
                         = Some (EscrowReleaseRequest.deal_id request)))
    with (shipment_of_deal (EscrowReleaseRequest.deal_id request)).
  destruct (select_where_two _ _ _ _ _ _ Hl1 Hw1 Hl2 Hw2 Hneq)
    as (x & y & rest & ->).
  reflexivity.
Qed.

(** The producer's credited balance does not fit the column: the UPDATE of
    the flush before the driver is queried fails. *)
Lemma release_producer_overflow checkpw utcnow request db running
    deal escrow_pk escrow payer_pk payer hash producer_pk producer :
  reaches_settlement request ->
  deal_groups db !! EscrowReleaseRequest.deal_id request = Some deal ->
  only_row (escrow_transactions db)
    (of_deal (EscrowReleaseRequest.deal_id request)) escrow_pk escrow ->
  EscrowTransaction.status escrow = EscrowStatus.HELD ->
  EscrowTransaction.payer_id escrow = Some payer_pk ->
  users db !! payer_pk = Some payer ->
  User.escrow_pin_hash payer = Some hash -> hash <> ""%string ->
  checkpw (EscrowReleaseRequest.pin request) hash = Some true ->
  DealGroup.seller_id deal = Some producer_pk ->
  users db !! producer_pk = Some producer ->
  storable producer_pk
    (producer_credited (EscrowTransaction.amount escrow) producer_pk
       (users db)) = false ->
  release_escrow checkpw utcnow request db running
  = (inl DBAPIError, db,
     create_task (settlement_task utcnow request escrow_pk escrow payer_pk)
       running).
Proof.
  intros Hreach Hdeal Hescrow Hheld Hpayer_id Hpayer Hhash Hne Hpin Hseller
    Hproducer Hsp.
  unfold producer_credited in *.
  rewrite (release_enters _ _ _ _ _ Hreach).
  run_checks Hdeal Hescrow Hheld.
  run_authorized Hescrow Hheld Hpayer_id Hpayer Hhash Hne Hpin.
  run_credit Hseller producer Hproducer.
  rewrite Hsp. reflexivity.
Qed.

(** The driver's credited balance does not fit the column: the UPDATE of
    the flush before the shipment is queried fails. *)
Lemma release_driver_overflow checkpw utcnow request db running
    deal escrow_pk escrow payer_pk payer hash producer_pk producer driver_pk
    driver :
  reaches_settlement request ->
  deal_groups db !! EscrowReleaseRequest.deal_id request = Some deal ->
  only_row (escrow_transactions db)
    (of_deal (EscrowReleaseRequest.deal_id request)) escrow_pk escrow ->
  EscrowTransaction.status escrow = EscrowStatus.HELD ->
  EscrowTransaction.payer_id escrow = Some payer_pk ->
  users db !! payer_pk = Some payer ->
  User.escrow_pin_hash payer = Some hash -> hash <> ""%string ->
  checkpw (EscrowReleaseRequest.pin request) hash = Some true ->
  DealGroup.seller_id deal = Some producer_pk ->
  users db !! producer_pk = Some producer ->
  DealGroup.driver_id deal = Some driver_pk ->
  users db !! driver_pk = Some driver ->
  storable producer_pk
    (producer_credited (EscrowTransaction.amount escrow) producer_pk
       (users db)) = true ->
  storable driver_pk
    (both_credited (EscrowTransaction.amount escrow) producer_pk driver_pk
       (users db)) = false ->
  release_escrow checkpw utcnow request db running
  = (inl DBAPIError, db,
     create_task (settlement_task utcnow request escrow_pk escrow payer_pk)
       running).
Proof.
  intros Hreach Hdeal Hescrow Hheld Hpayer_id Hpayer Hhash Hne Hpin Hseller
    Hproducer Hdriver_id Hdriver Hsp Hsd.
  destruct (producer_credited_driver (EscrowTransaction.amount escrow)
              producer_pk driver_pk (users db) driver Hdriver)
    as (driver1 & Hdriver1 & Hname).
  unfold both_credited, producer_credited in *.
  rewrite (release_enters _ _ _ _ _ Hreach).
  run_checks Hdeal Hescrow Hheld.
  run_authorized Hescrow Hheld Hpayer_id Hpayer Hhash Hne Hpin.
  run_credit Hseller producer Hproducer.
  rewrite Hsp.
  run_credit Hdriver_id driver1 Hdriver1.
  rewrite Hsd. reflexivity.
Qed.

(** ** What a successful settlement shows *)

Lemma release_settled_inv checkpw utcnow request db running r db' running' :
  reaches_settlement request ->
  release_escrow checkpw utcnow request db running = (inr r, db', running') ->
  exists deal escrow_pk escrow payer_pk payer hash producer_pk producer
         driver_pk driver,
    deal_groups db !! EscrowReleaseRequest.deal_id request = Some deal
    /\ only_row (escrow_transactions db)
         (of_deal (EscrowReleaseRequest.deal_id request)) escrow_pk escrow
    /\ EscrowTransaction.status escrow = EscrowStatus.HELD
    /\ EscrowTransaction.payer_id escrow = Some payer_pk
    /\ users db !! payer_pk = Some payer
    /\ User.escrow_pin_hash payer = Some hash /\ hash <> ""%string
    /\ checkpw (EscrowReleaseRequest.pin request) hash = Some true
    /\ DealGroup.seller_id deal = Some producer_pk
    /\ users db !! producer_pk = Some producer
    /\ DealGroup.driver_id deal = Some driver_pk
    /\ users db !! driver_pk = Some driver
    /\ credits_storable (EscrowTransaction.amount escrow) producer_pk
         driver_pk (users db) = true
    /\ at_most_one_row (shipments db)
         (shipment_of_deal (EscrowReleaseRequest.deal_id request))
    /\ r = release_response request deal escrow_pk escrow producer_pk producer
             driver_pk driver utcnow
    /\ db' = settled_db utcnow request escrow_pk escrow payer_pk producer_pk
               driver_pk db
    /\ running'
       = create_task (settlement_task utcnow request escrow_pk escrow payer_pk)
           running.
Proof.
  intros Hreach Hrelease. pose proof Hrelease as Hrun.
  rewrite (release_enters _ _ _ _ _ Hreach) in Hrun.
  destruct (settle checkpw utcnow request (in_transaction db running))
    as [[exc|r0] s'] eqn:Hsettle; [discriminate|]. clear Hrun.
  apply settle_success in Hsettle
    as (deal & escrow_pk & escrow & payer_pk & payer & hash & producer_pk
        & producer & driver_pk & driver1 & Hinv).
  cbv zeta in Hinv. cbn [in_transaction rows] in Hinv.
  destruct Hinv as (Hdeal & Hsel & Hheld & Hpayer_id & Hpayer & Hhash & Hne
                    & Hpin & Hseller & Hproducer & Hdriver_id & Hdriver1 & _).
  assert (Hescrow : only_row (escrow_transactions db)
            (of_deal (EscrowReleaseRequest.deal_id request)) escrow_pk escrow).
  { destruct (select_where_singleton _ _ _ _ Hsel) as (Hrow & Hw & Huniq).
    split; [exact Hrow|]. split; [exact Hw|].
    intros pk' r' Hl' Hw'. destruct (Huniq pk' r' Hl' Hw'). congruence. }
  assert (Hdriver : exists driver, users db !! driver_pk = Some driver).
  { destruct (users db !! driver_pk) as [driver|] eqn:Hl; [eauto|].
    rewrite (proj2 (lookup_alter_None _ _ _ _) Hl) in Hdriver1.
    discriminate. }
  destruct Hdriver as (driver & Hdriver).
  assert (Hsp : storable producer_pk
            (producer_credited (EscrowTransaction.amount escrow) producer_pk
               (users db)) = true).
  { destruct (storable _ _) eqn:Hsp; [reflexivity|]. exfalso.
    rewrite (release_producer_overflow _ _ _ _ _ deal escrow_pk escrow payer_pk
               payer hash producer_pk producer) in Hrelease by assumption.
    discriminate. }
  assert (Hsd : storable driver_pk
            (both_credited (EscrowTransaction.amount escrow) producer_pk
               driver_pk (users db)) = true).
  { destruct (storable driver_pk _) eqn:Hsd; [reflexivity|]. exfalso.
    rewrite (release_driver_overflow _ _ _ _ _ deal escrow_pk escrow payer_pk
               payer hash producer_pk producer driver_pk driver) in Hrelease
      by assumption.
    discriminate. }
  assert (Hfit : credits_storable (EscrowTransaction.amount escrow)
            producer_pk driver_pk (users db) = true).
  { unfold credits_storable. rewrite Hsp, Hsd. reflexivity. }
  assert (Hship : at_most_one_row (shipments db)
            (shipment_of_deal (EscrowReleaseRequest.deal_id request))).
  { intros pk1 sh1 pk2 sh2 Hl1 Hw1 Hl2 Hw2.
    destruct (decide (pk1 = pk2)) as [|Hneq]; [assumption|]. exfalso.
    rewrite (release_two_shipments _ _ _ _ _ deal escrow_pk escrow payer_pk
               payer hash producer_pk producer driver_pk driver pk1 sh1 pk2
               sh2) in Hrelease by assumption.
    discriminate. }
  rewrite (release_settles_run _ _ _ _ _ deal escrow_pk escrow payer_pk
             payer hash producer_pk producer driver_pk driver) in Hrelease
    by assumption.
  injection Hrelease as <- <- <-.
  exists deal, escrow_pk, escrow, payer_pk, payer, hash, producer_pk, producer,
    driver_pk, driver.
  repeat (split; [assumption || reflexivity|]). reflexivity.
Qed.

(** A call that returns a response is the replay of a recorded key, or the
    settlement of a request without key. *)
Lemma release_success checkpw utcnow request db running r db' running' :
  release_escrow checkpw utcnow request db running = (inr r, db', running') ->
  (str_truthy (EscrowReleaseRequest.idempotency_key request) = true
   /\ exists existing_pk existing deal,
        select_where (escrow_transactions db)
          (with_key (EscrowReleaseRequest.idempotency_key request))
        = [(existing_pk, existing)]
        /\ EscrowTransaction.status existing = EscrowStatus.FUNDS_RELEASED
        /\ deal_groups db !! EscrowTransaction.deal_group_id existing
           = Some deal
        /\ r = replay_response request deal existing_pk existing utcnow
        /\ db' = db /\ running' = running)
  \/ (reaches_settlement request
      /\ exists deal escrow_pk escrow payer_pk producer_pk producer driver_pk
                driver,
           deal_groups db !! EscrowReleaseRequest.deal_id request = Some deal
           /\ only_row (escrow_transactions db)
                (of_deal (EscrowReleaseRequest.deal_id request)) escrow_pk
                escrow
           /\ EscrowTransaction.status escrow = EscrowStatus.HELD
           /\ EscrowTransaction.payer_id escrow = Some payer_pk
           /\ DealGroup.seller_id deal = Some producer_pk
           /\ users db !! producer_pk = Some producer
           /\ DealGroup.driver_id deal = Some driver_pk
           /\ users db !! driver_pk = Some driver
           /\ credits_storable (EscrowTransaction.amount escrow) producer_pk
                driver_pk (users db) = true
           /\ r = release_response request deal escrow_pk escrow producer_pk
                    producer driver_pk driver utcnow
           /\ db' = settled_db utcnow request escrow_pk escrow payer_pk
                      producer_pk driver_pk db
           /\ running'
              = create_task
                  (settlement_task utcnow request escrow_pk escrow payer_pk)
                  running).
Proof.
  intros Hrelease.
  destruct (str_truthy (EscrowReleaseRequest.idempotency_key request))
    eqn:Hkey.
  - left. split; [reflexivity|].
    exact (release_keyed _ _ _ _ _ _ _ _ Hkey Hrelease).
  - right. split; [exact Hkey|].
    destruct (release_settled_inv _ _ _ _ _ _ _ _ Hkey Hrelease)
      as (deal & escrow_pk & escrow & payer_pk & payer & hash & producer_pk
          & producer & driver_pk & driver & Hdeal & Hescrow & Hheld
          & Hpayer_id & _ & _ & _ & _ & Hseller & Hproducer & Hdriver_id
          & Hdriver & Hfit & _ & Hr & Hdb & Hloop).
    exists deal, escrow_pk, escrow, payer_pk, producer_pk, producer,
      driver_pk, driver.
    auto 15.
Qed.
(** ** Balances *)

Lemma credited_balance (share : Decimal) (account : User.t) :
  -4 <= Decimal.exp (User.balance account) <= 0 ->
  Z.abs (Decimal.coef (User.balance account)) < 10 ^ 20 ->
  Decimal.exp share = -4 -> 0 <= Decimal.coef share < 10 ^ 20 ->
  User.balance (credited share account)
  = Dec (Decimal.coef (User.balance account)
           * 10 ^ (Decimal.exp (User.balance account) + 4)
         + Decimal.coef share) (-4).
Proof.
  intros He Hc Hse Hsc. unfold credited. cbn [User.balance User.set_balance].
  destruct (User.balance account) as [c e]. cbn [Decimal.coef Decimal.exp] in *.
  destruct share as [sc se]. cbn [Decimal.coef Decimal.exp] in *. subst se.
  change (10 ^ 20) with 100000000000000000000 in *.
  apply Z.abs_lt in Hc.
  unfold Decimal.or_, Decimal.truthy. cbn [Decimal.coef].
  destruct (Z.eqb_spec c 0) as [->|Hnz]; cbn [negb].
  - unfold Decimal.add. cbn [Decimal.coef Decimal.exp].
    change (Z.min 0 (-4)) with (-4). change (-4 - -4) with 0.
    change (10 ^ 0) with 1. rewrite fix_small.
    + f_equal. lia.
    + cbn [Decimal.coef].
      change (10 ^ 28) with 10000000000000000000000000000.
      apply Z.abs_lt. lia.
  - unfold Decimal.add. cbn [Decimal.coef Decimal.exp].
    replace (Z.min e (-4)) with (-4) by lia.
    change (-4 - -4) with 0. change (10 ^ 0) with 1.
    replace (e - -4) with (e + 4) by lia.
    assert (Hpow : 1 <= 10 ^ (e + 4) <= 10000).
    { assert (Hcases : e = -4 \/ e = -3 \/ e = -2 \/ e = -1 \/ e = 0) by lia.
      destruct Hcases as [->|[->|[->|[->| ->]]]]; cbn; lia. }
    rewrite fix_small.
    + f_equal. lia.
    + cbn [Decimal.coef].
      change (10 ^ 28) with 10000000000000000000000000000.
      apply Z.abs_lt. nia.
Qed.

Lemma leb_refl (a : Decimal) : Decimal.leb a a = true.
Proof. unfold Decimal.leb. apply Z.leb_refl. Qed.

Lemma share_bounds (A : Decimal) (c : Z) :
  Decimal.numeric_12_2 A -> 0 <= Decimal.coef A -> 0 <= c <= 100 ->
  Decimal.exp (Dec (Decimal.coef A * c) (-4)) = -4
  /\ 0 <= Decimal.coef (Dec (Decimal.coef A * c) (-4)) < 10 ^ 20.
Proof.
  intros [_ Hc] Hpos Hshare. cbn [Decimal.coef Decimal.exp].
  change (10 ^ 12) with 1000000000000 in Hc.
  change (10 ^ 20) with 100000000000000000000.
  apply Z.abs_lt in Hc. split; [reflexivity | nia].
Qed.

Lemma numeric_12_2_bounds (b : Decimal) :
  Decimal.numeric_12_2 b ->
  -4 <= Decimal.exp b <= 0 /\ Z.abs (Decimal.coef b) < 10 ^ 20.
Proof.
  intros [He Hc]. rewrite He. split; [lia|].
  change (10 ^ 12) with 1000000000000 in Hc.
  change (10 ^ 20) with 100000000000000000000. lia.
Qed.

(** The balance of an account of a [Numeric(12, 2)] column after one credit
    of a share of a non-negative escrow amount, and after both. *)
Lemma credited_once (A : Decimal) (c : Z) (account : User.t) :
  Decimal.numeric_12_2 A -> 0 <= Decimal.coef A -> 0 <= c <= 100 ->
  Decimal.numeric_12_2 (User.balance account) ->
  User.balance (credited (Dec (Decimal.coef A * c) (-4)) account)
  = Dec (Decimal.coef (User.balance account) * 100 + Decimal.coef A * c) (-4).
Proof.
  intros HA Hpos Hc Hb.
  destruct (share_bounds A c HA Hpos Hc) as [Hse Hsc].
  destruct (numeric_12_2_bounds _ Hb) as [He Hbc].
  rewrite (credited_balance _ _ He Hbc Hse Hsc).
  destruct Hb as [-> _]. reflexivity.
Qed.

Lemma credited_twice (A : Decimal) (account : User.t) :
  Decimal.numeric_12_2 A -> 0 <= Decimal.coef A ->
  Decimal.numeric_12_2 (User.balance account) ->
  User.balance
    (credited (Dec (Decimal.coef A * 10) (-4))
       (credited (Dec (Decimal.coef A * 90) (-4)) account))
  = Dec (Decimal.coef (User.balance account) * 100 + Decimal.coef A * 100)
      (-4).
Proof.
  intros HA Hpos Hb.
  destruct (share_bounds A 10 HA Hpos ltac:(lia)) as [Hse Hsc].
  pose proof (credited_once A 90 account HA Hpos ltac:(lia) Hb) as H1.
  rewrite credited_balance; try assumption.
  - rewrite H1. cbn [Decimal.coef Decimal.exp]. change (10 ^ (-4 + 4)) with 1.
    f_equal. lia.
  - rewrite H1. cbn [Decimal.exp]. lia.
  - rewrite H1. cbn [Decimal.coef].
    destruct HA as [_ HAc]. destruct Hb as [_ Hbc].
    change (10 ^ 12) with 1000000000000 in *.
    change (10 ^ 20) with 100000000000000000000.
    apply Z.abs_lt in HAc, Hbc. apply Z.abs_lt. lia.
Qed.

Lemma leb_credit (b : Decimal) (x : Z) :
  Decimal.exp b = -2 -> 0 <= x ->
  Decimal.leb b (Dec (Decimal.coef b * 100 + x) (-4)) = true.
Proof.
  intros He Hx. unfold Decimal.leb. cbn [Decimal.coef Decimal.exp]. rewrite He.
  change (Z.min (-2) (-4)) with (-4). change (10 ^ (-2 - -4)) with 100.
  change (10 ^ (-4 - -4)) with 1. apply Z.leb_le. lia.
Qed.

Lemma round_cents_4 (x : Z) :
  Decimal.round_cents (Dec x (-4))
  = Dec (Z.sgn x * ((Z.abs x + 50) / 100)) (-2).
Proof. reflexivity. Qed.

Lemma round_cents_2 (x : Z) : Decimal.round_cents (Dec x (-2)) = Dec x (-2).
Proof.
  unfold Decimal.round_cents. cbn [Decimal.exp Decimal.coef].
  change (-2 <=? -2) with true. cbv iota. change (10 ^ (-2 + 2)) with 1.
  rewrite Z.mul_1_r. reflexivity.
Qed.

(** Rounding a balance to which a non-negative amount was added gives at
    least the balance. *)
Lemma round_credit_ge (c y : Z) :
  0 <= y -> c <= Z.sgn (c * 100 + y) * ((Z.abs (c * 100 + y) + 50) / 100).
Proof.
  intros Hy. destruct (Z.lt_trichotomy (c * 100 + y) 0) as [Hlt|[Heq|Hgt]].
  - rewrite (Z.sgn_neg _ Hlt), Z.abs_neq by lia.
    Z.div_mod_to_equations. lia.
  - rewrite Heq. cbn. lia.
  - rewrite (Z.sgn_pos _ Hgt), Z.abs_eq by lia.
    Z.div_mod_to_equations. lia.
Qed.

(** On a non-negative balance the credit is the amount rounded half up. *)
Lemma round_credit (c y : Z) :
  0 <= c -> 0 <= y ->
  Z.sgn (c * 100 + y) * ((Z.abs (c * 100 + y) + 50) / 100)
  = c + (y + 50) / 100.
Proof.
  intros Hc Hy. destruct (Z.eq_dec (c * 100 + y) 0) as [Heq|Hne].
  - rewrite Heq. assert (c = 0) by lia. assert (y = 0) by lia. subst.
    reflexivity.
  - rewrite Z.sgn_pos, Z.abs_eq by lia. Z.div_mod_to_equations. lia.
Qed.

(** The two rounded shares of an amount of [a] cents. *)
Lemma rounded_shares (a : Z) :
  (a * 90 + 50) / 100 + (a * 10 + 50) / 100
  = a + (if a mod 10 =? 5 then 1 else 0).
Proof.
  destruct (Z.eqb_spec (a mod 10) 5); Z.div_mod_to_equations; lia.
Qed.

Lemma leb_cents (b : Decimal) (c' : Z) :
  Decimal.exp b = -2 -> Decimal.coef b <= c' ->
  Decimal.leb b (Dec c' (-2)) = true.
Proof.
  intros He Hle. unfold Decimal.leb. cbn [Decimal.coef Decimal.exp].
  rewrite He. change (Z.min (-2) (-2)) with (-2).
  change (10 ^ (-2 - -2)) with 1. apply Z.leb_le. lia.
Qed.

Lemma stored_balance account :
  User.balance (stored account)
  = Decimal.round_cents (User.balance account).
Proof. reflexivity. Qed.

(** The row of [pk] in the [users] table after the two UPDATEs. *)
Lemma settled_users_lookup A p d (accounts : gmap uuid User.t) pk account :
  accounts !! pk = Some account ->
  alter stored d (alter stored p (both_credited A p d accounts)) !! pk
  = Some (if decide (pk = d)
          then if decide (pk = p)
               then stored
                      (credited (driver_amount A)
                         (credited (producer_amount A) account))
               else stored (credited (driver_amount A) account)
          else if decide (pk = p)
               then stored (credited (producer_amount A) account)
               else account).
Proof.
  intros Haccount. unfold both_credited, producer_credited.
  destruct (decide (pk = d)) as [Hd|Hd]; destruct (decide (pk = p)) as [Hp|Hp];
    try subst d; try subst p;
    repeat first [rewrite lookup_alter_eq
                 |rewrite lookup_alter_ne by congruence];
    rewrite Haccount; cbn; rewrite ?stored_idem; reflexivity.
Qed.

(** The stored balance of an account after a settlement of [a >= 0] cents,
    by the part the account has in the deal. *)
Lemma settled_balance A p d (accounts : gmap uuid User.t) pk account :
  Decimal.numeric_12_2 A -> 0 <= Decimal.coef A ->
  Decimal.numeric_12_2 (User.balance account) ->
  accounts !! pk = Some account ->
  exists account',
    alter stored d (alter stored p (both_credited A p d accounts)) !! pk
    = Some account'
    /\ User.full_name account' = User.full_name account
    /\ User.escrow_pin_hash account' = User.escrow_pin_hash account
    /\ User.balance account'
       = if decide (pk = d)
         then if decide (pk = p)
              then Dec (Decimal.coef (User.balance account) + Decimal.coef A)
                     (-2)
              else Decimal.round_cents
                     (Dec (Decimal.coef (User.balance account) * 100
                           + Decimal.coef A * 10) (-4))
         else if decide (pk = p)
              then Decimal.round_cents
                     (Dec (Decimal.coef (User.balance account) * 100
                           + Decimal.coef A * 90) (-4))
              else User.balance account.
Proof.
  intros HA Hpos Hb Haccount.
  rewrite (settled_users_lookup _ _ _ _ _ _ Haccount).
  rewrite (producer_amount_exact _ HA), (driver_amount_exact _ HA).
  eexists. split; [reflexivity|].
  destruct (decide (pk = d)); destruct (decide (pk = p)).
  - repeat split. rewrite stored_balance, (credited_twice A account HA Hpos Hb).
    rewrite round_cents_4. f_equal.
    destruct (Z.lt_trichotomy
                (Decimal.coef (User.balance account) * 100
                 + Decimal.coef A * 100) 0) as [Hlt|[Heq|Hgt]].
    + rewrite (Z.sgn_neg _ Hlt), Z.abs_neq by lia.
      Z.div_mod_to_equations. lia.
    + rewrite Heq. cbn. lia.
    + rewrite (Z.sgn_pos _ Hgt), Z.abs_eq by lia.
      Z.div_mod_to_equations. lia.
  - repeat split.
    rewrite stored_balance,
      (credited_once A 10 account HA Hpos ltac:(lia) Hb).
    reflexivity.
  - repeat split.
    rewrite stored_balance,
      (credited_once A 90 account HA Hpos ltac:(lia) Hb).
    reflexivity.
  - repeat split.
Qed.

(** The stored balance is not smaller than it was. *)
Lemma settled_balance_ge A p d (accounts : gmap uuid User.t) pk account :
  Decimal.numeric_12_2 A -> 0 <= Decimal.coef A ->
  Decimal.numeric_12_2 (User.balance account) ->
  accounts !! pk = Some account ->
  exists account',
    alter stored d (alter stored p (both_credited A p d accounts)) !! pk
    = Some account'
    /\ Decimal.leb (User.balance account) (User.balance account') = true
    /\ (0 <= Decimal.coef (User.balance account) ->
        0 <= Decimal.coef (User.balance account')).
Proof.
  intros HA Hpos Hb Haccount.
  destruct (settled_balance A p d accounts pk account HA Hpos Hb Haccount)
    as (account' & Hl & _ & _ & Hbal).
  exists account'. split; [exact Hl|]. rewrite Hbal.
  destruct (decide (pk = d)); destruct (decide (pk = p));
    rewrite ?round_cents_4.
  - split; [apply leb_cents; [apply Hb | lia]|]. cbn [Decimal.coef]. lia.
  - pose proof (round_credit_ge (Decimal.coef (User.balance account))
                  (Decimal.coef A * 10) ltac:(lia)).
    split; [apply leb_cents; [apply Hb | lia]|]. cbn [Decimal.coef]. lia.
  - pose proof (round_credit_ge (Decimal.coef (User.balance account))
                  (Decimal.coef A * 90) ltac:(lia)).
    split; [apply leb_cents; [apply Hb | lia]|]. cbn [Decimal.coef]. lia.
  - split; [apply leb_refl | auto].
Qed.

(** C9. After a successful release of an escrow whose amount is not
    negative, no account balance in the [users] table is smaller than before
    the call (the producer's and the driver's in particular), and a balance
    that was not negative is not negative afterwards. The balances compared
    are the stored ones, rounded to the cent by the column. The monetary
    columns are assumed to hold values of their type [Numeric(12, 2)]. *)
Theorem credits_never_decrease checkpw utcnow request db running
    r db' running' :
  release_escrow checkpw utcnow request db running = (inr r, db', running') ->
  numeric_columns db ->
  (forall pk e, escrow_transactions db !! pk = Some e ->
     EscrowTransaction.deal_group_id e = EscrowReleaseRequest.deal_id request ->
     0 <= Decimal.coef (EscrowTransaction.amount e)) ->
  forall pk account, users db !! pk = Some account ->
    exists account',
      users db' !! pk = Some account'
      /\ Decimal.leb (User.balance account) (User.balance account') = true
      /\ (0 <= Decimal.coef (User.balance account) ->
          0 <= Decimal.coef (User.balance account')).
Proof.
  intros Hrel [Hamounts Hbalances] Hpos pk account Haccount.
  apply release_success in Hrel
    as [(_ & ? & ? & ? & _ & _ & _ & _ & -> & _)
       |(_ & deal & escrow_pk & escrow & payer_pk & producer_pk & producer
         & driver_pk & driver & _ & Hescrow & _ & _ & _ & _ & _ & _ & _ & _
         & -> & _)].
  { exists account. split; [exact Haccount|]. split; [apply leb_refl|auto]. }
  destruct Hescrow as (Hrow & Hdeal & _).
  apply bool_decide_eq_true in Hdeal.
  cbn [users settled_db].
  apply settled_balance_ge; eauto.
Qed.

(** C10. After a successful release, every account other than the deal's
    seller and the deal's driver has the row it had before the call; so when
    payer, seller and driver are three distinct accounts, the payer's balance
    is unchanged. *)
Theorem payer_balance_unchanged checkpw utcnow request db running
    r db' running' deal escrow_pk escrow payer_pk :
  release_escrow checkpw utcnow request db running = (inr r, db', running') ->
  deal_groups db !! EscrowReleaseRequest.deal_id request = Some deal ->
  escrow_transactions db !! escrow_pk = Some escrow ->
  EscrowTransaction.deal_group_id escrow
    = EscrowReleaseRequest.deal_id request ->
  EscrowTransaction.payer_id escrow = Some payer_pk ->
  DealGroup.seller_id deal <> Some payer_pk ->
  DealGroup.driver_id deal <> Some payer_pk ->
  users db' !! payer_pk = users db !! payer_pk
  /\ forall pk, DealGroup.seller_id deal <> Some pk ->
                DealGroup.driver_id deal <> Some pk ->
                users db' !! pk = users db !! pk.
Proof.
  intros Hrel Hdeal Hrow Hdeal_id Hpayer Hseller Hdriver.
  assert (Hframe : forall pk, DealGroup.seller_id deal <> Some pk ->
                              DealGroup.driver_id deal <> Some pk ->
                              users db' !! pk = users db !! pk).
  { intros pk Hs Hd.
    apply release_success in Hrel
      as [(_ & ? & ? & ? & _ & _ & _ & _ & -> & _)
         |(_ & deal0 & escrow_pk0 & escrow0 & payer_pk0 & producer_pk
           & producer & driver_pk & driver & Hdeal0 & _ & _ & _ & Hsel & _
           & Hdrv & _ & _ & _ & -> & _)]; [reflexivity|].
    rewrite Hdeal in Hdeal0. injection Hdeal0 as <-.
    cbn [users settled_db]. unfold both_credited, producer_credited.
    rewrite !lookup_alter_ne by congruence. reflexivity. }
  split; [apply Hframe; assumption | exact Hframe].
Qed.

(** ** Escrow status *)

Lemma release_escrows checkpw utcnow request db running result db' running' :
  release_escrow checkpw utcnow request db running
    = (result, db', running') ->
  escrow_transactions db' = escrow_transactions db
  \/ exists escrow_pk escrow payer_pk,
       escrow_transactions db !! escrow_pk = Some escrow
       /\ EscrowTransaction.status escrow = EscrowStatus.HELD
       /\ escrow_transactions db'
          = <[ escrow_pk := settled_escrow utcnow request payer_pk escrow ]>
              (escrow_transactions db).
Proof.
  intros Hrel. destruct result as [exc|r].
  - apply release_inl_rows in Hrel. subst db'. left. reflexivity.
  - apply release_success in Hrel
      as [(_ & ? & ? & ? & _ & _ & _ & _ & -> & _)
         |(_ & deal & escrow_pk & escrow & payer_pk & producer_pk & producer
           & driver_pk & driver & _ & Hescrow & Hheld & _ & _ & _ & _ & _ & _
           & _ & -> & _)];
      [left; reflexivity|].
    destruct Hescrow as (Hrow & _ & _).
    right. exists escrow_pk, escrow, payer_pk. auto.
Qed.

Lemma with_session_keeps_rows {A} (body : M A) db running :
  keeps_rows body -> (with_session body db running).1.2 = db.
Proof.
  intros Hbody. unfold with_session.
  destruct (body _) as [result s] eqn:Hrun. cbn.
  rewrite (Hbody _ _ _ Hrun). destruct (begun s); reflexivity.
Qed.

Lemma get_escrow_status_readonly deal_id db running :
  (get_escrow_status deal_id db running).1.2 = db.
Proof.
  unfold get_escrow_status. apply with_session_keeps_rows.
  apply keeps_rows_bind; [apply keeps_rows_execute|]. intros deal_result.
  apply keeps_rows_bind; [apply keeps_rows_scalar_one_or_none|].
  intros [[deal_pk deal]|]; [|apply keeps_rows_raise].
  apply keeps_rows_bind; [apply keeps_rows_execute|]. intros escrow_result.
  apply keeps_rows_bind; [apply keeps_rows_scalar_one_or_none|].
  intros [[escrow_pk escrow]|]; [|apply keeps_rows_raise].
  apply keeps_rows_bind.
  { destruct (EscrowTransaction.payer_id escrow); [|apply keeps_rows_mret].
    apply keeps_rows_bind; [apply keeps_rows_execute|]. intros payer_r.
    apply keeps_rows_scalar_one_or_none. }
  intros payer_name. apply keeps_rows_bind.
  { destruct (EscrowTransaction.payee_id escrow); [|apply keeps_rows_mret].
    apply keeps_rows_bind; [apply keeps_rows_execute|]. intros payee_r.
    apply keeps_rows_scalar_one_or_none. }
  intros payee_name. apply keeps_rows_mret.
Qed.

(** C8, as the code has it. The status of an escrow is one of the five
    members of [EscrowStatus]: HELD, RELEASED, FUNDS_RELEASED, REFUNDED,
    DISPUTED. Whatever a release call returns, the only change of status it
    makes to any escrow row is HELD to FUNDS_RELEASED, and a row whose
    status is not HELD (FUNDS_RELEASED in particular) is left exactly as it
    was; reading the status of an escrow changes no row at all. *)
Theorem escrow_status_transitions checkpw utcnow request db
    running result db' running' :
  release_escrow checkpw utcnow request db running
    = (result, db', running') ->
  (forall st : EscrowStatus.t,
     st ∈ [EscrowStatus.HELD; EscrowStatus.RELEASED;
           EscrowStatus.FUNDS_RELEASED; EscrowStatus.REFUNDED;
           EscrowStatus.DISPUTED])
  /\ (forall pk e, escrow_transactions db !! pk = Some e ->
        exists e',
          escrow_transactions db' !! pk = Some e'
          /\ (EscrowTransaction.status e' <> EscrowTransaction.status e ->
              EscrowTransaction.status e = EscrowStatus.HELD
              /\ EscrowTransaction.status e' = EscrowStatus.FUNDS_RELEASED)
          /\ (EscrowTransaction.status e <> EscrowStatus.HELD -> e' = e))
  /\ (forall deal_id, (get_escrow_status deal_id db' running').1.2 = db').
Proof.
  intros Hrel. split; [|split].
  - intros []; set_solver.
  - intros pk e He.
    apply release_escrows in Hrel
      as [->|(escrow_pk & escrow & payer_pk & Hrow & Hheld & ->)].
    + exists e. split; [exact He|]. split; [congruence|reflexivity].
    + destruct (decide (pk = escrow_pk)) as [->|Hne].
      * rewrite lookup_insert_eq. rewrite Hrow in He. injection He as <-.
        eexists. split; [reflexivity|]. rewrite settled_escrow_status.
        split; [auto|congruence].
      * rewrite lookup_insert_ne by congruence.
        exists e. split; [exact He|]. split; [congruence|reflexivity].
  - intros deal_id. apply get_escrow_status_readonly.
Qed.

(** ** State checks *)

Lemma release_state_refused checkpw utcnow request db running deal escrow_pk
    escrow :
  reaches_settlement request ->
  deal_groups db !! EscrowReleaseRequest.deal_id request = Some deal ->
  only_row (escrow_transactions db)
    (of_deal (EscrowReleaseRequest.deal_id request)) escrow_pk escrow ->
  EscrowTransaction.status escrow <> EscrowStatus.HELD ->
  release_escrow checkpw utcnow request db running
  = (inl (if decide (EscrowTransaction.status escrow
                     = EscrowStatus.FUNDS_RELEASED)
          then HTTPException 409
                 "Funds have already been released for this deal. Double-spending prevented."
          else HTTPException 400
                 ("Escrow is in '"
                  +:+ EscrowStatus.value (EscrowTransaction.status escrow)
                  +:+ "' state. Only 'held' escrows can be released.")),
     db, running).
Proof.
  intros Hreach Hdeal Hescrow Hstatus.
  rewrite (release_enters _ _ _ _ _ Hreach).
  unfold settle, in_transaction, new_session, set_begun.
  cbn [rows begun committed_state dirty_users users_table loop].
  rewrite bind_execute by reflexivity.
  cbn [rows committed_state dirty_users users_table loop].
  rewrite flush_events_nil, (select_pk_lookup _ _ _ Hdeal).
  cbn [scalar_one_or_none]. rewrite bind_mret.
  rewrite bind_execute by reflexivity.
  cbn [rows committed_state dirty_users users_table loop].
  rewrite flush_events_nil, (select_where_only_row _ _ _ _ Hescrow).
  cbn [scalar_one_or_none]. rewrite bind_mret.
  destruct (decide (EscrowTransaction.status escrow
                    = EscrowStatus.FUNDS_RELEASED)); [reflexivity|].
  destruct (decide (EscrowTransaction.status escrow <> EscrowStatus.HELD));
    [reflexivity|contradiction].
Qed.

(** C2. When the request enters the settlement transaction and the escrow
    row of the deal, once read, has status FUNDS_RELEASED, the call fails
    with 409; when that status is neither HELD nor FUNDS_RELEASED it fails
    with 400. When the supplied idempotency key is recorded on an escrow
    whose status is not FUNDS_RELEASED, the call fails with 409 in step 1.
    In each case the store is what it was: no balance is credited, no escrow
    is modified, and no audit task is created. *)
Theorem release_state_checks checkpw utcnow request db running :
  (forall deal escrow_pk escrow,
     reaches_settlement request ->
     deal_groups db !! EscrowReleaseRequest.deal_id request = Some deal ->
     only_row (escrow_transactions db)
       (of_deal (EscrowReleaseRequest.deal_id request)) escrow_pk escrow ->
     (EscrowTransaction.status escrow = EscrowStatus.FUNDS_RELEASED ->
      release_escrow checkpw utcnow request db running
      = (inl (HTTPException 409
                "Funds have already been released for this deal. Double-spending prevented."),
         db, running))
     /\ (EscrowTransaction.status escrow <> EscrowStatus.HELD ->
         EscrowTransaction.status escrow <> EscrowStatus.FUNDS_RELEASED ->
         release_escrow checkpw utcnow request db running
         = (inl (HTTPException 400
                   ("Escrow is in '"
                    +:+ EscrowStatus.value (EscrowTransaction.status escrow)
                    +:+ "' state. Only 'held' escrows can be released.")),
            db, running)))
  /\ (forall existing_pk existing,
        str_truthy (EscrowReleaseRequest.idempotency_key request) = true ->
        only_row (escrow_transactions db)
          (with_key (EscrowReleaseRequest.idempotency_key request))
          existing_pk existing ->
        EscrowTransaction.status existing <> EscrowStatus.FUNDS_RELEASED ->
        release_escrow checkpw utcnow request db running
        = (inl (HTTPException 409
                  ("Idempotency key exists but escrow is in '"
                   +:+ EscrowStatus.value (EscrowTransaction.status existing)
                   +:+ "' state, not released.")),
           db, running)).
Proof.
  split.
  - intros deal escrow_pk escrow Hreach Hdeal Hescrow. split.
    + intros Hfr.
      rewrite (release_state_refused _ _ _ _ _ deal escrow_pk escrow)
        by (try assumption; rewrite Hfr; discriminate).
      destruct (decide _); [reflexivity|contradiction].
    + intros Hheld Hfr.
      rewrite (release_state_refused _ _ _ _ _ deal escrow_pk escrow)
        by assumption.
      destruct (decide _); [contradiction|reflexivity].
  - intros existing_pk existing Hkey Hexisting Hstatus.
    unfold release_escrow, with_session, idempotency_check.
    rewrite Hkey.
    unfold mbind at 1. unfold M_bind at 1.
    rewrite bind_execute by reflexivity. cbn [rows new_session].
    rewrite (select_where_only_row _ _ _ _ Hexisting).
    cbn [scalar_one_or_none]. rewrite bind_mret.
    destruct (decide _); [contradiction|]. reflexivity.
Qed.

(** ** Idempotent replay *)

Lemma release_replay checkpw utcnow request db running existing_pk existing
    deal :
  str_truthy (EscrowReleaseRequest.idempotency_key request) = true ->
  only_row (escrow_transactions db)
    (with_key (EscrowReleaseRequest.idempotency_key request))
    existing_pk existing ->
  EscrowTransaction.status existing = EscrowStatus.FUNDS_RELEASED ->
  deal_groups db !! EscrowTransaction.deal_group_id existing = Some deal ->
  release_escrow checkpw utcnow request db running
  = (inr (replay_response request deal existing_pk existing utcnow),
     db, running).
Proof.
  intros Hkey Hexisting Hstatus Hdeal.
  unfold release_escrow, with_session, idempotency_check.
  rewrite Hkey. unfold mbind at 1. unfold M_bind at 1.
  rewrite bind_execute by reflexivity. cbn [rows new_session].
  rewrite (select_where_only_row _ _ _ _ Hexisting).
  cbn [scalar_one_or_none]. rewrite bind_mret.
  destruct (decide _); [|contradiction].
  rewrite bind_execute by reflexivity. cbn [rows].
  rewrite (select_pk_lookup _ _ _ Hdeal). reflexivity.
Qed.

(** The replay of a released escrow agrees with the response of its
    settlement, whatever the two requests are. *)
Lemma settled_escrow_replay now utcnow request request2 deal escrow_pk escrow
    payer_pk producer_pk producer driver_pk driver :
  same_settlement
    (release_response request deal escrow_pk escrow producer_pk producer
       driver_pk driver now)
    (replay_response request2 deal escrow_pk
       (settled_escrow now request payer_pk escrow) utcnow).
Proof.
  unfold same_settlement, settled_escrow.
  destruct (str_truthy _); cbn; repeat split; reflexivity.
Qed.

(** The escrow rows after a settlement without key: the row of the deal is
    still the one that carries the key it carried. *)
Lemma settled_key_row now request db escrow_pk escrow payer_pk k :
  reaches_settlement request ->
  only_row (escrow_transactions db) (with_key k) escrow_pk escrow ->
  only_row
    (<[ escrow_pk := settled_escrow now request payer_pk escrow ]>
       (escrow_transactions db))
    (with_key k) escrow_pk (settled_escrow now request payer_pk escrow).
Proof.
  intros Hreach (Hrow & Hkey & Huniq).
  assert (Hsame : with_key k (settled_escrow now request payer_pk escrow)
                  = true).
  { unfold settled_escrow. rewrite Hreach. exact Hkey. }
  split; [apply lookup_insert_eq|]. split; [exact Hsame|].
  intros pk' r' Hr' Hw.
  destruct (decide (pk' = escrow_pk)) as [|Hne]; [assumption|].
  rewrite lookup_insert_ne in Hr' by congruence. eapply Huniq; eauto.
Qed.

(** C4, as the code has it. A release call whose idempotency key is recorded
    on an escrow with status FUNDS_RELEASED returns the replay response and
    changes nothing: no row, no balance, no audit task. When the escrow that
    carries the key was released by a settlement made through
    [release_escrow], the replay has the same status, deal number and title,
    escrow id, amount, currency, split amounts, percentages, roles and
    release timestamp as the response of that settlement; the [user_id] and
    [user_name] of both credits are the literal "cached" and the message is
    the fixed replay message. *)
Theorem idempotent_replay checkpw now utcnow request db running :
  (forall existing_pk existing deal,
     str_truthy (EscrowReleaseRequest.idempotency_key request) = true ->
     only_row (escrow_transactions db)
       (with_key (EscrowReleaseRequest.idempotency_key request))
       existing_pk existing ->
     EscrowTransaction.status existing = EscrowStatus.FUNDS_RELEASED ->
     deal_groups db !! EscrowTransaction.deal_group_id existing = Some deal ->
     release_escrow checkpw utcnow request db running
     = (inr (replay_response request deal existing_pk existing utcnow),
        db, running))
  /\ (forall settlement existing_pk existing r1 db1 running1,
        str_truthy (EscrowReleaseRequest.idempotency_key request) = true ->
        only_row (escrow_transactions db)
          (with_key (EscrowReleaseRequest.idempotency_key request))
          existing_pk existing ->
        EscrowTransaction.deal_group_id existing
        = EscrowReleaseRequest.deal_id settlement ->
        reaches_settlement settlement ->
        release_escrow checkpw now settlement db running
        = (inr r1, db1, running1) ->
        exists r2,
          release_escrow checkpw utcnow request db1 running1
          = (inr r2, db1, running1)
          /\ same_settlement r1 r2
          /\ BalanceCredit.user_id (EscrowReleaseResponse.producer_credit r2)
             = "cached"%string
          /\ BalanceCredit.user_name
               (EscrowReleaseResponse.producer_credit r2) = "cached"%string
          /\ BalanceCredit.user_id (EscrowReleaseResponse.driver_credit r2)
             = "cached"%string
          /\ BalanceCredit.user_name (EscrowReleaseResponse.driver_credit r2)
             = "cached"%string
          /\ EscrowReleaseResponse.message r2
             = "Idempotent replay — funds were already released."%string).
Proof.
  split.
  - intros. apply release_replay; assumption.
  - intros settlement existing_pk existing r1 db1 running1 Hkey Hexisting
      Hof_deal Hreach Hrel.
    destruct (release_settled_inv _ _ _ _ _ _ _ _ Hreach Hrel)
      as (deal & escrow_pk & escrow & payer_pk & payer & hash & producer_pk
          & producer & driver_pk & driver & Hdeal & Hescrow & _ & _ & _ & _
          & _ & _ & _ & _ & _ & _ & _ & _ & -> & -> & ->).
    assert (existing_pk = escrow_pk) as ->.
    { destruct Hescrow as (_ & _ & Huniq). destruct Hexisting as (Hrow & _).
      apply (Huniq _ _ Hrow). apply bool_decide_eq_true. exact Hof_deal. }
    assert (existing = escrow) as ->.
    { destruct Hescrow as (Hrow & _). destruct Hexisting as (Hrow' & _).
      congruence. }
    eexists. split.
    + apply (release_replay _ _ _ _ _ escrow_pk
               (settled_escrow now settlement payer_pk escrow) deal Hkey).
      * cbn [escrow_transactions settled_db].
        apply settled_key_row; assumption.
      * apply settled_escrow_status.
      * cbn [deal_groups settled_db].
        replace (EscrowTransaction.deal_group_id
                   (settled_escrow now settlement payer_pk escrow))
          with (EscrowReleaseRequest.deal_id settlement); [exact Hdeal|].
        rewrite <- Hof_deal. unfold settled_escrow.
        destruct (str_truthy (EscrowReleaseRequest.idempotency_key settlement));
          reflexivity.
    + split; [apply settled_escrow_replay|]. repeat split; reflexivity.
Qed.

(** ** The flushed instance *)

Lemma setattr_keys k v (columns : list (string * value)) :
  (setattr k v columns).*1 = columns.*1.
Proof.
  induction columns as [|[k' v'] rest IH]; [reflexivity|].
  cbn [setattr]. destruct (decide (k' = k)); [reflexivity|].
  rewrite !fmap_cons, IH. reflexivity.
Qed.

Lemma getattr_setattr_ne k v columns k' :
  k' <> k -> getattr (setattr k v columns) k' = getattr columns k'.
Proof.
  intros Hne. induction columns as [|[k0 v0] rest IH]; [reflexivity|].
  cbn [setattr]. destruct (decide (k0 = k)) as [->|Hk0]; cbn [getattr].
  - destruct (decide (k = k')); [congruence|reflexivity].
  - destruct (decide (k0 = k')); [reflexivity|exact IH].
Qed.

Lemma getattr_setattr_eq k v (columns : list (string * value)) :
  k ∈ columns.*1 -> getattr (setattr k v columns) k = v.
Proof.
  induction columns as [|[k0 v0] rest IH]; intros Hin.
  - apply elem_of_nil in Hin. contradiction.
  - cbn [setattr]. destruct (decide (k0 = k)) as [->|Hk0]; cbn [getattr].
    + destruct (decide (k = k)); [reflexivity|contradiction].
    + destruct (decide (k0 = k)); [contradiction|].
      rewrite fmap_cons in Hin. apply elem_of_cons in Hin as [Heq|Hin].
      * cbn in Heq. congruence.
      * apply IH, Hin.
Qed.

Lemma getattr_notin k (columns : list (string * value)) :
  k ∉ columns.*1 -> getattr columns k = VNone.
Proof.
  induction columns as [|[k0 v0] rest IH]; intros Hnotin; [reflexivity|].
  rewrite fmap_cons in Hnotin. apply not_elem_of_cons in Hnotin as [Hne Hrest].
  cbn [getattr]. destruct (decide (k0 = k)) as [Heq|_].
  - cbn in Hne. congruence.
  - apply IH, Hrest.
Qed.

Lemma getattr_elem k v (columns : list (string * value)) :
  NoDup columns.*1 -> (k, v) ∈ columns -> getattr columns k = v.
Proof.
  induction columns as [|[k0 v0] rest IH]; intros Hnodup Hin.
  - apply elem_of_nil in Hin. contradiction.
  - rewrite fmap_cons in Hnodup. apply NoDup_cons in Hnodup as [Hnotin Hnodup].
    cbn [getattr]. apply elem_of_cons in Hin as [Heq|Hin].
    + injection Heq as -> ->.
      destruct (decide (k0 = k0)); [reflexivity|contradiction].
    + destruct (decide (k0 = k)) as [->|_]; [|apply IH; assumption].
      exfalso. apply Hnotin. cbn. apply list_elem_of_fmap.
      exists (k, v). auto.
Qed.

Lemma elem_getattr k (columns : list (string * value)) :
  k ∈ columns.*1 -> (k, getattr columns k) ∈ columns.
Proof.
  induction columns as [|[k0 v0] rest IH]; intros Hin.
  - apply elem_of_nil in Hin. contradiction.
  - cbn [getattr]. destruct (decide (k0 = k)) as [->|Hne].
    + apply list_elem_of_here.
    + apply list_elem_of_further, IH.
      rewrite fmap_cons in Hin. apply elem_of_cons in Hin as [Heq|Hin];
        [cbn in Heq; congruence | exact Hin].
Qed.

Lemma value_eqb_refl v : value_eqb v v = true.
Proof.
  destruct v; cbn; try apply bool_decide_eq_true; try reflexivity.
  unfold Decimal.eqb. apply Z.eqb_refl.
Qed.

Lemma assigned_keys assignments loaded :
  (assigned assignments loaded).*1 = loaded.*1.
Proof.
  unfold assigned. revert loaded.
  induction assignments as [|[k v] rest IH]; intros loaded; [reflexivity|].
  cbn [foldl]. rewrite IH. apply setattr_keys.
Qed.

Lemma getattr_assigned_other assignments loaded k :
  k ∉ assignments.*1 ->
  getattr (assigned assignments loaded) k = getattr loaded k.
Proof.
  unfold assigned. revert loaded.
  induction assignments as [|[k0 v0] rest IH]; intros loaded Hnotin;
    [reflexivity|].
  rewrite fmap_cons in Hnotin. apply not_elem_of_cons in Hnotin as [Hne Hrest].
  cbn [foldl]. rewrite (IH _ Hrest). apply getattr_setattr_ne. exact Hne.
Qed.

Lemma foldl_onupdate_keys v (onupdate : list string) columns :
  (foldl (fun columns k => setattr k v columns) columns onupdate).*1
  = columns.*1.
Proof.
  revert columns. induction onupdate as [|k rest IH]; intros columns;
    [reflexivity|].
  cbn [foldl]. rewrite IH. apply setattr_keys.
Qed.

Lemma getattr_onupdate_other v (onupdate : list string) columns k :
  k ∉ onupdate ->
  getattr (foldl (fun columns k => setattr k v columns) columns onupdate) k
  = getattr columns k.
Proof.
  revert columns. induction onupdate as [|k0 rest IH]; intros columns Hnotin;
    [reflexivity|].
  apply not_elem_of_cons in Hnotin as [Hne Hrest].
  cbn [foldl]. rewrite (IH _ Hrest). apply getattr_setattr_ne. exact Hne.
Qed.

Lemma getattr_onupdate_kept v (onupdate : list string) columns k :
  getattr columns k = v ->
  getattr (foldl (fun columns k => setattr k v columns) columns onupdate) k
  = v.
Proof.
  revert columns. induction onupdate as [|k0 rest IH]; intros columns Hv;
    [exact Hv|].
  cbn [foldl]. apply IH. destruct (decide (k = k0)) as [->|Hne].
  - destruct (decide (k0 ∈ columns.*1)) as [Hin|Hnotin].
    + apply getattr_setattr_eq, Hin.
    + rewrite getattr_notin in Hv by exact Hnotin. subst v.
      apply getattr_notin. rewrite setattr_keys. exact Hnotin.
  - rewrite getattr_setattr_ne by exact Hne. exact Hv.
Qed.

Lemma getattr_onupdate_set v (onupdate : list string) columns k :
  k ∈ onupdate -> k ∈ columns.*1 ->
  getattr (foldl (fun columns k => setattr k v columns) columns onupdate) k
  = v.
Proof.
  revert columns. induction onupdate as [|k0 rest IH]; intros columns Hin Hcol.
  - apply elem_of_nil in Hin. contradiction.
  - cbn [foldl]. destruct (decide (k = k0)) as [->|Hne].
    + apply getattr_onupdate_kept, getattr_setattr_eq, Hcol.
    + apply elem_of_cons in Hin as [?|Hin]; [contradiction|].
      apply IH; [exact Hin|]. rewrite setattr_keys. exact Hcol.
Qed.

Lemma flushed_keys onupdate now assignments loaded :
  (flushed onupdate now assignments loaded).*1 = loaded.*1.
Proof.
  unfold flushed. destruct (net_change assignments loaded).
  - rewrite foldl_onupdate_keys. apply assigned_keys.
  - apply assigned_keys.
Qed.

Lemma getattr_flushed onupdate now assignments loaded k :
  k ∉ onupdate ->
  getattr (flushed onupdate now assignments loaded) k
  = getattr (assigned assignments loaded) k.
Proof.
  intros Hnotin. unfold flushed. destruct (net_change assignments loaded);
    [apply getattr_onupdate_other; exact Hnotin | reflexivity].
Qed.

Lemma previous_values_lookup assignments loaded k :
  previous_values assignments loaded !! k
  = if decide (k ∈ assignments.*1) then Some (getattr loaded k) else None.
Proof.
  unfold previous_values.
  assert (Hgen : forall cs : gmap string value,
    foldl
      (fun cs kv =>
         match cs !! kv.1 with
         | Some _ => cs
         | None => <[ kv.1 := getattr loaded kv.1 ]> cs
         end) cs assignments !! k
    = match cs !! k with
      | Some v => Some v
      | None =>
          if decide (k ∈ assignments.*1) then Some (getattr loaded k)
          else None
      end).
  { induction assignments as [|[k0 v0] rest IH]; intros cs.
    - cbn. destruct (cs !! k); [reflexivity|].
      destruct (decide _) as [Hin|_]; [|reflexivity].
      apply elem_of_nil in Hin. contradiction.
    - cbn [foldl fst]. rewrite IH. rewrite fmap_cons. cbn [fst].
      destruct (cs !! k0) eqn:Hk0.
      + destruct (cs !! k) eqn:Hk; [reflexivity|].
        assert (k <> k0) by congruence.
        destruct (decide (k ∈ rest.*1)) as [Hin|Hnotin];
          destruct (decide (k ∈ k0 :: rest.*1)) as [Hin'|Hnotin'];
          try reflexivity.
        * exfalso. apply Hnotin'. apply elem_of_cons. auto.
        * apply elem_of_cons in Hin' as [?|?]; contradiction.
      + destruct (decide (k = k0)) as [->|Hne].
        * rewrite lookup_insert_eq, Hk0.
          destruct (decide (k0 ∈ k0 :: rest.*1)) as [_|Hnotin];
            [reflexivity|].
          exfalso. apply Hnotin, list_elem_of_here.
        * rewrite lookup_insert_ne by congruence.
          destruct (cs !! k); [reflexivity|].
          destruct (decide (k ∈ rest.*1)) as [Hin|Hnotin];
            destruct (decide (k ∈ k0 :: rest.*1)) as [Hin'|Hnotin'];
            try reflexivity.
          -- exfalso. apply Hnotin'. apply elem_of_cons. auto.
          -- apply elem_of_cons in Hin' as [?|?]; contradiction. }
  rewrite Hgen, lookup_empty. reflexivity.
Qed.

Lemma instance_state_keys pk columns cs :
  key <$> InstanceState.attrs (instance_state pk columns cs) = columns.*1.
Proof.
  unfold instance_state. cbn [InstanceState.attrs].
  rewrite <- list_fmap_compose. reflexivity.
Qed.

Lemma instance_state_attr pk columns cs a :
  NoDup columns.*1 ->
  a ∈ InstanceState.attrs (instance_state pk columns cs) <->
  key a ∈ columns.*1
  /\ a = {| key := key a; is_column := true; committed := cs !! key a;
            current := getattr columns (key a) |}.
Proof.
  intros Hnodup. unfold instance_state. cbn [InstanceState.attrs].
  rewrite list_elem_of_fmap. split.
  - intros ([k v] & -> & Hin). cbn [key fst snd]. split.
    + apply list_elem_of_fmap. exists (k, v). auto.
    + rewrite (getattr_elem _ _ _ Hnodup Hin). reflexivity.
  - intros [Hin Ha]. exists (key a, getattr columns (key a)). split.
    + exact Ha.
    + apply elem_getattr, Hin.
Qed.

(** An assigned attribute that is no column of the row, or that ends with
    its loaded value, is no net change. *)
Lemma net_change_true assignments loaded :
  net_change assignments loaded = true <->
  exists k, k ∈ assignments.*1 /\ k ∈ loaded.*1
    /\ value_eqb (getattr (assigned assignments loaded) k) (getattr loaded k)
       = false.
Proof.
  unfold net_change. rewrite existsb_exists. split.
  - intros ([k v] & Hin & Hne). cbn [fst] in Hne.
    apply negb_true_iff in Hne. exists k. split; [|split; [|exact Hne]].
    + apply list_elem_of_fmap. exists (k, v). split; [reflexivity|].
      apply list_elem_of_In, Hin.
    + destruct (decide (k ∈ loaded.*1)) as [|Hnotin]; [assumption|].
      rewrite !getattr_notin in Hne;
        [discriminate | exact Hnotin | rewrite assigned_keys; exact Hnotin].
  - intros (k & Hin & _ & Hne).
    apply list_elem_of_fmap in Hin as ([k0 v] & -> & Hin).
    exists (k0, v). split; [apply list_elem_of_In, Hin|].
    cbn [fst] in Hne |- *. rewrite Hne. reflexivity.
Qed.

(** The diff of a flushed instance, read on the row before and after the
    flush: the columns whose value differs, the [onupdate] columns apart. *)
Lemma updated_changes pk onupdate now assignments loaded k ch :
  NoDup loaded.*1 ->
  (forall k, k ∈ assignments.*1 -> k ∉ onupdate) ->
  _get_changes (updated_instance pk onupdate now assignments loaded) !! k
    = Some ch
  <-> k ∈ loaded.*1 /\ (k ∉ onupdate)
      /\ value_eqb (getattr (flushed onupdate now assignments loaded) k)
           (getattr loaded k) = false
      /\ ch = {| old := _serialize_value (getattr loaded k);
                 new := _serialize_value
                          (getattr (flushed onupdate now assignments loaded)
                             k) |}.
Proof.
  intros Hnodup Hassign. unfold updated_instance.
  assert (Hnodup' : NoDup (flushed onupdate now assignments loaded).*1)
    by (rewrite flushed_keys; exact Hnodup).
  rewrite get_changes_lookup
    by (rewrite instance_state_keys; exact Hnodup').
  split.
  - intros (a & Ha & <- & (original & Hcommitted & Hne) & ->).
    apply (instance_state_attr _ _ _ _ Hnodup') in Ha as [Hin Ha].
    rewrite flushed_keys in Hin.
    rewrite Ha in Hcommitted, Hne. cbn [committed current] in Hcommitted, Hne.
    rewrite previous_values_lookup in Hcommitted.
    destruct (decide (key a ∈ assignments.*1)) as [Hassigned|];
      [|discriminate].
    injection Hcommitted as <-.
    split; [exact Hin|]. split; [apply Hassign, Hassigned|].
    split; [exact Hne|].
    unfold change_of. rewrite Ha. cbn [committed current key].
    rewrite previous_values_lookup.
    destruct (decide _); [reflexivity|contradiction].
  - intros (Hin & Hnot & Hne & ->).
    assert (Hassigned : k ∈ assignments.*1).
    { destruct (decide (k ∈ assignments.*1)) as [|Hnotin]; [assumption|].
      rewrite (getattr_flushed _ _ _ _ _ Hnot),
        (getattr_assigned_other _ _ _ Hnotin), value_eqb_refl in Hne.
      discriminate. }
    exists {| key := k; is_column := true;
              committed := previous_values assignments loaded !! k;
              current := getattr (flushed onupdate now assignments loaded)
                           k |}.
    split; [|split; [reflexivity|split]].
    + apply (instance_state_attr _ _ _ _ Hnodup'). cbn [key].
      rewrite flushed_keys. auto.
    + exists (getattr loaded k). cbn [committed current].
      rewrite previous_values_lookup.
      destruct (decide _); [auto|contradiction].
    + unfold change_of. cbn [committed current].
      rewrite previous_values_lookup.
      destruct (decide _); [reflexivity|contradiction].
Qed.

Lemma updated_changes_nonempty pk onupdate now assignments loaded :
  NoDup loaded.*1 ->
  (forall k, k ∈ assignments.*1 -> k ∉ onupdate) ->
  net_change assignments loaded = true ->
  _get_changes (updated_instance pk onupdate now assignments loaded) <> ∅.
Proof.
  intros Hnodup Hassign Hnet Hempty.
  apply net_change_true in Hnet as (k & Hassigned & Hin & Hne).
  assert (Hl : _get_changes
                 (updated_instance pk onupdate now assignments loaded) !! k
               = Some {| old := _serialize_value (getattr loaded k);
                         new := _serialize_value
                                  (getattr
                                     (flushed onupdate now assignments loaded)
                                     k) |}).
  { apply updated_changes; [assumption..|].
    split; [exact Hin|]. split; [apply Hassign, Hassigned|].
    rewrite getattr_flushed by (apply Hassign, Hassigned). auto. }
  rewrite Hempty, lookup_empty in Hl. discriminate.
Qed.

Lemma updated_changes_empty pk onupdate now assignments loaded :
  NoDup loaded.*1 ->
  (forall k, k ∈ assignments.*1 -> k ∉ onupdate) ->
  net_change assignments loaded = false ->
  _get_changes (updated_instance pk onupdate now assignments loaded) = ∅.
Proof.
  intros Hnodup Hassign Hnet. apply map_eq. intros k. rewrite lookup_empty.
  destruct (_ !! k) as [ch|] eqn:Hl; [|reflexivity]. exfalso.
  apply updated_changes in Hl as (Hin & Hnot & Hne & _); [|assumption..].
  assert (Hassigned : k ∈ assignments.*1).
  { destruct (decide (k ∈ assignments.*1)) as [|Hnotin]; [assumption|].
    rewrite (getattr_flushed _ _ _ _ _ Hnot),
      (getattr_assigned_other _ _ _ Hnotin), value_eqb_refl in Hne.
    discriminate. }
  rewrite (getattr_flushed _ _ _ _ _ Hnot) in Hne.
  assert (Htrue : net_change assignments loaded = true)
    by (apply net_change_true; eauto).
  congruence.
Qed.

Lemma updated_snapshot pk columns cs k :
  NoDup columns.*1 -> k ∈ columns.*1 ->
  _get_snapshot (instance_state pk columns cs) !! k
  = Some (_serialize_value (getattr columns k)).
Proof.
  intros Hnodup Hin.
  pose (a := {| key := k; is_column := true; committed := cs !! k;
                current := getattr columns k |}).
  change k with (key a) at 1.
  change (getattr columns k) with (current a).
  apply get_snapshot_lookup.
  - rewrite instance_state_keys. exact Hnodup.
  - apply instance_state_attr; [exact Hnodup|]. auto.
  - reflexivity.
Qed.

(** C5, as the code has it. For a row with distinct columns, loaded,
    assigned to and flushed, and a running event loop:
    - [after_insert] creates exactly one task, with an empty diff and a
      snapshot holding the serialized value of every column;
    - when the flush changes the row, [after_update] creates exactly one
      task; its diff has an entry (old and new value serialized) for exactly
      the columns whose value after the flush differs from the loaded one,
      the columns with [onupdate] apart: those get the time of the flush in
      the row and never appear in the diff; the snapshot holds every column
      of the row after the flush;
    - when no assigned column ends with a value that differs from the
      loaded one, [after_update] creates no task and nothing is recorded;
    - a task whose audit session does not fail appends exactly one entry,
      with the action, table, record id, diff and snapshot of the task.
    This covers the four listeners, [table_name] being "escrow_transactions"
    or "deal_groups"; the code is taken not to assign an [onupdate] column
    itself. *)
Theorem audit_listeners_record table_name pk onupdate now assignments loaded
    tasks :
  NoDup loaded.*1 ->
  (forall k, k ∈ assignments.*1 -> k ∉ onupdate) ->
  let after := flushed onupdate now assignments loaded in
  let target := updated_instance pk onupdate now assignments loaded in
  (exists task,
     after_insert table_name (instance_state pk loaded ∅) (Some tasks)
     = Some (tasks ++ [task])
     /\ task_action task = "INSERT"%string
     /\ task_table_name task = table_name
     /\ task_record_id task = str_uuid pk
     /\ task_changes task = ∅
     /\ forall k, k ∈ loaded.*1 ->
          task_snapshot task !! k = Some (_serialize_value (getattr loaded k)))
  /\ (net_change assignments loaded = true ->
      exists task,
        after_update table_name target (Some tasks) = Some (tasks ++ [task])
        /\ task_action task = "UPDATE"%string
        /\ task_table_name task = table_name
        /\ task_record_id task = str_uuid pk
        /\ (forall k ch,
              task_changes task !! k = Some ch <->
              k ∈ loaded.*1 /\ (k ∉ onupdate)
              /\ value_eqb (getattr after k) (getattr loaded k) = false
              /\ ch = {| old := _serialize_value (getattr loaded k);
                         new := _serialize_value (getattr after k) |})
        /\ (forall k, k ∈ onupdate -> k ∈ loaded.*1 ->
              getattr after k = VDatetime now
              /\ task_changes task !! k = None)
        /\ forall k, k ∈ loaded.*1 ->
             task_snapshot task !! k
             = Some (_serialize_value (getattr after k)))
  /\ (net_change assignments loaded = false ->
      after_update table_name target (Some tasks) = Some tasks)
  /\ (forall task audit_logs,
        run_task None task audit_logs = audit_logs ++ [entry_of task]).
Proof.
  intros Hnodup Hassign after target.
  assert (Hnodup' : NoDup after.*1)
    by (unfold after; rewrite flushed_keys; exact Hnodup).
  split; [|split; [|split]].
  - eexists. split; [reflexivity|]. cbn. repeat split.
    intros k Hin. exact (updated_snapshot pk loaded ∅ k Hnodup Hin).
  - intros Hnet.
    eexists. split.
    { apply after_update_changed.
      apply updated_changes_nonempty; assumption. }
    cbn [task_action task_table_name task_record_id task_changes
         task_snapshot].
    split; [reflexivity|]. split; [reflexivity|]. split; [reflexivity|].
    split; [|split].
    + intros k ch.
      apply (updated_changes pk onupdate now assignments loaded);
        assumption.
    + intros k Honupdate Hin. split.
      * unfold after, flushed. rewrite Hnet.
        apply getattr_onupdate_set; [assumption|].
        rewrite assigned_keys. assumption.
      * destruct (_get_changes target !! k) as [ch|] eqn:Hl; [|reflexivity].
        apply (updated_changes pk onupdate now assignments loaded) in Hl
          as (_ & Hnot & _); [|assumption..].
        contradiction.
    + intros k Hin.
      apply (updated_snapshot pk after (previous_values assignments loaded));
        [exact Hnodup'|].
      unfold after. rewrite flushed_keys. exact Hin.
  - intros Hnet. unfold after_update, target.
    rewrite (updated_changes_empty _ _ _ _ _ Hnodup Hassign Hnet).
    destruct (decide _); [reflexivity|contradiction].
  - reflexivity.
Qed.

(** ** Audit delivery *)

Lemma settle_schedules_audit checkpw now request s r s' tasks :
  settle checkpw now request s = (inr r, s') ->
  committed_state s = [] -> loop s = Some tasks ->
  exists task,
    loop s' = Some (tasks ++ [task])
    /\ task_action task = "UPDATE"%string
    /\ task_table_name task = "escrow_transactions"%string
    /\ task_changes task !! "status"%string
       = Some {| old := JString "held"; new := JString "funds_released" |}.
Proof.
  intros Hsettle Hcs Hloop.
  apply settle_success in Hsettle
    as (deal & escrow_pk & escrow & payer_pk & payer & hash & producer_pk
        & producer & driver_pk & driver & Hinv).
  cbv zeta in Hinv.
  destruct Hinv as (_ & _ & Hheld & _ & _ & _ & _ & _ & _ & _ & _ & _ & _ & _
                    & _ & _ & _ & _ & Hloop' & _).
  rewrite Hcs, Hloop, flush_events_nil in Hloop'.
  pose proof (settled_status_change now request payer_pk escrow_pk escrow Hheld)
    as Hstatus.
  unfold escrow_after_update in Hloop'.
  rewrite after_update_changed in Hloop'.
  - eexists. split; [exact Hloop'|]. cbn. auto.
  - intros Hempty. rewrite Hempty, lookup_empty in Hstatus. discriminate.
Qed.

(** C6, as the code has it. The audit task of a settlement is created while
    the settlement block is still running (the session flushes the escrow
    update before it queries the producer), that is before the commit and
    not after it. The write itself never raises: when its session fails,
    the exception is swallowed and no entry is appended; otherwise exactly
    one entry is appended. Whatever the outcomes of the tasks, the rows of
    users, deals, escrows and shipments the business operation left are
    untouched. *)
Theorem audit_best_effort checkpw now request :
  (forall s r s' tasks,
     settle checkpw now request s = (inr r, s') ->
     committed_state s = [] -> loop s = Some tasks ->
     exists task,
       loop s' = Some (tasks ++ [task])
       /\ task_action task = "UPDATE"%string
       /\ task_table_name task = "escrow_transactions"%string
       /\ task_changes task !! "status"%string
          = Some {| old := JString "held"; new := JString "funds_released" |})
  /\ (forall fault action table_name record_id changes snapshot audit_logs,
        _write_audit_log fault action table_name record_id changes snapshot
          audit_logs
        = (tt,
           match fault with
           | Some exc => audit_logs
           | None =>
               audit_logs
                 ++ [ {| AuditLog.action := action;
                         AuditLog.table_name := table_name;
                         AuditLog.record_id := record_id;
                         AuditLog.changes := changes;
                         AuditLog.snapshot := snapshot |} ]
           end))
  /\ (forall faults tasks db,
        users (run_tasks faults tasks db) = users db
        /\ deal_groups (run_tasks faults tasks db) = deal_groups db
        /\ escrow_transactions (run_tasks faults tasks db)
           = escrow_transactions db
        /\ shipments (run_tasks faults tasks db) = shipments db).
Proof.
  split; [|split].
  - intros s r s' tasks. apply settle_schedules_audit.
  - intros [exc|]; reflexivity.
  - intros faults tasks db. apply run_tasks_business.
Qed.

(** ** Representation of money *)

Lemma round_cents_exp a : Decimal.exp (Decimal.round_cents a) = -2.
Proof.
  unfold Decimal.round_cents. destruct (-2 <=? Decimal.exp a); reflexivity.
Qed.

Lemma storable_numeric pk (objects : gmap uuid User.t) object :
  storable pk objects = true -> objects !! pk = Some object ->
  Decimal.numeric_12_2 (Decimal.round_cents (User.balance object)).
Proof.
  unfold storable, Decimal.store_numeric_12_2. intros Hfit Hl.
  rewrite Hl in Hfit. split; [apply round_cents_exp|].
  destruct (Z.abs _ <? 10 ^ 12) eqn:Hlt; [|discriminate].
  apply Z.ltb_lt. exact Hlt.
Qed.

(** The balances a settlement writes are values of the column type. *)
Lemma settled_users_numeric A p d (accounts : gmap uuid User.t) pk account' :
  credits_storable A p d accounts = true ->
  alter stored d (alter stored p (both_credited A p d accounts)) !! pk
  = Some account' ->
  accounts !! pk = Some account'
  \/ Decimal.numeric_12_2 (User.balance account').
Proof.
  intros Hfit Hl. apply credits_storable_true in Hfit as [Hsp Hsd].
  destruct (accounts !! pk) as [account|] eqn:Haccount.
  - rewrite (settled_users_lookup _ _ _ _ _ _ Haccount) in Hl.
    injection Hl as <-.
    destruct (decide (pk = d)) as [Hd|Hd]; destruct (decide (pk = p)) as [Hp|Hp].
    + subst d p. right. rewrite stored_balance.
      apply (storable_numeric pk _ _ Hsd).
      unfold both_credited, producer_credited.
      rewrite !lookup_alter_eq, Haccount. reflexivity.
    + subst d. right. rewrite stored_balance.
      apply (storable_numeric pk _ _ Hsd).
      unfold both_credited, producer_credited.
      rewrite lookup_alter_eq, lookup_alter_ne, Haccount by congruence.
      reflexivity.
    + subst p. right. rewrite stored_balance.
      apply (storable_numeric pk _ _ Hsp).
      unfold producer_credited. rewrite lookup_alter_eq, Haccount.
      reflexivity.
    + left. reflexivity.
  - exfalso. unfold both_credited, producer_credited in Hl.
    rewrite (proj2 (lookup_alter_None _ _ _ _)) in Hl; [discriminate|].
    rewrite (proj2 (lookup_alter_None _ _ _ _)); [reflexivity|].
    rewrite (proj2 (lookup_alter_None _ _ _ _)); [reflexivity|].
    rewrite (proj2 (lookup_alter_None _ _ _ _)); [reflexivity|].
    exact Haccount.
Qed.

(** C7, as the code has it. Escrow amounts, split shares and balances are
    computed as [Decimal] values: a settlement computes
    [(balance or 0) + amount * share] for the producer and the driver, and
    the [users] table stores each sum rounded to the cent, a value of
    [Numeric(12, 2)]. The audit serialization turns every [Decimal] into
    the nearest binary64 [float], and the release response carries the
    amount and both credits as binary64 [float]s obtained from the
    [Decimal] amount and shares. *)
Theorem monetary_representation checkpw utcnow request db running
    r db' running' :
  release_escrow checkpw utcnow request db running = (inr r, db', running') ->
  (forall d, _serialize_value (VDecimal d) = JFloat (Decimal.to_float d))
  /\ (exists pk e,
        escrow_transactions db !! pk = Some e
        /\ EscrowReleaseResponse.amount r
           = Decimal.to_float (EscrowTransaction.amount e)
        /\ BalanceCredit.amount (EscrowReleaseResponse.producer_credit r)
           = Decimal.to_float (producer_amount (EscrowTransaction.amount e))
        /\ BalanceCredit.amount (EscrowReleaseResponse.driver_credit r)
           = Decimal.to_float (driver_amount (EscrowTransaction.amount e))
        /\ (users db' = users db
            \/ exists producer_pk driver_pk,
                 users db'
                 = alter stored driver_pk
                     (alter stored producer_pk
                        (both_credited (EscrowTransaction.amount e)
                           producer_pk driver_pk (users db))))
        /\ forall pk' account',
             users db' !! pk' = Some account' ->
             users db !! pk' = Some account'
             \/ Decimal.numeric_12_2 (User.balance account')).
Proof.
  intros Hrel. split; [reflexivity|].
  apply release_success in Hrel
    as [(_ & existing_pk & existing & deal & Hsel & _ & _ & -> & -> & _)
       |(_ & deal & escrow_pk & escrow & payer_pk & producer_pk & producer
         & driver_pk & driver & _ & Hescrow & _ & _ & _ & _ & _ & _ & Hfit
         & -> & -> & _)].
  - apply select_where_singleton in Hsel as (Hrow & _ & _).
    exists existing_pk, existing. split; [exact Hrow|]. cbn. auto 10.
  - destruct Hescrow as (Hrow & _ & _).
    exists escrow_pk, escrow. split; [exact Hrow|].
    cbn [users settled_db].
    split; [reflexivity|]. split; [reflexivity|]. split; [reflexivity|].
    split; [right; eauto|].
    intros pk' account'. apply settled_users_numeric. exact Hfit.
Qed.

(** ** The split *)

Lemma shares_sum (A : Decimal) :
  Decimal.numeric_12_2 A ->
  Decimal.add (producer_amount A) (driver_amount A)
  = Dec (Decimal.coef A * 100) (-4).
Proof.
  intros HA. rewrite (producer_amount_exact A HA), (driver_amount_exact A HA).
  destruct HA as [He Hc]. destruct A as [c e]. simpl in He, Hc. subst e.
  unfold Decimal.add. simpl Decimal.exp. simpl Decimal.coef.
  change (Z.min (-4) (-4)) with (-4). change (-4 - -4) with 0.
  change (10 ^ 0) with 1. rewrite fix_small.
  - f_equal. lia.
  - simpl. change (10 ^ 28) with 10000000000000000000000000000.
    change (10 ^ 12) with 1000000000000 in Hc.
    apply Z.abs_lt. apply Z.abs_lt in Hc. lia.
Qed.

(** The computed shares are exact. *)
Lemma shares_exact (A : Decimal) :
  Decimal.numeric_12_2 A ->
  (Decimal.value (producer_amount A) == (9 # 10) * Decimal.value A)%Q
  /\ (Decimal.value (driver_amount A) == (1 # 10) * Decimal.value A)%Q
  /\ (Decimal.value (Decimal.add (producer_amount A) (driver_amount A))
        == Decimal.value A)%Q.
Proof.
  intros HA.
  rewrite (shares_sum A HA), (producer_amount_exact A HA),
    (driver_amount_exact A HA).
  destruct HA as [He _]. destruct A as [c e]. simpl in He. subst e.
  unfold Decimal.value. cbn [Decimal.coef Decimal.exp].
  change (Qpower (10 # 1) (-4)) with (1 # 10000)%Q.
  change (Qpower (10 # 1) (-2)) with (1 # 100)%Q.
  repeat split; unfold Qeq, Qplus, Qmult, inject_Z; simpl; lia.
Qed.

Lemma credit_cents_settled db db' pk account c' :
  users db !! pk = Some account ->
  (exists account',
     users db' !! pk = Some account'
     /\ User.balance account'
        = Dec (Decimal.coef (User.balance account) + c') (-2)) ->
  credit_cents db db' pk = Some c'.
Proof.
  intros Haccount (account' & Hl & Hbal). unfold credit_cents.
  rewrite Haccount, Hl, Hbal. cbn [Decimal.coef]. f_equal. lia.
Qed.

(** C1, as the code has it. The two shares a settlement computes from an
    escrow amount [A] of a [Numeric(12, 2)] column are exactly nine tenths
    and one tenth of [A] and add up to [A]. Each share is added to the
    balance of its account and the sum is stored rounded to the cent, ties
    away from zero. For a non-negative amount of [a] cents and non-negative
    balances, the producer is credited [a * 0.90] and the driver [a * 0.10]
    cents, each rounded half up; the two credits add up to [a], except when
    the last digit of [a] is 5: then they add up to one cent more. When
    seller and driver are one account, it is credited [a] exactly. *)
Theorem split_exactness checkpw utcnow request db running r db' running'
    deal escrow_pk escrow seller_pk seller driver_pk driver :
  reaches_settlement request ->
  release_escrow checkpw utcnow request db running = (inr r, db', running') ->
  numeric_columns db ->
  deal_groups db !! EscrowReleaseRequest.deal_id request = Some deal ->
  only_row (escrow_transactions db)
    (of_deal (EscrowReleaseRequest.deal_id request)) escrow_pk escrow ->
  DealGroup.seller_id deal = Some seller_pk ->
  DealGroup.driver_id deal = Some driver_pk ->
  users db !! seller_pk = Some seller ->
  users db !! driver_pk = Some driver ->
  0 <= Decimal.coef (EscrowTransaction.amount escrow) ->
  0 <= Decimal.coef (User.balance seller) ->
  0 <= Decimal.coef (User.balance driver) ->
  let A := EscrowTransaction.amount escrow in
  let a := Decimal.coef A in
  (Decimal.value (producer_amount A) == (9 # 10) * Decimal.value A)%Q
  /\ (Decimal.value (driver_amount A) == (1 # 10) * Decimal.value A)%Q
  /\ (Decimal.value (Decimal.add (producer_amount A) (driver_amount A))
        == Decimal.value A)%Q
  /\ (seller_pk <> driver_pk ->
      credit_cents db db' seller_pk = Some ((a * 90 + 50) / 100)
      /\ credit_cents db db' driver_pk = Some ((a * 10 + 50) / 100)
      /\ (a * 90 + 50) / 100 + (a * 10 + 50) / 100
         = a + (if a mod 10 =? 5 then 1 else 0))
  /\ (seller_pk = driver_pk -> credit_cents db db' seller_pk = Some a)
  /\ forall pk account,
       users db !! pk = Some account ->
       exists account',
         users db' !! pk = Some account'
         /\ Decimal.exp (User.balance account') = -2.
Proof.
  intros Hreach Hrel [Hamounts Hbalances] Hdeal Hescrow Hseller Hdriver_id
    Hs Hd Hpos Hspos Hdpos A a. subst A a.
  set (A := EscrowTransaction.amount escrow) in *.
  pose proof (Hamounts _ _ (proj1 Hescrow)) as HA.
  destruct (release_settled_inv _ _ _ _ _ _ _ _ Hreach Hrel)
    as (deal0 & escrow_pk0 & escrow0 & payer_pk & payer & hash & producer_pk
        & producer & driver_pk0 & driver0 & Hdeal0 & Hescrow0 & _ & _ & _ & _
        & _ & _ & Hseller0 & _ & Hdriver_id0 & _ & _ & _ & _ & Hdb & _).
  rewrite Hdeal in Hdeal0. injection Hdeal0 as <-.
  rewrite Hseller in Hseller0. injection Hseller0 as <-.
  rewrite Hdriver_id in Hdriver_id0. injection Hdriver_id0 as <-.
  assert (escrow_pk0 = escrow_pk) as ->.
  { destruct Hescrow as (_ & _ & Huniq). destruct Hescrow0 as (Hrow & Hw & _).
    apply (Huniq _ _ Hrow Hw). }
  assert (escrow0 = escrow) as ->.
  { destruct Hescrow as (Hrow & _). destruct Hescrow0 as (Hrow' & _).
    congruence. }
  assert (Husers : users db'
            = alter stored driver_pk
                (alter stored seller_pk
                   (both_credited A seller_pk driver_pk (users db))))
    by (rewrite Hdb; reflexivity).
  split; [|split; [|split; [|split; [|split]]]].
  - apply (shares_exact A HA).
  - apply (shares_exact A HA).
  - apply (shares_exact A HA).
  - intros Hne. split; [|split; [|apply rounded_shares]].
    + apply (credit_cents_settled _ _ _ seller);
        [exact Hs|].
      destruct (settled_balance A seller_pk driver_pk (users db) seller_pk
                  seller HA Hpos (Hbalances _ _ Hs) Hs)
        as (account' & Hl & _ & _ & Hbal).
      exists account'. rewrite Husers. split; [exact Hl|].
      rewrite Hbal.
      destruct (decide (seller_pk = driver_pk)); [contradiction|].
      destruct (decide (seller_pk = seller_pk)); [|contradiction].
      rewrite round_cents_4, round_credit by lia. reflexivity.
    + apply (credit_cents_settled _ _ _ driver);
        [exact Hd|].
      destruct (settled_balance A seller_pk driver_pk (users db) driver_pk
                  driver HA Hpos (Hbalances _ _ Hd) Hd)
        as (account' & Hl & _ & _ & Hbal).
      exists account'. rewrite Husers. split; [exact Hl|].
      rewrite Hbal.
      destruct (decide (driver_pk = driver_pk)); [|contradiction].
      destruct (decide (driver_pk = seller_pk)); [congruence|].
      rewrite round_cents_4, round_credit by lia. reflexivity.
  - intros Heq.
    apply (credit_cents_settled _ _ _ seller);
      [exact Hs|].
    destruct (settled_balance A seller_pk driver_pk (users db) seller_pk
                seller HA Hpos (Hbalances _ _ Hs) Hs)
      as (account' & Hl & _ & _ & Hbal).
    exists account'. rewrite Husers. split; [exact Hl|].
    rewrite Hbal.
    destruct (decide (seller_pk = driver_pk)); [|contradiction].
    destruct (decide (seller_pk = seller_pk)); [|contradiction].
    reflexivity.
  - intros pk account Haccount.
    destruct (settled_balance A seller_pk driver_pk (users db) pk account HA
                Hpos (Hbalances _ _ Haccount) Haccount)
      as (account' & Hl & _ & _ & Hbal).
    exists account'. rewrite Husers. split; [exact Hl|].
    rewrite Hbal.
    destruct (decide (pk = driver_pk)); destruct (decide (pk = seller_pk));
      try apply round_cents_exp; try reflexivity.
    apply (Hbalances _ _ Haccount).
Qed.

(** ** The seeded deal: worked examples *)

Lemma only_row_singleton {R} (where_ : R -> bool) pk (r : R) :
  where_ r = true -> only_row ({[ pk := r ]} : gmap uuid R) where_ pk r.
Proof.
  intros Hw. split; [apply lookup_singleton_eq|]. split; [exact Hw|].
  intros pk' r' Hl _. apply lookup_singleton_Some in Hl as [<- _]. reflexivity.
Qed.

Lemma release_state_checks_witness :
  release_escrow demo_checkpw delivery_time (release_request "1234" None)
    (seeded_db EscrowStatus.FUNDS_RELEASED None (Some producer_pk)) (Some [])
  = (inl (HTTPException 409
            "Funds have already been released for this deal. Double-spending prevented."),
     seeded_db EscrowStatus.FUNDS_RELEASED None (Some producer_pk), Some [])
  /\ release_escrow demo_checkpw delivery_time
       (release_request "1234" None)
       (seeded_db EscrowStatus.DISPUTED None (Some producer_pk)) (Some [])
     = (inl (HTTPException 400
               "Escrow is in 'disputed' state. Only 'held' escrows can be released."),
        seeded_db EscrowStatus.DISPUTED None (Some producer_pk), Some [])
  /\ release_escrow demo_checkpw delivery_time
       (release_request "1234" (Some "key-901"%string))
       (seeded_db EscrowStatus.HELD (Some "key-901"%string)
          (Some producer_pk)) (Some [])
     = (inl (HTTPException 409
               "Idempotency key exists but escrow is in 'held' state, not released."),
        seeded_db EscrowStatus.HELD (Some "key-901"%string) (Some producer_pk),
        Some []).
Proof.
  split; [|split].
  - apply (proj1 (release_state_checks demo_checkpw delivery_time
                    (release_request "1234" None)
                    (seeded_db EscrowStatus.FUNDS_RELEASED None
                       (Some producer_pk)) (Some []))
             (seeded_deal (Some producer_pk)) escrow_pk
             (seeded_escrow EscrowStatus.FUNDS_RELEASED None)).
    + reflexivity.
    + reflexivity.
    + apply only_row_singleton. reflexivity.
    + reflexivity.
  - apply (proj1 (release_state_checks demo_checkpw delivery_time
                    (release_request "1234" None)
                    (seeded_db EscrowStatus.DISPUTED None (Some producer_pk))
                    (Some []))
             (seeded_deal (Some producer_pk)) escrow_pk
             (seeded_escrow EscrowStatus.DISPUTED None)).
    + reflexivity.
    + reflexivity.
    + apply only_row_singleton. reflexivity.
    + discriminate.
    + discriminate.
  - apply (proj2 (release_state_checks demo_checkpw delivery_time
                    (release_request "1234" (Some "key-901"%string))
                    (seeded_db EscrowStatus.HELD (Some "key-901"%string)
                       (Some producer_pk)) (Some []))
             escrow_pk
             (seeded_escrow EscrowStatus.HELD (Some "key-901"%string))).
    + reflexivity.
    + apply only_row_singleton. reflexivity.
    + discriminate.
Defined.

Lemma release_failure_aborts_witness :
  release_escrow demo_checkpw delivery_time
    (release_request "0000" None)
    (seeded_db EscrowStatus.HELD None (Some producer_pk)) (Some [])
  = (inl (HTTPException 403 "Invalid PIN. Authorization denied."),
     seeded_db EscrowStatus.HELD None (Some producer_pk), Some []).
Proof.
  destruct (release_escrow demo_checkpw delivery_time
              (release_request "0000" None)
              (seeded_db EscrowStatus.HELD None (Some producer_pk)) (Some []))
    as [[[exc|r] db'] running'] eqn:Hrun.
  - rewrite (proj1 (release_failure_aborts _ _ _ _ _ _ _ _ Hrun)).
    vm_compute in Hrun. injection Hrun as <- _ <-. reflexivity.
  - vm_compute in Hrun. discriminate.
Defined.

Lemma seeded_users_numeric pk u :
  seeded_users !! pk = Some u -> Decimal.numeric_12_2 (User.balance u).
Proof.
  unfold seeded_users. intros Hu.
  apply lookup_insert_Some in Hu as [[_ <-]|[_ Hu]];
    [split; [reflexivity | cbn; lia]|].
  apply lookup_insert_Some in Hu as [[_ <-]|[_ Hu]];
    [split; [reflexivity | cbn; lia]|].
  apply lookup_singleton_Some in Hu as [_ <-].
  split; [reflexivity | cbn; lia].
Qed.

Lemma seeded_db_numeric st k seller : numeric_columns (seeded_db st k seller).
Proof.
  split.
  - intros pk e He. cbn in He. apply lookup_singleton_Some in He as [_ <-].
    split; [reflexivity | cbn; lia].
  - intros pk u Hu. apply (seeded_users_numeric pk u Hu).
Qed.

Lemma five_cent_db_numeric : numeric_columns five_cent_db.
Proof.
  split.
  - intros pk e He. cbn in He. apply lookup_singleton_Some in He as [_ <-].
    split; [reflexivity | cbn; lia].
  - intros pk u Hu. apply (seeded_users_numeric pk u Hu).
Qed.

(** Scenario A: the settlement of deal #901 credits 3942.00 to the producer
    and 438.00 to the driver, releases the escrow and delivers the
    shipment. *)
Lemma scenario_A :
  exists r db' running',
    release_escrow demo_checkpw delivery_time (release_request "1234" None)
      (seeded_db EscrowStatus.HELD None (Some producer_pk)) (Some [])
    = (inr r, db', running')
    /\ User.balance <$> users db' !! producer_pk = Some (Dec 404200 (-2))
    /\ User.balance <$> users db' !! driver_pk = Some (Dec 43800 (-2))
    /\ EscrowTransaction.status <$> escrow_transactions db' !! escrow_pk
       = Some EscrowStatus.FUNDS_RELEASED
    /\ Shipment.status <$> shipments db' !! shipment_pk
       = Some ShipmentStatus.DELIVERED
    /\ EscrowReleaseResponse.message r
       = "Funds released for Deal #901 — Golden Apples. $3942.00 credited to Alisher, $438.00 credited to Rustam."%string.
Proof.
  do 3 eexists. split; [vm_compute; reflexivity|].
  repeat split; vm_compute; reflexivity.
Qed.

(** An escrow of 0.05: the producer's share 0.045 is stored as a credit of
    0.05 and the driver's share 0.005 as a credit of 0.01, six cents for an
    escrow of five. *)
Lemma stored_credits_exceed_amount :
  exists r db' running',
    release_escrow demo_checkpw delivery_time (release_request "1234" None)
      five_cent_db (Some [])
    = (inr r, db', running')
    /\ EscrowTransaction.amount <$> escrow_transactions five_cent_db
                                      !! escrow_pk
       = Some (Dec 5 (-2))
    /\ credit_cents five_cent_db db' producer_pk = Some 5
    /\ credit_cents five_cent_db db' driver_pk = Some 1
    /\ ~ credits_sum_to_amount five_cent_db db' (Dec 5 (-2)) producer_pk
           driver_pk.
Proof.
  do 3 eexists. split; [vm_compute; reflexivity|].
  split; [reflexivity|]. split; [vm_compute; reflexivity|].
  split; [vm_compute; reflexivity|].
  intros (cp & cd & Hp & Hd & Hsum).
  vm_compute in Hp, Hd. injection Hp as <-. injection Hd as <-.
  discriminate.
Qed.

Lemma split_exactness_witness :
  exists db',
    (release_escrow demo_checkpw delivery_time (release_request "1234" None)
       five_cent_db (Some [])).1.2 = db'
    /\ credit_cents five_cent_db db' producer_pk = Some ((5 * 90 + 50) / 100)
    /\ credit_cents five_cent_db db' driver_pk = Some ((5 * 10 + 50) / 100)
    /\ (5 * 90 + 50) / 100 + (5 * 10 + 50) / 100 = 5 + 1.
Proof.
  destruct (release_escrow demo_checkpw delivery_time
              (release_request "1234" None) five_cent_db (Some []))
    as [[[exc|r] db'] running'] eqn:Hrun.
  - vm_compute in Hrun. discriminate.
  - exists db'. split; [reflexivity|].
    apply (split_exactness demo_checkpw delivery_time
             (release_request "1234" None) five_cent_db (Some []) r db'
             running' (seeded_deal (Some producer_pk)) escrow_pk
             {| EscrowTransaction.deal_group_id := deal_pk;
                EscrowTransaction.amount := Dec 5 (-2);
                EscrowTransaction.currency := "USD";
                EscrowTransaction.status := EscrowStatus.HELD;
                EscrowTransaction.payer_id := Some retailer_pk;
                EscrowTransaction.payee_id := Some producer_pk;
                EscrowTransaction.released_by_id := None;
                EscrowTransaction.idempotency_key := None;
                EscrowTransaction.released_at := None;
                EscrowTransaction.created_at := seeded_at |}
             producer_pk
             {| User.full_name := "Alisher"; User.balance := Dec 10000 (-2);
                User.escrow_pin_hash := None |}
             driver_pk
             {| User.full_name := "Rustam"; User.balance := Dec 0 (-2);
                User.escrow_pin_hash := None |}).
    + reflexivity.
    + exact Hrun.
    + exact five_cent_db_numeric.
    + reflexivity.
    + apply only_row_singleton. reflexivity.
    + reflexivity.
    + reflexivity.
    + reflexivity.
    + reflexivity.
    + cbn. lia.
    + cbn. lia.
    + cbn. lia.
    + discriminate.
Defined.

Lemma credits_never_decrease_witness :
  exists account',
    users (release_escrow demo_checkpw delivery_time
             (release_request "1234" None)
             (seeded_db EscrowStatus.HELD None (Some producer_pk))
             (Some [])).1.2 !! producer_pk = Some account'
    /\ Decimal.leb (Dec 10000 (-2)) (User.balance account') = true.
Proof.
  destruct (release_escrow demo_checkpw delivery_time
              (release_request "1234" None)
              (seeded_db EscrowStatus.HELD None (Some producer_pk)) (Some []))
    as [[[exc|r] db'] running'] eqn:Hrun.
  - vm_compute in Hrun. discriminate.
  - destruct (credits_never_decrease _ _ _ _ _ _ _ _ Hrun
                (seeded_db_numeric _ _ _)) with
        (pk := producer_pk)
        (account := {| User.full_name := "Alisher";
                       User.balance := Dec 10000 (-2);
                       User.escrow_pin_hash := None |})
      as (account' & Hl & Hle & _).
    + intros pk e He _. cbn in He.
      apply lookup_singleton_Some in He as [_ <-]. cbn. lia.
    + reflexivity.
    + exists account'. split; assumption.
Defined.

Lemma payer_balance_unchanged_witness :
  users (release_escrow demo_checkpw delivery_time
           (release_request "1234" None)
           (seeded_db EscrowStatus.HELD None (Some producer_pk))
           (Some [])).1.2 !! retailer_pk
  = seeded_users !! retailer_pk.
Proof.
  destruct (release_escrow demo_checkpw delivery_time
              (release_request "1234" None)
              (seeded_db EscrowStatus.HELD None (Some producer_pk)) (Some []))
    as [[[exc|r] db'] running'] eqn:Hrun.
  - vm_compute in Hrun. discriminate.
  - apply (proj1 (payer_balance_unchanged _ _ _ _ _ _ _ _
                    (seeded_deal (Some producer_pk)) escrow_pk
                    (seeded_escrow EscrowStatus.HELD None) retailer_pk Hrun
                    eq_refl eq_refl eq_refl eq_refl
                    ltac:(discriminate) ltac:(discriminate))).
Defined.

Lemma escrow_status_transitions_witness :
  exists e',
    escrow_transactions
      (release_escrow demo_checkpw delivery_time
         (release_request "1234" None)
         (seeded_db EscrowStatus.HELD None (Some producer_pk))
         (Some [])).1.2 !! escrow_pk = Some e'
    /\ (EscrowTransaction.status e' <> EscrowStatus.HELD ->
        EscrowTransaction.status e' = EscrowStatus.FUNDS_RELEASED).
Proof.
  destruct (release_escrow demo_checkpw delivery_time
              (release_request "1234" None)
              (seeded_db EscrowStatus.HELD None (Some producer_pk)) (Some []))
    as [[[exc|r] db'] running'] eqn:Hrun.
  - vm_compute in Hrun. discriminate.
  - destruct (proj1 (proj2 (escrow_status_transitions _ _ _ _ _ _ _ _ Hrun))
                escrow_pk (seeded_escrow EscrowStatus.HELD None) eq_refl)
      as (e' & He' & Htrans & _).
    exists e'. split; [exact He'|]. intros Hne. apply Htrans. exact Hne.
Defined.

(** The declared enumeration has a fifth member, RELEASED, outside the four
    statuses HELD, FUNDS_RELEASED, REFUNDED and DISPUTED; an escrow row may
    carry it, and a release of such a row is refused with "Escrow is in
    'released' state". *)
Lemma released_is_a_status :
  (EscrowStatus.RELEASED
     ∉ [EscrowStatus.HELD; EscrowStatus.FUNDS_RELEASED; EscrowStatus.REFUNDED;
        EscrowStatus.DISPUTED])
  /\ release_escrow demo_checkpw delivery_time
       (release_request "1234" None)
       (seeded_db EscrowStatus.RELEASED None (Some producer_pk)) (Some [])
     = (inl (HTTPException 400
               "Escrow is in 'released' state. Only 'held' escrows can be released."),
        seeded_db EscrowStatus.RELEASED None (Some producer_pk), Some []).
Proof.
  split; [|vm_compute; reflexivity].
  rewrite !not_elem_of_cons. repeat split; try discriminate.
  apply not_elem_of_nil.
Qed.

Lemma monetary_representation_witness :
  EscrowReleaseResponse.amount
    <$> (match (release_escrow demo_checkpw delivery_time
                  (release_request "1234" None)
                  (seeded_db EscrowStatus.HELD None (Some producer_pk))
                  (Some [])).1.1 with
         | inr r => Some r
         | inl _ => None
         end)
  = Some (Decimal.to_float (Dec 438000 (-2))).
Proof.
  destruct (release_escrow demo_checkpw delivery_time
              (release_request "1234" None)
              (seeded_db EscrowStatus.HELD None (Some producer_pk)) (Some []))
    as [[[exc|r] db'] running'] eqn:Hrun.
  - vm_compute in Hrun. discriminate.
  - destruct (proj2 (monetary_representation _ _ _ _ _ _ _ _ Hrun))
      as (pk & e & He & Hamount & _).
    cbn in He. apply lookup_singleton_Some in He as [_ <-].
    cbn. rewrite Hamount. reflexivity.
Defined.

(** The audit serialization of the amount 0.10 is a binary float, and that
    float is not one tenth: its mantissa times ten is not [2^56]. *)
Lemma decimal_serialized_as_float :
  is_float (_serialize_value (VDecimal (Dec 10 (-2)))) = true
  /\ _serialize_value (VDecimal (Dec 10 (-2)))
     = JFloat (S754_finite false 7205759403792794 (-56))
  /\ 7205759403792794 * 10 <> 2 ^ 56.
Proof. split; [reflexivity|]. split; [reflexivity|]. discriminate. Qed.

(** The seeded escrow carries the key "key-901" and is released by a
    request without key; a request with that key then gets the replay, which
    answers with "cached" where the settlement gave the producer's
    identifier and name, and with another message. *)
Lemma replay_differs_from_settlement :
  exists r1 db1 running1 r2,
    release_escrow demo_checkpw delivery_time (release_request "1234" None)
      (seeded_db EscrowStatus.HELD (Some "key-901"%string)
         (Some producer_pk)) (Some [])
    = (inr r1, db1, running1)
    /\ release_escrow demo_checkpw later
         (release_request "1234" (Some "key-901"%string)) db1 running1
       = (inr r2, db1, running1)
    /\ BalanceCredit.user_id (EscrowReleaseResponse.producer_credit r1)
       = "00000000-0000-0000-0000-000000000002"%string
    /\ BalanceCredit.user_id (EscrowReleaseResponse.producer_credit r2)
       = "cached"%string
    /\ BalanceCredit.user_name (EscrowReleaseResponse.producer_credit r1)
       = "Alisher"%string
    /\ BalanceCredit.user_name (EscrowReleaseResponse.producer_credit r2)
       = "cached"%string
    /\ r2 <> r1.
Proof.
  do 4 eexists. split; [vm_compute; reflexivity|].
  split; [vm_compute; reflexivity|].
  repeat split; try (vm_compute; reflexivity).
  vm_compute. discriminate.
Qed.

Lemma idempotent_replay_witness :
  exists r1 db1 running1 r2,
    release_escrow demo_checkpw delivery_time (release_request "1234" None)
      (seeded_db EscrowStatus.HELD (Some "key-901"%string)
         (Some producer_pk)) (Some [])
    = (inr r1, db1, running1)
    /\ release_escrow demo_checkpw later
         (release_request "1234" (Some "key-901"%string)) db1 running1
       = (inr r2, db1, running1)
    /\ same_settlement r1 r2.
Proof.
  destruct (release_escrow demo_checkpw delivery_time
              (release_request "1234" None)
              (seeded_db EscrowStatus.HELD (Some "key-901"%string)
                 (Some producer_pk)) (Some []))
    as [[[exc|r1] db1] running1] eqn:Hrun.
  - vm_compute in Hrun. discriminate.
  - destruct (proj2 (idempotent_replay demo_checkpw delivery_time later
                       (release_request "1234" (Some "key-901"%string))
                       (seeded_db EscrowStatus.HELD (Some "key-901"%string)
                          (Some producer_pk))
                       (Some []))
                (release_request "1234" None) escrow_pk
                (seeded_escrow EscrowStatus.HELD (Some "key-901"%string))
                r1 db1 running1 eq_refl)
      as (r2 & Hreplay & Hsame & _).
    + apply only_row_singleton. reflexivity.
    + reflexivity.
    + reflexivity.
    + exact Hrun.
    + exists r1, db1, running1, r2. auto.
Defined.

Lemma deal_columns_keys_NoDup pk row : NoDup (deal_columns pk row).*1.
Proof.
  cbn. apply NoDup_ListNoDup.
  repeat constructor; cbn; intuition discriminate.
Qed.

(** An update in which no field changed is not recorded: the listener
    creates no task, so no audit entry is written. And an update of a deal
    changes its [updated_at] in the row, from the time of seeding to the
    time of the flush, without an entry for it in the diff. *)
Lemma unchanged_update_not_recorded :
  _get_changes reassigned_escrow = ∅
  /\ escrow_after_update reassigned_escrow (Some []) = Some []
  /\ deal_after_update reassigned_escrow (Some []) = Some []
  /\ getattr (deal_columns deal_pk (seeded_deal (Some producer_pk)))
       "updated_at" = VDatetime seeded_at
  /\ getattr delivered_deal_columns "updated_at" = VDatetime later
  /\ exists task,
       deal_after_update delivered_deal (Some []) = Some [task]
       /\ task_changes task !! "status"%string
          = Some {| old := JString "in_transit"; new := JString "delivered" |}
       /\ task_changes task !! "updated_at"%string = None.
Proof.
  split; [vm_compute; reflexivity|]. split; [vm_compute; reflexivity|].
  split; [vm_compute; reflexivity|]. split; [reflexivity|].
  split; [vm_compute; reflexivity|].
  eexists. split; [vm_compute; reflexivity|].
  split; vm_compute; reflexivity.
Qed.

Lemma audit_listeners_record_witness :
  exists task,
    deal_after_update delivered_deal (Some []) = Some [task]
    /\ task_action task = "UPDATE"%string
    /\ task_changes task !! "status"%string
       = Some {| old := JString "in_transit"; new := JString "delivered" |}
    /\ task_changes task !! "updated_at"%string = None
    /\ task_snapshot task !! "status"%string = Some (JString "delivered").
Proof.
  destruct (proj1 (proj2 (audit_listeners_record "deal_groups" deal_pk
                     deal_onupdate later
                     [("status"%string, VEnum "delivered")]
                     (deal_columns deal_pk (seeded_deal (Some producer_pk)))
                     []
                     (deal_columns_keys_NoDup _ _)
                     ltac:(intros k Hk Hin; vm_compute in Hk, Hin;
                           apply list_elem_of_singleton in Hk, Hin;
                           congruence)))
              eq_refl)
    as (task & Hrun & Haction & _ & _ & Hchanges & Honupdate & Hsnapshot).
  exists task. split; [exact Hrun|]. split; [exact Haction|].
  split; [|split].
  - apply Hchanges. split; [|split; [|split]].
    + vm_compute. do 3 apply list_elem_of_further. apply list_elem_of_here.
    + intros Hin. vm_compute in Hin. apply list_elem_of_singleton in Hin.
      discriminate.
    + vm_compute. reflexivity.
    + vm_compute. reflexivity.
  - apply Honupdate.
    + apply list_elem_of_here.
    + vm_compute. do 10 apply list_elem_of_further. apply list_elem_of_here.
  - rewrite (Hsnapshot "status"%string).
    + vm_compute. reflexivity.
    + vm_compute. do 3 apply list_elem_of_further. apply list_elem_of_here.
Defined.

(** The seller of the deal has no account: the settlement flushes the
    escrow update, the listener creates the audit task, then the producer is
    not found and the transaction is rolled back. The escrow is still HELD,
    and the task, run afterwards, appends an entry that says the status went
    from "held" to "funds_released". *)
Lemma audit_task_without_commit :
  exists task,
    release_escrow demo_checkpw delivery_time (release_request "1234" None)
      (seeded_db EscrowStatus.HELD None None) (Some [])
    = (inl (HTTPException 404 "Producer (seller) account not found."),
       seeded_db EscrowStatus.HELD None None, Some [task])
    /\ task_action task = "UPDATE"%string
    /\ task_table_name task = "escrow_transactions"%string
    /\ task_changes task !! "status"%string
       = Some {| old := JString "held"; new := JString "funds_released" |}
    /\ audit_logs (run_tasks [] [task] (seeded_db EscrowStatus.HELD None None))
       = [entry_of task]
    /\ EscrowTransaction.status
         <$> (escrow_transactions (seeded_db EscrowStatus.HELD None None)
                !! escrow_pk)
       = Some EscrowStatus.HELD.
Proof.
  eexists. split; [vm_compute; reflexivity|].
  repeat split; vm_compute; reflexivity.
Qed.

Lemma audit_best_effort_witness :
  exists task,
    loop (settle demo_checkpw delivery_time (release_request "1234" None)
            (in_transaction
               (seeded_db EscrowStatus.HELD None (Some producer_pk))
               (Some []))).2
    = Some [task]
    /\ task_action task = "UPDATE"%string.
Proof.
  destruct (settle demo_checkpw delivery_time (release_request "1234" None)
              (in_transaction
                 (seeded_db EscrowStatus.HELD None (Some producer_pk))
                 (Some [])))
    as [[exc|r] s'] eqn:Hrun.
  - vm_compute in Hrun. discriminate.
  - destruct (proj1 (audit_best_effort demo_checkpw delivery_time
                       (release_request "1234" None))
                _ r s' [] Hrun eq_refl eq_refl)
      as (task & Hloop & Haction & _).
    exists task. split; [exact Hloop | exact Haction].
Defined.

(** * Further properties *)

(** ** Refusals of the settlement *)


(** X1. A request that enters the settlement and names a deal that does not
    exist, a deal without escrow row, or a HELD escrow whose payer account
    does not exist (or is not set) is refused with 404 and the message of
    its case; nothing is written and no audit task is created. *)
Theorem release_not_found checkpw utcnow request db running :
  reaches_settlement request ->
  (deal_groups db !! EscrowReleaseRequest.deal_id request = None ->
   release_escrow checkpw utcnow request db running
   = (inl (HTTPException 404
             ("Deal " +:+ str_uuid (EscrowReleaseRequest.deal_id request)
              +:+ " not found.")),
      db, running))
  /\ (forall deal,
        deal_groups db !! EscrowReleaseRequest.deal_id request = Some deal ->
        (forall pk e, escrow_transactions db !! pk = Some e ->
           EscrowTransaction.deal_group_id e
           <> EscrowReleaseRequest.deal_id request) ->
        release_escrow checkpw utcnow request db running
        = (inl (HTTPException 404
                  ("No escrow transaction found for deal #"
                   +:+ str_int (DealGroup.deal_number deal) +:+ ".")),
           db, running))
  /\ (forall deal escrow_pk escrow,
        deal_groups db !! EscrowReleaseRequest.deal_id request = Some deal ->
        only_row (escrow_transactions db)
          (of_deal (EscrowReleaseRequest.deal_id request)) escrow_pk escrow ->
        EscrowTransaction.status escrow = EscrowStatus.HELD ->
        (forall pk, EscrowTransaction.payer_id escrow = Some pk ->
                    users db !! pk = None) ->
        release_escrow checkpw utcnow request db running
        = (inl (HTTPException 404 "Payer account not found."), db, running)).
Proof.
  intros Hreach. rewrite (release_enters _ _ _ _ _ Hreach).
  split; [|split].
  - intros Hdeal. unfold settle, in_transaction, new_session, set_begun.
    rewrite bind_execute by reflexivity. cbn [rows]. unfold select_pk.
    rewrite Hdeal. reflexivity.
  - intros deal Hdeal Hnone.
    unfold settle, in_transaction, new_session, set_begun.
    rewrite bind_execute by reflexivity. cbn [rows].
    rewrite (select_pk_lookup _ _ _ Hdeal).
    cbn [scalar_one_or_none].
    rewrite bind_mret, bind_execute by reflexivity. cbn [rows].
    rewrite select_where_nil; [reflexivity|].
    intros pk e He. apply bool_decide_eq_false. eauto.
  - intros deal escrow_pk escrow Hdeal Hescrow Hheld Hpayer.
    run_checks Hdeal Hescrow Hheld.
    rewrite (select_pk_missing _ _ Hpayer). reflexivity.
Qed.

(** X2. The PIN check. For a request that enters the settlement of a deal
    with its one HELD escrow and an existing payer: a payer without PIN hash
    (none, or the empty string) gives 403 "no escrow PIN configured"; a PIN
    that does not match the hash gives 403 "Invalid PIN"; a stored hash that
    bcrypt rejects as malformed surfaces as an unhandled [ValueError]. In
    the three cases nothing is written and no audit task is created. *)
Theorem release_pin_check checkpw utcnow request db running deal
    escrow_pk escrow payer_pk payer :
  reaches_settlement request ->
  deal_groups db !! EscrowReleaseRequest.deal_id request = Some deal ->
  only_row (escrow_transactions db)
    (of_deal (EscrowReleaseRequest.deal_id request)) escrow_pk escrow ->
  EscrowTransaction.status escrow = EscrowStatus.HELD ->
  EscrowTransaction.payer_id escrow = Some payer_pk ->
  users db !! payer_pk = Some payer ->
  (str_truthy (User.escrow_pin_hash payer) = false ->
   release_escrow checkpw utcnow request db running
   = (inl (HTTPException 403
             "Payer has no escrow PIN configured. Cannot authorize release."),
      db, running))
  /\ (forall hash,
        User.escrow_pin_hash payer = Some hash -> hash <> ""%string ->
        (checkpw (EscrowReleaseRequest.pin request) hash = Some false ->
         release_escrow checkpw utcnow request db running
         = (inl (HTTPException 403 "Invalid PIN. Authorization denied."),
            db, running))
        /\ (checkpw (EscrowReleaseRequest.pin request) hash = None ->
            release_escrow checkpw utcnow request db running
            = (inl ValueError, db, running))).
Proof.
  intros Hreach Hdeal Hescrow Hheld Hpayer_id Hpayer.
  rewrite (release_enters _ _ _ _ _ Hreach).
  split.
  - intros Hnopin. run_checks Hdeal Hescrow Hheld.
    rewrite Hpayer_id, (select_pk_lookup _ _ _ Hpayer).
    cbn [scalar_one_or_none]. rewrite bind_mret, Hnopin. reflexivity.
  - intros hash Hhash Hne. split; intros Hpin.
    + run_checks Hdeal Hescrow Hheld.
      rewrite Hpayer_id, (select_pk_lookup _ _ _ Hpayer).
      cbn [scalar_one_or_none]. rewrite bind_mret.
      rewrite Hhash, (str_truthy_Some _ Hne). cbn [negb default from_option id].
      unfold _verify_pin. rewrite Hpin, bind_mret. reflexivity.
    + run_checks Hdeal Hescrow Hheld.
      rewrite Hpayer_id, (select_pk_lookup _ _ _ Hpayer).
      cbn [scalar_one_or_none]. rewrite bind_mret.
      rewrite Hhash, (str_truthy_Some _ Hne). cbn [negb default from_option id].
      unfold _verify_pin. rewrite Hpin. reflexivity.
Qed.

(** X3. Once the PIN is accepted the escrow update is flushed before the
    accounts are looked up. When the seller's account does not exist (or is
    not set on the deal), or when the producer's credit was stored and then
    the driver's account does not exist (or is not set), the call fails with
    404 and every row is rolled back to what it was, the producer's credit
    included; but the audit task of the escrow update has already been
    handed to the event loop. *)
Theorem release_account_missing checkpw utcnow request db running
    deal escrow_pk escrow payer_pk payer hash :
  reaches_settlement request ->
  deal_groups db !! EscrowReleaseRequest.deal_id request = Some deal ->
  only_row (escrow_transactions db)
    (of_deal (EscrowReleaseRequest.deal_id request)) escrow_pk escrow ->
  EscrowTransaction.status escrow = EscrowStatus.HELD ->
  EscrowTransaction.payer_id escrow = Some payer_pk ->
  users db !! payer_pk = Some payer ->
  User.escrow_pin_hash payer = Some hash -> hash <> ""%string ->
  checkpw (EscrowReleaseRequest.pin request) hash = Some true ->
  ((forall pk, DealGroup.seller_id deal = Some pk -> users db !! pk = None) ->
   release_escrow checkpw utcnow request db running
   = (inl (HTTPException 404 "Producer (seller) account not found."), db,
      create_task (settlement_task utcnow request escrow_pk escrow payer_pk)
        running))
  /\ (forall producer_pk producer,
        DealGroup.seller_id deal = Some producer_pk ->
        users db !! producer_pk = Some producer ->
        storable producer_pk
          (producer_credited (EscrowTransaction.amount escrow) producer_pk
             (users db)) = true ->
        (forall pk, DealGroup.driver_id deal = Some pk ->
                    users db !! pk = None) ->
        release_escrow checkpw utcnow request db running
        = (inl (HTTPException 404 "Driver account not found."), db,
           create_task
             (settlement_task utcnow request escrow_pk escrow payer_pk)
             running)).
Proof.
  intros Hreach Hdeal Hescrow Hheld Hpayer_id Hpayer Hhash Hne Hpin.
  rewrite (release_enters _ _ _ _ _ Hreach).
  split.
  - intros Hseller. run_checks Hdeal Hescrow Hheld.
    run_authorized Hescrow Hheld Hpayer_id Hpayer Hhash Hne Hpin.
    rewrite (select_pk_missing _ _ Hseller). reflexivity.
  - intros producer_pk producer Hseller Hproducer Hsp Hdriver.
    unfold producer_credited in Hsp.
    run_checks Hdeal Hescrow Hheld.
    run_authorized Hescrow Hheld Hpayer_id Hpayer Hhash Hne Hpin.
    run_credit Hseller producer Hproducer.
    rewrite Hsp.
    rewrite select_pk_missing; [reflexivity|].
    intros pk Hpk. apply lookup_alter_None. auto.
Qed.


(** X4. The conditions under which a release settles. If the request
    enters the settlement, the deal exists with exactly one escrow row,
    which is HELD, the payer exists and the PIN matches the payer's hash,
    the seller's and the driver's accounts exist, both credited balances fit
    the [Numeric(12, 2)] column, and the deal has at most one shipment, then
    the call returns the settlement response, commits exactly the settled
    store (both credits as the column stores them, the released escrow, the
    delivered shipment) and hands one audit task to the event loop. *)
Theorem release_settles checkpw utcnow request db running deal
    escrow_pk escrow payer_pk payer hash producer_pk producer driver_pk
    driver :
  reaches_settlement request ->
  deal_groups db !! EscrowReleaseRequest.deal_id request = Some deal ->
  only_row (escrow_transactions db)
    (of_deal (EscrowReleaseRequest.deal_id request)) escrow_pk escrow ->
  EscrowTransaction.status escrow = EscrowStatus.HELD ->
  EscrowTransaction.payer_id escrow = Some payer_pk ->
  users db !! payer_pk = Some payer ->
  User.escrow_pin_hash payer = Some hash -> hash <> ""%string ->
  checkpw (EscrowReleaseRequest.pin request) hash = Some true ->
  DealGroup.seller_id deal = Some producer_pk ->
  users db !! producer_pk = Some producer ->
  DealGroup.driver_id deal = Some driver_pk ->
  users db !! driver_pk = Some driver ->
  credits_storable (EscrowTransaction.amount escrow) producer_pk driver_pk
    (users db) = true ->
  at_most_one_row (shipments db)
    (shipment_of_deal (EscrowReleaseRequest.deal_id request)) ->
  release_escrow checkpw utcnow request db running
  = (inr (release_response request deal escrow_pk escrow producer_pk producer
            driver_pk driver utcnow),
     settled_db utcnow request escrow_pk escrow payer_pk producer_pk driver_pk
       db,
     create_task (settlement_task utcnow request escrow_pk escrow payer_pk)
       running).
Proof. apply release_settles_run. Qed.


(** X5. Ambiguous data ends the call with an unhandled
    [MultipleResultsFound]. Two escrow rows for the deal stop it at step 3,
    before anything is written. Two shipments for the deal stop it at step
    9, after the PIN was accepted and both credits were stored: every row
    is rolled back, yet the audit task is already created. *)
Theorem release_ambiguous checkpw utcnow request db running deal :
  reaches_settlement request ->
  deal_groups db !! EscrowReleaseRequest.deal_id request = Some deal ->
  (forall pk1 e1 pk2 e2,
     escrow_transactions db !! pk1 = Some e1 ->
     of_deal (EscrowReleaseRequest.deal_id request) e1 = true ->
     escrow_transactions db !! pk2 = Some e2 ->
     of_deal (EscrowReleaseRequest.deal_id request) e2 = true ->
     pk1 <> pk2 ->
     release_escrow checkpw utcnow request db running
     = (inl MultipleResultsFound, db, running))
  /\ (forall escrow_pk escrow payer_pk payer hash producer_pk producer
             driver_pk driver pk1 sh1 pk2 sh2,
        only_row (escrow_transactions db)
          (of_deal (EscrowReleaseRequest.deal_id request)) escrow_pk escrow ->
        EscrowTransaction.status escrow = EscrowStatus.HELD ->
        EscrowTransaction.payer_id escrow = Some payer_pk ->
        users db !! payer_pk = Some payer ->
        User.escrow_pin_hash payer = Some hash -> hash <> ""%string ->
        checkpw (EscrowReleaseRequest.pin request) hash = Some true ->
        DealGroup.seller_id deal = Some producer_pk ->
        users db !! producer_pk = Some producer ->
        DealGroup.driver_id deal = Some driver_pk ->
        users db !! driver_pk = Some driver ->
        credits_storable (EscrowTransaction.amount escrow) producer_pk
          driver_pk (users db) = true ->
        shipments db !! pk1 = Some sh1 ->
        shipment_of_deal (EscrowReleaseRequest.deal_id request) sh1 = true ->
        shipments db !! pk2 = Some sh2 ->
        shipment_of_deal (EscrowReleaseRequest.deal_id request) sh2 = true ->
        pk1 <> pk2 ->
        release_escrow checkpw utcnow request db running
        = (inl MultipleResultsFound, db,
           create_task
             (settlement_task utcnow request escrow_pk escrow payer_pk)
             running)).
Proof.
  intros Hreach Hdeal. split.
  - intros pk1 e1 pk2 e2 Hl1 Hw1 Hl2 Hw2 Hneq.
    rewrite (release_enters _ _ _ _ _ Hreach).
    unfold settle, in_transaction, new_session, set_begun. rewrite bind_execute by reflexivity. cbn [rows].
    rewrite (select_pk_lookup _ _ _ Hdeal).
    cbn [scalar_one_or_none]. rewrite bind_mret, bind_execute by reflexivity. cbn [rows].
    destruct (select_where_two _ _ _ _ _ _ Hl1 Hw1 Hl2 Hw2 Hneq)
      as (x & y & rest & ->).
    reflexivity.
  - intros escrow_pk escrow payer_pk payer hash producer_pk producer
      driver_pk driver pk1 sh1 pk2 sh2 Hescrow Hheld Hpayer_id Hpayer Hhash
      Hne Hpin Hseller Hproducer Hdriver_id Hdriver Hfit Hl1 Hw1 Hl2 Hw2
      Hneq.
    eapply (release_two_shipments _ _ _ _ _ deal escrow_pk escrow payer_pk
              payer hash producer_pk producer driver_pk driver pk1 sh1 pk2
              sh2); eassumption.
Qed.


(** X6. For a request that enters the settlement, the conditions of a
    settlement are also necessary: a call that returns a response found the
    deal, exactly one escrow row of it, in status HELD, its payer with a PIN
    hash that bcrypt accepts for the request's PIN, the seller's and the
    driver's accounts, credited balances that fit the column, and at most
    one shipment of the deal; the response, the committed store (with the
    balances as the column stores them) and the audit task are those of the
    settlement. *)
Theorem release_settled_only_if checkpw utcnow request db running
    r db' running' :
  reaches_settlement request ->
  release_escrow checkpw utcnow request db running
    = (inr r, db', running') ->
  exists deal escrow_pk escrow payer_pk payer hash producer_pk producer
         driver_pk driver,
    deal_groups db !! EscrowReleaseRequest.deal_id request = Some deal
    /\ only_row (escrow_transactions db)
         (of_deal (EscrowReleaseRequest.deal_id request)) escrow_pk escrow
    /\ EscrowTransaction.status escrow = EscrowStatus.HELD
    /\ EscrowTransaction.payer_id escrow = Some payer_pk
    /\ users db !! payer_pk = Some payer
    /\ User.escrow_pin_hash payer = Some hash /\ hash <> ""%string
    /\ checkpw (EscrowReleaseRequest.pin request) hash = Some true
    /\ DealGroup.seller_id deal = Some producer_pk
    /\ users db !! producer_pk = Some producer
    /\ DealGroup.driver_id deal = Some driver_pk
    /\ users db !! driver_pk = Some driver
    /\ credits_storable (EscrowTransaction.amount escrow) producer_pk
         driver_pk (users db) = true
    /\ at_most_one_row (shipments db)
         (shipment_of_deal (EscrowReleaseRequest.deal_id request))
    /\ r = release_response request deal escrow_pk escrow producer_pk producer
             driver_pk driver utcnow
    /\ db' = settled_db utcnow request escrow_pk escrow payer_pk producer_pk
               driver_pk db
    /\ running'
       = create_task (settlement_task utcnow request escrow_pk escrow payer_pk)
           running.
Proof. apply release_settled_inv. Qed.

Lemma release_settled_store checkpw utcnow request db running r
    db' running' :
  reaches_settlement request ->
  release_escrow checkpw utcnow request db running
    = (inr r, db', running') ->
  exists deal escrow_pk escrow payer_pk producer_pk driver_pk,
    deal_groups db !! EscrowReleaseRequest.deal_id request = Some deal
    /\ only_row (escrow_transactions db)
         (of_deal (EscrowReleaseRequest.deal_id request)) escrow_pk escrow
    /\ EscrowTransaction.status escrow = EscrowStatus.HELD
    /\ EscrowTransaction.payer_id escrow = Some payer_pk
    /\ DealGroup.seller_id deal = Some producer_pk
    /\ DealGroup.driver_id deal = Some driver_pk
    /\ at_most_one_row (shipments db)
         (shipment_of_deal (EscrowReleaseRequest.deal_id request))
    /\ db' = settled_db utcnow request escrow_pk escrow payer_pk producer_pk
               driver_pk db.
Proof.
  intros Hreach Hrelease.
  destruct (release_settled_inv _ _ _ _ _ _ _ _ Hreach Hrelease)
    as (deal & escrow_pk & escrow & payer_pk & payer & hash & producer_pk
        & producer & driver_pk & driver & Hdeal & Hescrow & Hheld & Hpayer_id
        & _ & _ & _ & _ & Hseller & _ & Hdriver_id & _ & _ & Hship & _ & Hdb
        & _).
  exists deal, escrow_pk, escrow, payer_pk, producer_pk, driver_pk. auto 10.
Qed.

(** X7. What a settlement writes to the escrow table. The escrow row of the
    deal gets the status FUNDS_RELEASED, [released_at] the time of the
    request and [released_by_id] its own payer; its idempotency key becomes
    the key of the request when that is a non-empty string and is kept
    otherwise; amount, currency, deal, payer, payee and creation time are
    kept. Every other escrow row is kept, no row is created, and neither
    the deals nor the audit table are written by the call. *)
Theorem release_escrow_row checkpw utcnow request db running r
    db' running' :
  reaches_settlement request ->
  release_escrow checkpw utcnow request db running
    = (inr r, db', running') ->
  (forall pk e,
     escrow_transactions db !! pk = Some e ->
     escrow_transactions db' !! pk
     = Some
         (if of_deal (EscrowReleaseRequest.deal_id request) e
          then
            {| EscrowTransaction.deal_group_id :=
                 EscrowTransaction.deal_group_id e;
               EscrowTransaction.amount := EscrowTransaction.amount e;
               EscrowTransaction.currency := EscrowTransaction.currency e;
               EscrowTransaction.status := EscrowStatus.FUNDS_RELEASED;
               EscrowTransaction.payer_id := EscrowTransaction.payer_id e;
               EscrowTransaction.payee_id := EscrowTransaction.payee_id e;
               EscrowTransaction.released_by_id :=
                 EscrowTransaction.payer_id e;
               EscrowTransaction.idempotency_key :=
                 if str_truthy (EscrowReleaseRequest.idempotency_key request)
                 then EscrowReleaseRequest.idempotency_key request
                 else EscrowTransaction.idempotency_key e;
               EscrowTransaction.released_at := Some utcnow;
               EscrowTransaction.created_at :=
                 EscrowTransaction.created_at e |}
          else e))
  /\ (forall pk, escrow_transactions db !! pk = None ->
                 escrow_transactions db' !! pk = None)
  /\ deal_groups db' = deal_groups db
  /\ audit_logs db' = audit_logs db.
Proof.
  intros Hreach Hrelease.
  destruct (release_settled_store _ _ _ _ _ _ _ _ Hreach Hrelease)
    as (deal & escrow_pk & escrow & payer_pk & producer_pk & driver_pk & Hdeal
        & (Hrow & Hw & Huniq) & Hheld & Hpayer_id & _ & _ & _ & ->).
  unfold settled_db. cbn [escrow_transactions deal_groups audit_logs].
  split; [|split; [|split; reflexivity]].
  - intros pk e He.
    destruct (of_deal (EscrowReleaseRequest.deal_id request) e) eqn:Hof.
    + assert (pk = escrow_pk) by (eapply Huniq; eauto). subst pk.
      assert (e = escrow) by congruence. subst e.
      rewrite lookup_insert_eq. f_equal. unfold settled_escrow.
      rewrite <- Hpayer_id. destruct escrow.
      destruct (str_truthy (EscrowReleaseRequest.idempotency_key request));
        reflexivity.
    + rewrite lookup_insert_ne; [exact He|].
      intros <-. congruence.
  - intros pk Hnone. rewrite lookup_insert_ne; [exact Hnone|].
    intros <-. congruence.
Qed.

(** X8. What a settlement writes to the shipments. Each shipment of the
    deal is marked DELIVERED with [delivered_at] the time of the request
    (there is at most one when the call succeeds); shipments of other deals
    or of no deal are kept, and no shipment is created. *)
Theorem release_delivers_shipment checkpw utcnow request db
    running r db' running' :
  reaches_settlement request ->
  release_escrow checkpw utcnow request db running
    = (inr r, db', running') ->
  (forall pk sh,
     shipments db !! pk = Some sh ->
     shipments db' !! pk
     = Some
         (if shipment_of_deal (EscrowReleaseRequest.deal_id request) sh
          then {| Shipment.deal_group_id := Shipment.deal_group_id sh;
                  Shipment.status := ShipmentStatus.DELIVERED;
                  Shipment.delivered_at := Some utcnow |}
          else sh))
  /\ (forall pk, shipments db !! pk = None -> shipments db' !! pk = None)
  /\ at_most_one_row (shipments db)
       (shipment_of_deal (EscrowReleaseRequest.deal_id request)).
Proof.
  intros Hreach Hrelease.
  destruct (release_settled_store _ _ _ _ _ _ _ _ Hreach Hrelease)
    as (deal & escrow_pk & escrow & payer_pk & producer_pk & driver_pk & _
        & _ & _ & _ & _ & _ & Hship & ->).
  unfold settled_db. cbn [shipments]. unfold delivered_shipments.
  change (fun sh : Shipment.t =>
            bool_decide (Shipment.deal_group_id sh
                         = Some (EscrowReleaseRequest.deal_id request)))
    with (shipment_of_deal (EscrowReleaseRequest.deal_id request)).
  split; [|split; [|exact Hship]].
  - intros pk sh Hsh.
    destruct (shipment_of_deal (EscrowReleaseRequest.deal_id request) sh)
      eqn:Hof.
    + destruct (select_where_at_most_one _ _ Hship)
        as [Hsel|(pk' & sh' & Hsel)].
      * assert (Hin : (pk, sh) ∈ select_where (shipments db)
                  (shipment_of_deal (EscrowReleaseRequest.deal_id request)))
          by (apply select_where_elem; auto).
        rewrite Hsel in Hin. apply elem_of_nil in Hin. contradiction.
      * rewrite Hsel.
        destruct (select_where_singleton _ _ _ _ Hsel) as (Hrow & Hw & Huniq).
        destruct (Huniq pk sh Hsh Hof) as [-> _].
        rewrite !lookup_alter_eq, Hsh. destruct sh. reflexivity.
    + destruct (select_where_at_most_one _ _ Hship)
        as [Hsel|(pk' & sh' & Hsel)]; rewrite Hsel; [exact Hsh|].
      destruct (select_where_singleton _ _ _ _ Hsel) as (Hrow & Hw & Huniq).
      rewrite !lookup_alter_ne; [exact Hsh| |]; intros <-; congruence.
  - intros pk Hnone.
    destruct (select_where_at_most_one _ _ Hship)
      as [Hsel|(pk' & sh' & Hsel)]; rewrite Hsel; [exact Hnone|].
    destruct (select_where_singleton _ _ _ _ Hsel) as (Hrow & Hw & Huniq).
    rewrite !lookup_alter_ne; [exact Hnone| |]; intros <-; congruence.
Qed.

(** X9. The credits of a settlement, as the [users] table stores them.
    With monetary columns of type [Numeric(12, 2)] and an escrow amount of
    [a >= 0] cents, a successful settlement leaves the deal's seller with
    its balance plus 9/10 of the amount, rounded to the cent, and the deal's
    driver with its balance plus 1/10 of the amount, rounded to the cent
    (ties away from zero); on a balance that is not negative the credit is
    the share rounded half up. An account that is both receives the amount
    exactly; every other balance keeps its value. Names and PIN hashes are
    kept and no account is created. *)
Theorem release_credits_stored checkpw utcnow request db running r
    db' running' deal escrow_pk escrow producer_pk driver_pk :
  reaches_settlement request ->
  release_escrow checkpw utcnow request db running
    = (inr r, db', running') ->
  numeric_columns db ->
  deal_groups db !! EscrowReleaseRequest.deal_id request = Some deal ->
  escrow_transactions db !! escrow_pk = Some escrow ->
  EscrowTransaction.deal_group_id escrow
  = EscrowReleaseRequest.deal_id request ->
  0 <= Decimal.coef (EscrowTransaction.amount escrow) ->
  DealGroup.seller_id deal = Some producer_pk ->
  DealGroup.driver_id deal = Some driver_pk ->
  let a := Decimal.coef (EscrowTransaction.amount escrow) in
  (forall pk u,
     users db !! pk = Some u ->
     let c := Decimal.coef (User.balance u) in
     exists u',
       users db' !! pk = Some u'
       /\ User.full_name u' = User.full_name u
       /\ User.escrow_pin_hash u' = User.escrow_pin_hash u
       /\ User.balance u'
          = (if decide (pk = driver_pk)
             then if decide (pk = producer_pk)
                  then Dec (c + a) (-2)
                  else Decimal.round_cents (Dec (c * 100 + a * 10) (-4))
             else if decide (pk = producer_pk)
                  then Decimal.round_cents (Dec (c * 100 + a * 90) (-4))
                  else User.balance u)
       /\ (0 <= c ->
           Decimal.round_cents (Dec (c * 100 + a * 10) (-4))
           = Dec (c + (a * 10 + 50) / 100) (-2)
           /\ Decimal.round_cents (Dec (c * 100 + a * 90) (-4))
              = Dec (c + (a * 90 + 50) / 100) (-2)))
  /\ (forall pk, users db !! pk = None -> users db' !! pk = None).
Proof.
  intros Hreach Hrelease [Hamounts Hbalances] Hdeal Hrow Hof Hpos Hseller
    Hdriver_id a.
  destruct (release_settled_store _ _ _ _ _ _ _ _ Hreach Hrelease)
    as (deal' & escrow_pk' & escrow' & payer_pk & producer_pk' & driver_pk'
        & Hdeal' & (Hrow' & _ & Huniq) & _ & _ & Hseller' & Hdriver_id' & _
        & ->).
  assert (deal' = deal) by congruence. subst deal'.
  assert (escrow_pk = escrow_pk')
    by (apply (Huniq _ _ Hrow), bool_decide_eq_true; exact Hof).
  subst escrow_pk'.
  assert (escrow' = escrow) by congruence. subst escrow'.
  assert (producer_pk' = producer_pk) by congruence. subst producer_pk'.
  assert (driver_pk' = driver_pk) by congruence. subst driver_pk'.
  pose proof (Hamounts _ _ Hrow) as HA.
  unfold settled_db. cbn [users].
  split.
  - intros pk u Hu.
    destruct (settled_balance (EscrowTransaction.amount escrow) producer_pk
                driver_pk (users db) pk u HA Hpos (Hbalances _ _ Hu) Hu)
      as (u' & Hl & Hname & Hhash & Hbal).
    exists u'. split; [exact Hl|]. split; [exact Hname|].
    split; [exact Hhash|]. split; [exact Hbal|].
    intros Hc. rewrite !round_cents_4, !round_credit by (subst a; lia).
    split; reflexivity.
  - intros pk Hnone. unfold both_credited, producer_credited.
    repeat (apply lookup_alter_None). exact Hnone.
Qed.

(** ** After a settlement *)

Lemma settled_only_row now request db escrow_pk escrow payer_pk producer_pk
    driver_pk :
  only_row (escrow_transactions db)
    (of_deal (EscrowReleaseRequest.deal_id request)) escrow_pk escrow ->
  only_row
    (escrow_transactions
       (settled_db now request escrow_pk escrow payer_pk producer_pk driver_pk
          db))
    (of_deal (EscrowReleaseRequest.deal_id request)) escrow_pk
    (settled_escrow now request payer_pk escrow).
Proof.
  intros (Hrow & Hw & Huniq). unfold settled_db. cbn [escrow_transactions].
  split; [apply lookup_insert_eq|]. split.
  - unfold settled_escrow. destruct (str_truthy _); exact Hw.
  - intros pk' r' Hl' Hw'.
    destruct (decide (pk' = escrow_pk)) as [|Hne]; [assumption|].
    rewrite lookup_insert_ne in Hl' by congruence. eauto.
Qed.

(** X10. No double release. After a successful settlement of a deal, every
    further release request for that deal that enters the settlement is
    refused with 409, whatever its PIN, and changes nothing. *)
Theorem release_twice_refused checkpw utcnow request db running r
    db' running' utcnow2 request2 running2 :
  reaches_settlement request ->
  release_escrow checkpw utcnow request db running
    = (inr r, db', running') ->
  EscrowReleaseRequest.deal_id request2 = EscrowReleaseRequest.deal_id request ->
  reaches_settlement request2 ->
  release_escrow checkpw utcnow2 request2 db' running2
  = (inl (HTTPException 409
            "Funds have already been released for this deal. Double-spending prevented."),
     db', running2).
Proof.
  intros Hreach Hrelease Hsame Hreach2.
  destruct (release_settled_store _ _ _ _ _ _ _ _ Hreach Hrelease)
    as (deal & escrow_pk & escrow & payer_pk & producer_pk & driver_pk & Hdeal
        & Hescrow & Hheld & _ & _ & _ & _ & ->).
  pose proof (settled_only_row utcnow request db escrow_pk escrow payer_pk
                producer_pk driver_pk Hescrow) as Hescrow'.
  rewrite <- Hsame in Hescrow', Hdeal.
  rewrite (release_state_refused checkpw utcnow2 request2
             (settled_db utcnow request escrow_pk escrow payer_pk producer_pk
                driver_pk db)
             running2 deal _ _ Hreach2 Hdeal Hescrow').
  - rewrite settled_escrow_status.
    destruct (decide _); [reflexivity|contradiction].
  - rewrite settled_escrow_status. discriminate.
Qed.

(** X11. The replay does not look at the PIN or at the deal of the
    request. When a non-empty key is recorded on exactly one escrow, which
    is FUNDS_RELEASED and whose deal exists, every request that carries
    this key is answered with the replay response of that escrow, whatever
    its PIN and its deal id and whatever bcrypt would say: two such requests
    get the same response, and nothing is written. *)
Theorem replay_skips_pin_and_deal checkpw checkpw2 utcnow request request2 db
    running existing_pk existing deal :
  str_truthy (EscrowReleaseRequest.idempotency_key request) = true ->
  EscrowReleaseRequest.idempotency_key request2
  = EscrowReleaseRequest.idempotency_key request ->
  only_row (escrow_transactions db)
    (with_key (EscrowReleaseRequest.idempotency_key request))
    existing_pk existing ->
  EscrowTransaction.status existing = EscrowStatus.FUNDS_RELEASED ->
  deal_groups db !! EscrowTransaction.deal_group_id existing = Some deal ->
  release_escrow checkpw utcnow request db running
  = (inr (replay_response request deal existing_pk existing utcnow), db,
     running)
  /\ release_escrow checkpw2 utcnow request2 db running
     = release_escrow checkpw utcnow request db running.
Proof.
  intros Hkey Hsame Hexisting Hstatus Hdeal.
  rewrite (release_replay checkpw utcnow request db running existing_pk
             existing deal Hkey Hexisting Hstatus Hdeal).
  split; [reflexivity|].
  rewrite <- Hsame in Hkey, Hexisting.
  rewrite (release_replay checkpw2 utcnow request2 db running existing_pk
             existing deal Hkey Hexisting Hstatus Hdeal).
  unfold replay_response. rewrite Hsame. reflexivity.
Qed.

(** X12. The other outcomes of the idempotency check. A non-empty key that
    is recorded on an escrow which is not FUNDS_RELEASED is refused with 409
    and a message that names the escrow's status; a key recorded on two
    escrows, or on a released escrow whose deal row is gone, ends the call
    with the unhandled [MultipleResultsFound], respectively [NoResultFound].
    The PIN is not verified and nothing is written in any of these cases. *)
Theorem idempotency_key_conflicts checkpw utcnow request db
    running :
  str_truthy (EscrowReleaseRequest.idempotency_key request) = true ->
  (forall existing_pk existing,
     only_row (escrow_transactions db)
       (with_key (EscrowReleaseRequest.idempotency_key request))
       existing_pk existing ->
     (EscrowTransaction.status existing <> EscrowStatus.FUNDS_RELEASED ->
      release_escrow checkpw utcnow request db running
      = (inl (HTTPException 409
                ("Idempotency key exists but escrow is in '"
                 +:+ EscrowStatus.value (EscrowTransaction.status existing)
                 +:+ "' state, not released.")),
         db, running))
     /\ (EscrowTransaction.status existing = EscrowStatus.FUNDS_RELEASED ->
         deal_groups db !! EscrowTransaction.deal_group_id existing = None ->
         release_escrow checkpw utcnow request db running
         = (inl NoResultFound, db, running)))
  /\ (forall pk1 e1 pk2 e2,
        escrow_transactions db !! pk1 = Some e1 ->
        with_key (EscrowReleaseRequest.idempotency_key request) e1 = true ->
        escrow_transactions db !! pk2 = Some e2 ->
        with_key (EscrowReleaseRequest.idempotency_key request) e2 = true ->
        pk1 <> pk2 ->
        release_escrow checkpw utcnow request db running
        = (inl MultipleResultsFound, db, running)).
Proof.
  intros Hkey. split.
  - intros existing_pk existing Hexisting. split.
    + intros Hstatus.
      unfold release_escrow, with_session, idempotency_check.
      rewrite Hkey. unfold mbind at 1. unfold M_bind at 1.
      rewrite bind_execute by reflexivity. cbn [rows new_session].
      rewrite (select_where_only_row _ _ _ _ Hexisting).
      cbn [scalar_one_or_none]. rewrite bind_mret.
      destruct (decide _); [contradiction|]. reflexivity.
    + intros Hstatus Hdeal.
      unfold release_escrow, with_session, idempotency_check.
      rewrite Hkey. unfold mbind at 1. unfold M_bind at 1.
      rewrite bind_execute by reflexivity. cbn [rows new_session].
      rewrite (select_where_only_row _ _ _ _ Hexisting).
      cbn [scalar_one_or_none]. rewrite bind_mret.
      destruct (decide _); [|contradiction].
      rewrite bind_execute by reflexivity. cbn [rows]. unfold select_pk.
      rewrite Hdeal. reflexivity.
  - intros pk1 e1 pk2 e2 Hl1 Hw1 Hl2 Hw2 Hneq.
    unfold release_escrow, with_session, idempotency_check.
    rewrite Hkey. unfold mbind at 1. unfold M_bind at 1.
    rewrite bind_execute by reflexivity. cbn [rows new_session].
    destruct (select_where_two _ _ _ _ _ _ Hl1 Hw1 Hl2 Hw2 Hneq)
      as (x & y & rest & ->).
    reflexivity.
Qed.

(** ** The status endpoint *)

Lemma bind_assoc {A B C} (m : M A) (f : A -> M B) (g : B -> M C) s :
  ((m ≫= f) ≫= g) s = (m ≫= fun a => f a ≫= g) s.
Proof.
  unfold mbind, M_bind. destruct (m s) as [[exc|a] s1]; reflexivity.
Qed.

Lemma bind_name_query {B} (o : option uuid) (k : option string -> M B) db
    running :
  (match o with
   | Some _ =>
       execute (fun db =>
         (fun kv : uuid * User.t => User.full_name kv.2) <$>
           select_pk (users db) o)
       ≫= fun name_r => scalar_one_or_none name_r
   | None => mret None
   end ≫= k) (in_transaction db running)
  = k (o ≫= fun pk => User.full_name <$> users db !! pk)
      (in_transaction db running).
Proof.
  destruct o as [pk|]; [|reflexivity].
  unfold in_transaction, new_session, set_begun.
  rewrite bind_assoc, bind_execute by reflexivity.
  cbn [rows committed_state loop dirty_users users_table begun].
  rewrite flush_events_nil. unfold select_pk. cbn [mbind option_bind].
  destruct (users db !! pk) as [u|]; reflexivity.
Qed.

Lemma get_escrow_status_found deal_id db running deal escrow_pk escrow :
  deal_groups db !! deal_id = Some deal ->
  only_row (escrow_transactions db) (of_deal deal_id) escrow_pk escrow ->
  get_escrow_status deal_id db running
  = (inr {| EscrowStatusResponse.escrow_id := str_uuid escrow_pk;
            EscrowStatusResponse.deal_number := DealGroup.deal_number deal;
            EscrowStatusResponse.amount :=
              Decimal.to_float (EscrowTransaction.amount escrow);
            EscrowStatusResponse.currency := EscrowTransaction.currency escrow;
            EscrowStatusResponse.status :=
              EscrowStatus.value (EscrowTransaction.status escrow);
            EscrowStatusResponse.payer :=
              EscrowTransaction.payer_id escrow ≫= fun pk =>
                User.full_name <$> users db !! pk;
            EscrowStatusResponse.payee :=
              EscrowTransaction.payee_id escrow ≫= fun pk =>
                User.full_name <$> users db !! pk;
            EscrowStatusResponse.created_at :=
              EscrowTransaction.created_at escrow;
            EscrowStatusResponse.released_at :=
              EscrowTransaction.released_at escrow |},
     db, running).
Proof.
  intros Hdeal Hescrow. unfold get_escrow_status, with_session.
  rewrite bind_execute by reflexivity.
  cbn [rows committed_state loop dirty_users users_table new_session].
  rewrite flush_events_nil, (select_pk_lookup _ _ _ Hdeal).
  cbn [scalar_one_or_none]. rewrite bind_mret.
  rewrite bind_execute by reflexivity.
  cbn [rows committed_state loop dirty_users users_table].
  rewrite flush_events_nil, (select_where_only_row _ _ _ _ Hescrow).
  cbn [scalar_one_or_none]. rewrite bind_mret.
  change {| rows := db; begun := true; committed_state := [];
            dirty_users := []; users_table := users db;
            loop := running |} with (in_transaction db running).
  rewrite !bind_name_query. reflexivity.
Qed.

(** X13. The status endpoint. A deal that does not exist gives 404 "Deal
    not found."; a deal without escrow row gives 404 "No escrow transaction
    for this deal."; two escrow rows for the deal end the call with the
    unhandled [MultipleResultsFound]. With exactly one escrow row the view
    reports its id, amount (as float), currency, status value and
    timestamps, the number of the deal, and the names of payer and payee,
    each [None] when the id is not set or no such account exists. The call
    never writes and creates no audit task. *)
Theorem escrow_status_view deal_id db running :
  (deal_groups db !! deal_id = None ->
   get_escrow_status deal_id db running
   = (inl (HTTPException 404 "Deal not found."), db, running))
  /\ (forall deal,
        deal_groups db !! deal_id = Some deal ->
        ((forall pk e, escrow_transactions db !! pk = Some e ->
            EscrowTransaction.deal_group_id e <> deal_id) ->
         get_escrow_status deal_id db running
         = (inl (HTTPException 404 "No escrow transaction for this deal."),
            db, running))
        /\ (forall pk1 e1 pk2 e2,
              escrow_transactions db !! pk1 = Some e1 ->
              of_deal deal_id e1 = true ->
              escrow_transactions db !! pk2 = Some e2 ->
              of_deal deal_id e2 = true -> pk1 <> pk2 ->
              get_escrow_status deal_id db running
              = (inl MultipleResultsFound, db, running))
        /\ (forall escrow_pk escrow,
              only_row (escrow_transactions db) (of_deal deal_id) escrow_pk
                escrow ->
              get_escrow_status deal_id db running
              = (inr {| EscrowStatusResponse.escrow_id := str_uuid escrow_pk;
                        EscrowStatusResponse.deal_number :=
                          DealGroup.deal_number deal;
                        EscrowStatusResponse.amount :=
                          Decimal.to_float (EscrowTransaction.amount escrow);
                        EscrowStatusResponse.currency :=
                          EscrowTransaction.currency escrow;
                        EscrowStatusResponse.status :=
                          EscrowStatus.value (EscrowTransaction.status escrow);
                        EscrowStatusResponse.payer :=
                          EscrowTransaction.payer_id escrow ≫= fun pk =>
                            User.full_name <$> users db !! pk;
                        EscrowStatusResponse.payee :=
                          EscrowTransaction.payee_id escrow ≫= fun pk =>
                            User.full_name <$> users db !! pk;
                        EscrowStatusResponse.created_at :=
                          EscrowTransaction.created_at escrow;
                        EscrowStatusResponse.released_at :=
                          EscrowTransaction.released_at escrow |},
                 db, running))).
Proof.
  split; [|intros deal Hdeal; split; [|split]].
  - intros Hdeal. unfold get_escrow_status, with_session.
    rewrite bind_execute by reflexivity. cbn [rows new_session].
    unfold select_pk. rewrite Hdeal. reflexivity.
  - intros Hnone. unfold get_escrow_status, with_session.
    rewrite bind_execute by reflexivity. cbn [rows new_session].
    rewrite (select_pk_lookup _ _ _ Hdeal).
    cbn [scalar_one_or_none].
    rewrite bind_mret, bind_execute by reflexivity. cbn [rows].
    rewrite select_where_nil; [reflexivity|].
    intros pk e He. apply bool_decide_eq_false. eauto.
  - intros pk1 e1 pk2 e2 Hl1 Hw1 Hl2 Hw2 Hneq.
    unfold get_escrow_status, with_session.
    rewrite bind_execute by reflexivity. cbn [rows new_session].
    rewrite (select_pk_lookup _ _ _ Hdeal).
    cbn [scalar_one_or_none].
    rewrite bind_mret, bind_execute by reflexivity. cbn [rows].
    destruct (select_where_two _ _ _ _ _ _ Hl1 Hw1 Hl2 Hw2 Hneq)
      as (x & y & rest & ->).
    reflexivity.
  - intros escrow_pk escrow Hescrow.
    apply get_escrow_status_found; assumption.
Qed.

(** X14. The status endpoint after a settlement. Once a release call has
    settled a deal, the status of that deal is reported as "funds_released"
    with the time of the release, and with the escrow id, deal number,
    amount and currency that the release response carried. *)
Theorem escrow_status_after_release checkpw utcnow request db
    running r db' running' running2 :
  reaches_settlement request ->
  release_escrow checkpw utcnow request db running
    = (inr r, db', running') ->
  exists view,
    get_escrow_status (EscrowReleaseRequest.deal_id request) db' running2
    = (inr view, db', running2)
    /\ EscrowStatusResponse.status view = "funds_released"%string
    /\ EscrowStatusResponse.released_at view = Some utcnow
    /\ EscrowStatusResponse.escrow_id view = EscrowReleaseResponse.escrow_id r
    /\ EscrowStatusResponse.deal_number view
       = EscrowReleaseResponse.deal_number r
    /\ EscrowStatusResponse.amount view = EscrowReleaseResponse.amount r
    /\ EscrowStatusResponse.currency view = EscrowReleaseResponse.currency r.
Proof.
  intros Hreach Hrelease.
  destruct (release_settled_inv _ _ _ _ _ _ _ _ Hreach Hrelease)
    as (deal & escrow_pk & escrow & payer_pk & payer & hash & producer_pk
        & producer & driver_pk & driver & Hdeal & Hescrow & Hheld
        & _ & _ & _ & _ & _ & _ & _ & _ & _ & _ & _ & -> & -> & _).
  eexists. split.
  - apply (get_escrow_status_found _ _ _ deal escrow_pk
             (settled_escrow utcnow request payer_pk escrow)).
    + exact Hdeal.
    + apply settled_only_row. exact Hescrow.
  - unfold settled_escrow.
    destruct (str_truthy _); cbn; repeat split; reflexivity.
Qed.

(** ** Opening the transaction after the idempotency check *)

(** X15. The query of the idempotency check begins the session's
    transaction, and [Session.begin()] refuses a session whose transaction
    has already begun. So a request with a non-empty idempotency key that no
    escrow carries can never settle: whatever its deal and PIN, the call
    ends with the unhandled [InvalidRequestError], writes nothing and
    creates no audit task. *)
Theorem keyed_release_cannot_begin checkpw utcnow request db running :
  str_truthy (EscrowReleaseRequest.idempotency_key request) = true ->
  (forall pk e, escrow_transactions db !! pk = Some e ->
     EscrowTransaction.idempotency_key e
     <> EscrowReleaseRequest.idempotency_key request) ->
  release_escrow checkpw utcnow request db running
  = (inl InvalidRequestError, db, running).
Proof.
  intros Hkey Hfresh.
  unfold release_escrow, with_session, idempotency_check.
  rewrite Hkey. unfold mbind at 1. unfold M_bind at 1.
  rewrite bind_execute by reflexivity.
  cbn [rows committed_state loop new_session].
  rewrite select_where_nil; [reflexivity|].
  intros pk e He. apply bool_decide_eq_false. eauto.
Qed.

(** ** The audit entry of a settlement *)

Lemma instance_state_committed pk columns cs a :
  a ∈ InstanceState.attrs (instance_state pk columns cs) ->
  committed a = cs !! key a /\ is_column a = true
  /\ (key a, current a) ∈ columns.
Proof.
  unfold instance_state. cbn [InstanceState.attrs].
  intros Ha. apply list_elem_of_fmap in Ha as ([k v] & -> & Hkv).
  cbn. auto.
Qed.

Lemma settled_committed_state_keys request escrow k v :
  settled_committed_state request escrow !! k = Some v ->
  k ∈ ["status"; "released_at"; "released_by_id"; "idempotency_key"]%string.
Proof.
  unfold settled_committed_state. intros H.
  destruct (str_truthy _).
  - apply lookup_insert_Some in H as [[<- _]|[_ H]]; [set_solver|].
    apply lookup_insert_Some in H as [[<- _]|[_ H]]; [set_solver|].
    apply lookup_insert_Some in H as [[<- _]|[_ H]]; [set_solver|].
    apply lookup_singleton_Some in H as [<- _]. set_solver.
  - apply lookup_insert_Some in H as [[<- _]|[_ H]]; [set_solver|].
    apply lookup_insert_Some in H as [[<- _]|[_ H]]; [set_solver|].
    apply lookup_singleton_Some in H as [<- _]. set_solver.
Qed.

Lemma instance_state_elem pk columns cs k v :
  (k, v) ∈ columns ->
  {| key := k; is_column := true; committed := cs !! k; current := v |}
  ∈ InstanceState.attrs (instance_state pk columns cs).
Proof.
  intros Hkv. unfold instance_state. cbn [InstanceState.attrs].
  apply list_elem_of_fmap. exists (k, v). auto.
Qed.

(** X16. The audit task of a settlement. Its diff has entries only for
    attributes the settlement assigns (status, released_at, released_by_id,
    idempotency_key), never for the amount or the parties; the status entry
    is held -> funds_released; released_at is recorded with the time of the
    request unless the row already carried that time; the idempotency key
    has an entry exactly when the request's key is a non-empty string that
    differs from the stored one. The snapshot holds the row after the
    update, with the amount as a float. *)
Theorem settlement_audit_task now request escrow_pk escrow payer_pk :
  EscrowTransaction.status escrow = EscrowStatus.HELD ->
  let task := settlement_task now request escrow_pk escrow payer_pk in
  task_action task = "UPDATE"%string
  /\ task_table_name task = "escrow_transactions"%string
  /\ task_record_id task = str_uuid escrow_pk
  /\ (forall k ch, task_changes task !! k = Some ch ->
        k ∈ ["status"; "released_at"; "released_by_id";
             "idempotency_key"]%string)
  /\ task_changes task !! "status"%string
     = Some {| old := JString "held"; new := JString "funds_released" |}
  /\ (EscrowTransaction.released_at escrow <> Some now ->
      task_changes task !! "released_at"%string
      = Some {| old := _serialize_value
                         (opt_value VDatetime
                            (EscrowTransaction.released_at escrow));
                new := JString (isoformat now) |})
  /\ (task_changes task !! "idempotency_key"%string <> None <->
      str_truthy (EscrowReleaseRequest.idempotency_key request) = true
      /\ EscrowTransaction.idempotency_key escrow
         <> EscrowReleaseRequest.idempotency_key request)
  /\ task_snapshot task !! "status"%string = Some (JString "funds_released")
  /\ task_snapshot task !! "amount"%string
     = Some (JFloat (Decimal.to_float (EscrowTransaction.amount escrow)))
  /\ task_snapshot task !! "released_at"%string
     = Some (JString (isoformat now)).
Proof.
  intros Hheld task. unfold task, settlement_task.
  cbn [task_action task_table_name task_record_id task_changes task_snapshot].
  set (cs := settled_committed_state request escrow).
  set (row := settled_escrow now request payer_pk escrow).
  pose proof (escrow_columns_NoDup escrow_pk row cs) as Hnodup.
  assert (Hrow_status : EscrowTransaction.status row
                        = EscrowStatus.FUNDS_RELEASED)
    by apply settled_escrow_status.
  assert (Hrow_at : EscrowTransaction.released_at row = Some now)
    by (unfold row, settled_escrow; destruct (str_truthy _); reflexivity).
  assert (Hrow_amount : EscrowTransaction.amount row
                        = EscrowTransaction.amount escrow)
    by (unfold row, settled_escrow; destruct (str_truthy _); reflexivity).
  split; [reflexivity|]. split; [reflexivity|]. split; [reflexivity|].
  split; [|split; [|split; [|split; [|split; [|split]]]]].
  - intros k ch Hch.
    apply (get_changes_lookup _ _ _ Hnodup) in Hch
      as (a & Ha & <- & (original & Ho & _) & _).
    apply instance_state_committed in Ha as (Hc & _ & _).
    rewrite Hc in Ho. exact (settled_committed_state_keys _ _ _ _ Ho).
  - apply settled_status_change. exact Hheld.
  - intros Hat. apply (get_changes_lookup _ _ _ Hnodup).
    exists {| key := "released_at"; is_column := true;
              committed := cs !! "released_at"%string;
              current := VDatetime now |}.
    assert (Hcs : cs !! "released_at"%string
                  = Some (opt_value VDatetime
                            (EscrowTransaction.released_at escrow)))
      by (unfold cs, settled_committed_state; destruct (str_truthy _);
          reflexivity).
    split; [|split; [reflexivity|split]].
    + apply instance_state_elem. unfold escrow_columns. rewrite Hrow_at.
      cbn [opt_value]. do 9 apply list_elem_of_further.
      apply list_elem_of_here.
    + eexists. split; [exact Hcs|].
      destruct (EscrowTransaction.released_at escrow) as [t|];
        [|reflexivity].
      cbn. apply bool_decide_eq_false. congruence.
    + unfold change_of. cbn [committed current]. rewrite Hcs. reflexivity.
  - split.
    + intros Hsome.
      destruct (_get_changes _ !! "idempotency_key"%string) as [ch|] eqn:Hch;
        [clear Hsome|congruence].
      apply (get_changes_lookup _ _ _ Hnodup) in Hch
        as (a & Ha & Hkey & (original & Ho & Hne) & _).
      apply instance_state_committed in Ha as (Hc & _ & Hin).
      rewrite Hc, Hkey in Ho. rewrite Hkey in Hin.
      unfold cs, settled_committed_state in Ho.
      unfold row, settled_escrow, escrow_columns in Hin.
      destruct (str_truthy (EscrowReleaseRequest.idempotency_key request))
        eqn:Htruthy; [|discriminate].
      split; [reflexivity|].
      rewrite lookup_insert_eq in Ho. injection Ho as <-.
      cbn [EscrowTransaction.set_idempotency_key
           EscrowTransaction.idempotency_key] in Hin.
      repeat (apply elem_of_cons in Hin as [Hin|Hin];
              [try discriminate|]).
      * injection Hin as Hin. rewrite Hin in Hne. intros Heq.
        rewrite Heq in Hne.
        destruct (EscrowReleaseRequest.idempotency_key request) as [s|];
          cbn in Hne; [|discriminate].
        rewrite bool_decide_eq_true_2 in Hne by reflexivity. discriminate.
      * apply elem_of_nil in Hin. contradiction.
    + intros [Htruthy Hne].
      assert (Hch : _get_changes (instance_state escrow_pk
                                    (escrow_columns escrow_pk row) cs)
                    !! "idempotency_key"%string
                    = Some (change_of
                      {| key := "idempotency_key"; is_column := true;
                         committed := cs !! "idempotency_key"%string;
                         current :=
                           opt_value VStr
                             (EscrowReleaseRequest.idempotency_key request)
                      |})).
      { apply (get_changes_lookup _ _ _ Hnodup).
        exists {| key := "idempotency_key"; is_column := true;
                  committed := cs !! "idempotency_key"%string;
                  current :=
                    opt_value VStr
                      (EscrowReleaseRequest.idempotency_key request) |}.
        split; [|split; [reflexivity|split; [|reflexivity]]].
        - apply instance_state_elem. unfold row, settled_escrow.
          rewrite Htruthy. unfold escrow_columns.
          cbn [EscrowTransaction.set_idempotency_key
               EscrowTransaction.idempotency_key].
          do 8 apply list_elem_of_further. apply list_elem_of_here.
        - unfold cs, settled_committed_state. rewrite Htruthy.
          rewrite lookup_insert_eq. eexists. split; [reflexivity|].
          cbn [current].
          destruct (EscrowReleaseRequest.idempotency_key request) as [s|];
            [|discriminate].
          destruct (EscrowTransaction.idempotency_key escrow) as [s'|];
            [|reflexivity].
          cbn. apply bool_decide_eq_false. congruence. }
      rewrite Hch. discriminate.
  - replace (JString "funds_released")
      with (_serialize_value
              (VEnum (EscrowStatus.value (EscrowTransaction.status row))))
      by (rewrite Hrow_status; reflexivity).
    apply (get_snapshot_lookup _
             {| key := "status"; is_column := true;
                committed := cs !! "status"%string;
                current := VEnum (EscrowStatus.value
                                    (EscrowTransaction.status row)) |} Hnodup);
      [|reflexivity].
    apply instance_state_elem. unfold escrow_columns.
    do 4 apply list_elem_of_further. apply list_elem_of_here.
  - rewrite <- Hrow_amount.
    apply (get_snapshot_lookup _
             {| key := "amount"; is_column := true;
                committed := cs !! "amount"%string;
                current := VDecimal (EscrowTransaction.amount row) |} Hnodup);
      [|reflexivity].
    apply instance_state_elem. unfold escrow_columns.
    do 2 apply list_elem_of_further. apply list_elem_of_here.
  - apply (get_snapshot_lookup _
             {| key := "released_at"; is_column := true;
                committed := cs !! "released_at"%string;
                current := VDatetime now |} Hnodup);
      [|reflexivity].
    apply instance_state_elem. unfold escrow_columns. rewrite Hrow_at.
    do 9 apply list_elem_of_further. apply list_elem_of_here.
Qed.

(** ** The audit log under the event loop *)





(** X18. A settlement is audited once. When the event loop is running and
    has no other task, a successful settlement followed by the run of the
    loop leaves exactly one new entry in the audit table, provided the audit
    session does not fail: an UPDATE of "escrow_transactions" whose record
    id is the escrow id of the response; the rows the settlement committed
    are untouched by that write. *)
Theorem settlement_audited_once checkpw utcnow request db r db'
    running' :
  reaches_settlement request ->
  release_escrow checkpw utcnow request db (Some [])
    = (inr r, db', running') ->
  exists task,
    running' = Some [task]
    /\ audit_logs (run_tasks [] [task] db')
       = audit_logs db ++ [entry_of task]
    /\ AuditLog.action (entry_of task) = "UPDATE"%string
    /\ AuditLog.table_name (entry_of task) = "escrow_transactions"%string
    /\ AuditLog.record_id (entry_of task) = EscrowReleaseResponse.escrow_id r
    /\ AuditLog.changes (entry_of task) !! "status"%string
       = Some {| old := JString "held"; new := JString "funds_released" |}
    /\ users (run_tasks [] [task] db') = users db'
    /\ escrow_transactions (run_tasks [] [task] db') = escrow_transactions db'
    /\ shipments (run_tasks [] [task] db') = shipments db'
    /\ deal_groups (run_tasks [] [task] db') = deal_groups db'.
Proof.
  intros Hreach Hrelease.
  destruct (release_settled_inv _ _ _ _ _ _ _ _ Hreach Hrelease)
    as (deal & escrow_pk & escrow & payer_pk & payer & hash & producer_pk
        & producer & driver_pk & driver & Hdeal & Hescrow & Hheld
        & _ & _ & _ & _ & _ & _ & _ & _ & _ & _ & _ & -> & -> & ->).
  exists (settlement_task utcnow request escrow_pk escrow payer_pk).
  split; [reflexivity|]. split; [reflexivity|].
  split; [reflexivity|]. split; [reflexivity|]. split; [reflexivity|].
  split; [apply settled_status_change; exact Hheld|].
  repeat split; reflexivity.
Qed.

(** ** The failures of a release *)

Lemma raises_only_mret {A} P (a : A) : raises_only P (mret a : M A).
Proof. intros s exc s' H. discriminate. Qed.

Lemma raises_only_raise {A} (P : Exception -> Prop) exc :
  P exc -> raises_only P (raise exc : M A).
Proof. intros HP s exc' s' H. injection H as <- _. exact HP. Qed.

Lemma raises_only_bind {A B} P (m : M A) (f : A -> M B) :
  raises_only P m -> (forall a, raises_only P (f a)) ->
  raises_only P (m ≫= f).
Proof.
  intros Hm Hf s exc s' H. unfold mbind, M_bind in H.
  destruct (m s) as [[exc1|a] s1] eqn:Hms.
  - injection H as <- _. exact (Hm _ _ _ Hms).
  - exact (Hf a _ _ _ H).
Qed.

Lemma raises_only_execute {A} (P : Exception -> Prop)
    (query : Database -> A) :
  P DBAPIError -> raises_only P (execute query).
Proof.
  intros HP s exc s' H. unfold execute, mbind, M_bind in H.
  destruct (flush s) as [[exc1|[]] s1] eqn:Hflush; [|discriminate].
  injection H as <- _. apply flush_inl in Hflush. subst exc1. exact HP.
Qed.

Lemma raises_only_scalar_one_or_none {R} (P : Exception -> Prop)
    (result : list R) :
  P MultipleResultsFound -> raises_only P (scalar_one_or_none result).
Proof.
  intros HP. destruct result as [|x [|y rest]];
    [apply raises_only_mret|apply raises_only_mret|].
  apply raises_only_raise. exact HP.
Qed.

Lemma raises_only_escrow_setattr P pk k set :
  raises_only P (escrow_setattr pk k set).
Proof.
  intros s exc s' H. unfold escrow_setattr in H.
  destruct (escrow_transactions (rows s) !! pk); discriminate.
Qed.

Lemma raises_only_user_set_balance P pk v :
  raises_only P (user_set_balance pk v).
Proof. intros s exc s' H. discriminate. Qed.

Lemma raises_only_shipment_setattr P pk set :
  raises_only P (shipment_setattr pk set).
Proof. intros s exc s' H. discriminate. Qed.

Ltac raises_step :=
  first
    [ apply raises_only_mret
    | apply raises_only_execute; exact I
    | apply raises_only_escrow_setattr
    | apply raises_only_user_set_balance
    | apply raises_only_shipment_setattr
    | apply raises_only_scalar_one_or_none; exact I
    | apply raises_only_raise; cbn [settle_failure]; set_solver
    | apply raises_only_bind; [|intros ?]
    | match goal with
      | |- raises_only _ (match ?x with _ => _ end) => destruct x
      end ].

Lemma settle_raises checkpw now request :
  raises_only (settle_failure checkpw request) (settle checkpw now request).
Proof.
  unfold settle. repeat raises_step.
  unfold _verify_pin.
  destruct (checkpw _ _) eqn:Hpin; [apply raises_only_mret|].
  apply raises_only_raise. cbn. eauto.
Qed.

(** A settlement that ends on a refused statement: one of the two credits
    does not fit the balance column. *)
Lemma settle_overflow checkpw now request db running db' running' :
  settlement_outcome db
    (settle checkpw now request (in_transaction db running))
  = (inl DBAPIError, db', running') ->
  credit_overflow request db.
Proof.
  unfold settle, in_transaction, new_session, set_begun.
  cbn [rows begun committed_state dirty_users users_table loop].
  rewrite bind_execute by reflexivity.
  cbn [rows committed_state dirty_users users_table loop].
  rewrite flush_events_nil.
  destruct (select_pk (deal_groups db)
              (Some (EscrowReleaseRequest.deal_id request)))
    as [|[deal_pk deal] [|? ?]] eqn:Hdeal;
    cbn [scalar_one_or_none]; rewrite ?bind_mret, ?bind_raise;
    try discriminate.
  apply select_pk_singleton in Hdeal as [Hpk Hdeal]. injection Hpk as <-.
  rewrite bind_execute by reflexivity.
  cbn [rows committed_state dirty_users users_table loop].
  rewrite flush_events_nil.
  destruct (select_where (escrow_transactions db)
              (of_deal (EscrowReleaseRequest.deal_id request)))
    as [|[escrow_pk escrow] [|? ?]] eqn:Hsel;
    cbn [scalar_one_or_none]; rewrite ?bind_mret, ?bind_raise;
    try discriminate.
  assert (Hescrow : only_row (escrow_transactions db)
            (of_deal (EscrowReleaseRequest.deal_id request)) escrow_pk escrow).
  { destruct (select_where_singleton _ _ _ _ Hsel) as (Hrow & Hw & Huniq).
    split; [exact Hrow|]. split; [exact Hw|].
    intros pk' r' Hl' Hw'. destruct (Huniq pk' r' Hl' Hw'). congruence. }
  destruct (decide (EscrowTransaction.status escrow
                    = EscrowStatus.FUNDS_RELEASED)); [discriminate|].
  destruct (decide (EscrowTransaction.status escrow <> EscrowStatus.HELD))
    as [|Hheld]; [discriminate|].
  apply dec_stable in Hheld.
  rewrite bind_execute by reflexivity.
  cbn [rows committed_state dirty_users users_table loop].
  rewrite flush_events_nil.
  destruct (select_pk (users db) (EscrowTransaction.payer_id escrow))
    as [|[payer_pk payer] [|? ?]] eqn:Hpayer;
    cbn [scalar_one_or_none]; rewrite ?bind_mret, ?bind_raise;
    try discriminate.
  destruct (negb (str_truthy (User.escrow_pin_hash payer)));
    [discriminate|].
  unfold _verify_pin.
  destruct (checkpw _ _) as [[|]|]; rewrite ?bind_mret, ?bind_raise;
    cbn [negb]; try discriminate.
  rewrite (step6_bind _ _ _ _) by first [exact (proj1 Hescrow) | reflexivity].
  rewrite bind_execute by reflexivity.
  cbn [rows committed_state dirty_users users_table loop escrow_transactions
       with_escrow_transactions users].
  rewrite (flush_settlement _ _ _ _ _ _ _ Hheld).
  destruct (select_pk (users db) (DealGroup.seller_id deal))
    as [|[producer_pk producer] [|? ?]] eqn:Hproducer;
    cbn [scalar_one_or_none]; rewrite ?bind_mret, ?bind_raise;
    try discriminate.
  apply select_pk_singleton in Hproducer as [Hseller Hproducer].
  rewrite (bind_credit_execute _ producer)
    by first [reflexivity | exact Hproducer].
  cbn [rows set_rows users with_users committed_state dirty_users users_table
       loop escrow_transactions with_escrow_transactions shipments
       deal_groups audit_logs begun].
  rewrite ?flush_events_nil.
  destruct (storable producer_pk _) eqn:Hsp.
  2:{ intros _. exists deal, escrow_pk, escrow, producer_pk. auto. }
  destruct (select_pk _ (DealGroup.driver_id deal))
    as [|[driver_pk driver1] [|? ?]] eqn:Hdriver;
    cbn [scalar_one_or_none]; rewrite ?bind_mret, ?bind_raise;
    try discriminate.
  apply select_pk_singleton in Hdriver as [Hdriver_id Hdriver].
  rewrite (bind_credit_execute _ driver1)
    by first [reflexivity | exact Hdriver].
  cbn [rows set_rows users with_users committed_state dirty_users users_table
       loop escrow_transactions with_escrow_transactions shipments
       deal_groups audit_logs begun].
  rewrite ?flush_events_nil.
  destruct (storable driver_pk _) eqn:Hsd.
  2:{ intros _. exists deal, escrow_pk, escrow, producer_pk.
      split; [exact Hdeal|]. split; [exact Hescrow|].
      split; [exact Hseller|]. right. exists driver_pk. auto. }
  destruct (select_where (shipments db) _) as [|[shipment_pk sh] [|? ?]];
    cbn [scalar_one_or_none]; rewrite ?bind_mret, ?bind_raise;
    discriminate.
Qed.

(** X19. How a release can fail, on a store whose escrow rows carry a
    status and a currency. A call to [release_escrow] that does not return a
    response ends with an [HTTPException] whose status is 400, 403, 404 or
    409, or with one of five unhandled exceptions: [MultipleResultsFound];
    [NoResultFound] and [InvalidRequestError], only for a request with a
    non-empty idempotency key; [ValueError], only when bcrypt rejects a
    stored hash as malformed; [DBAPIError], only for a request without key
    whose deal has its one escrow row and a seller, when the credited
    balance of the seller, or else of the driver, does not fit the
    [Numeric(12, 2)] column. *)
Theorem release_failures checkpw utcnow request db running exc db' running' :
  release_escrow checkpw utcnow request db running
    = (inl exc, db', running') ->
  release_failure checkpw request db exc.
Proof.
  intros Hrelease.
  destruct (str_truthy (EscrowReleaseRequest.idempotency_key request))
    eqn:Hkey.
  - revert Hrelease.
    unfold release_escrow, with_session, idempotency_check.
    rewrite Hkey. unfold mbind at 1. unfold M_bind at 1.
    rewrite bind_execute by reflexivity.
    cbn [rows committed_state loop dirty_users users_table new_session].
    destruct (select_where (escrow_transactions db) _)
      as [|[existing_pk existing] [|? ?]];
      cbn [scalar_one_or_none]; rewrite ?bind_mret, ?bind_raise.
    + unfold session_begin. cbn [begun]. intros H. injection H as <- _ _.
      exact Hkey.
    + destruct (decide _).
      * rewrite bind_execute by reflexivity. cbn [rows].
        destruct (select_pk (deal_groups db) _) as [|deal [|? ?]];
          cbn [scalar_one]; rewrite ?bind_mret, ?bind_raise;
          intros H; try discriminate; injection H as <- _ _;
          [exact Hkey | exact I].
      * intros H. injection H as <- _ _. cbn. set_solver.
    + intros H. injection H as <- _ _. exact I.
  - rewrite (release_enters _ _ _ _ _ Hkey) in Hrelease.
    assert (Hcases : exc = DBAPIError
                     \/ (exc <> DBAPIError
                         /\ settle_failure checkpw request exc)).
    { unfold settlement_outcome in Hrelease.
      destruct (settle checkpw utcnow request (in_transaction db running))
        as [[exc1|r] s1] eqn:Hsettle.
      - injection Hrelease as <- _ _.
        pose proof (settle_raises checkpw utcnow request _ _ _ Hsettle)
          as Hfail.
        destruct exc1; try (left; reflexivity); right;
          (split; [discriminate | exact Hfail]).
      - destruct (flush s1) as [[exc1|[]] s2] eqn:Hflush; [|discriminate].
        injection Hrelease as <- _ _. left.
        apply (flush_inl _ _ _ Hflush). }
    destruct Hcases as [->|[Hne Hfail]].
    + split; [exact Hkey|]. exact (settle_overflow _ _ _ _ _ _ _ Hrelease).
    + destruct exc; try contradiction; exact Hfail.
Qed.

(** ** Who may release *)

Lemma UserRole_value_inj r1 r2 :
  UserRole_value r1 = UserRole_value r2 -> r1 = r2.
Proof. destruct r1, r2; intros H; try reflexivity; discriminate. Qed.

Lemma RoleChecker_retailer user :
  RoleChecker ["retailer"%string] user
  = if decide (CurrentUser.role user = RETAILER) then inr user
    else inl (HTTPException 403
                ("Access denied. This endpoint requires one of these roles: retailer. Your role: "
                 +:+ UserRole_value (CurrentUser.role user) +:+ ".")).
Proof.
  unfold RoleChecker. destruct (CurrentUser.role user); reflexivity.
Qed.

(** X20. Who may release. The release endpoint runs its handler only for a
    user whose role is retailer: a producer, a driver and also an admin are
    refused with 403 and a message naming the required role and theirs, and
    nothing is written. For a retailer the outcome is that of
    [release_escrow] on the request alone: the caller is not compared with
    the payer of the escrow, so any retailer who presents the payer's PIN
    settles a deal that can be settled, and the escrow records its payer,
    not the caller, as the releasing user. *)
Theorem post_release_roles checkpw utcnow user request db running :
  (CurrentUser.role user <> RETAILER ->
   post_release checkpw utcnow user request db running
   = (inl (HTTPException 403
             ("Access denied. This endpoint requires one of these roles: retailer. Your role: "
              +:+ UserRole_value (CurrentUser.role user) +:+ ".")),
      db, running))
  /\ (CurrentUser.role user = RETAILER ->
      post_release checkpw utcnow user request db running
      = release_escrow checkpw utcnow request db running)
  /\ (forall deal escrow_pk escrow payer_pk payer hash producer_pk producer
             driver_pk driver,
        CurrentUser.role user = RETAILER ->
        CurrentUser.id user <> payer_pk ->
        reaches_settlement request ->
        deal_groups db !! EscrowReleaseRequest.deal_id request = Some deal ->
        only_row (escrow_transactions db)
          (of_deal (EscrowReleaseRequest.deal_id request)) escrow_pk escrow ->
        EscrowTransaction.status escrow = EscrowStatus.HELD ->
        EscrowTransaction.payer_id escrow = Some payer_pk ->
        users db !! payer_pk = Some payer ->
        User.escrow_pin_hash payer = Some hash -> hash <> ""%string ->
        checkpw (EscrowReleaseRequest.pin request) hash = Some true ->
        DealGroup.seller_id deal = Some producer_pk ->
        users db !! producer_pk = Some producer ->
        DealGroup.driver_id deal = Some driver_pk ->
        users db !! driver_pk = Some driver ->
        credits_storable (EscrowTransaction.amount escrow) producer_pk
          driver_pk (users db) = true ->
        at_most_one_row (shipments db)
          (shipment_of_deal (EscrowReleaseRequest.deal_id request)) ->
        exists r db' running' escrow',
          post_release checkpw utcnow user request db running
          = (inr r, db', running')
          /\ escrow_transactions db' !! escrow_pk = Some escrow'
          /\ EscrowTransaction.status escrow' = EscrowStatus.FUNDS_RELEASED
          /\ EscrowTransaction.released_by_id escrow' = Some payer_pk).
Proof.
  unfold post_release. rewrite RoleChecker_retailer.
  split; [|split].
  - intros Hrole. destruct (decide _); [contradiction|reflexivity].
  - intros Hrole. destruct (decide _); [reflexivity|contradiction].
  - intros deal escrow_pk escrow payer_pk payer hash producer_pk producer
      driver_pk driver Hrole Hother Hreach Hdeal Hescrow Hheld Hpayer_id
      Hpayer Hhash Hne Hpin Hseller Hproducer Hdriver_id Hdriver Hfit Hship.
    destruct (decide _); [|contradiction].
    rewrite (release_settles_run _ _ _ _ _ deal escrow_pk escrow payer_pk
               payer hash producer_pk producer driver_pk driver)
      by assumption.
    eexists _, _, _, _. split; [reflexivity|].
    unfold settled_db. cbn [escrow_transactions].
    rewrite lookup_insert_eq. split; [reflexivity|].
    split; [apply settled_escrow_status|].
    unfold settled_escrow. destruct (str_truthy _); reflexivity.
Qed.

(** ** The deal listing *)

Lemma float_or_None_None x :
  float_or_None x = None <->
  x = None \/ exists d, x = Some d /\ Decimal.coef d = 0.
Proof.
  unfold float_or_None, Decimal.truthy. destruct x as [d|].
  - destruct (Z.eqb_spec (Decimal.coef d) 0) as [Hz|Hnz]; cbn.
    + split; [eauto|reflexivity].
    + split; [discriminate|]. intros [?|(d' & Hd & Hz)]; [discriminate|].
      injection Hd as <-. contradiction.
  - split; [auto|reflexivity].
Qed.

Lemma comprehension_inr {A B} (f : A -> Exception + B) (g : A -> B)
    (l : list A) s :
  (forall x, x ∈ l -> f x = inr (g x)) ->
  comprehension f l s = (inr (g <$> l), s).
Proof.
  induction l as [|x rest IH]; intros Hall; [reflexivity|].
  cbn [comprehension]. rewrite (Hall x) by apply list_elem_of_here.
  unfold mbind, M_bind. rewrite IH; [reflexivity|].
  intros y Hy. apply Hall, list_elem_of_further, Hy.
Qed.

Lemma comprehension_inl {A B} (f : A -> Exception + B) exc (l : list A) s :
  (forall x e, f x = inl e -> e = exc) ->
  (exists x, x ∈ l /\ f x = inl exc) ->
  comprehension f l s = (inl exc, s).
Proof.
  intros Honly. induction l as [|x rest IH]; intros (y & Hy & Hfy).
  - apply elem_of_nil in Hy. contradiction.
  - cbn [comprehension]. destruct (f x) as [e|b] eqn:Hfx.
    + rewrite (Honly _ _ Hfx). reflexivity.
    + apply elem_of_cons in Hy as [->|Hy]; [congruence|].
      unfold mbind, M_bind. rewrite IH by eauto. reflexivity.
Qed.

(** The item of a deal whose status is set. *)
Lemma deal_item_inr pk deal st :
  DealGroup.status deal = Some st ->
  deal_item pk deal
  = inr {| DealItem.id := str_uuid pk;
           DealItem.deal_number := DealGroup.deal_number deal;
           DealItem.title := DealGroup.title deal;
           DealItem.status := DealStatus.value st;
           DealItem.agreed_price_per_kg :=
             float_or_None (DealGroup.agreed_price_per_kg deal);
           DealItem.agreed_quantity_kg :=
             float_or_None (DealGroup.agreed_quantity_kg deal) |}.
Proof. intros Hst. unfold deal_item. rewrite Hst. reflexivity. Qed.

(** X21. The deal listing. [list_deals] never writes. When the status of
    some deal row is NULL (the column is nullable), [deal.status.value]
    raises and the call ends with the unhandled [AttributeError]. Otherwise
    it returns one item per deal row, carrying the deal's id, number, title
    and status value. A price or quantity is reported as [None] not only
    when the column is empty but also when it holds zero, so that the two
    cannot be told apart in the listing; otherwise it is reported as a
    float. *)
Theorem list_deals_items db running :
  ((exists pk deal,
      deal_groups db !! pk = Some deal /\ DealGroup.status deal = None) ->
   list_deals db running = (inl AttributeError, db, running))
  /\ ((forall pk deal,
         deal_groups db !! pk = Some deal -> DealGroup.status deal <> None) ->
      exists items,
        list_deals db running = (inr items, db, running)
        /\ length items = size (deal_groups db)
        /\ (forall item,
              item ∈ items <->
              exists pk deal st,
                deal_groups db !! pk = Some deal
                /\ DealGroup.status deal = Some st
                /\ item
                   = {| DealItem.id := str_uuid pk;
                        DealItem.deal_number := DealGroup.deal_number deal;
                        DealItem.title := DealGroup.title deal;
                        DealItem.status := DealStatus.value st;
                        DealItem.agreed_price_per_kg :=
                          float_or_None (DealGroup.agreed_price_per_kg deal);
                        DealItem.agreed_quantity_kg :=
                          float_or_None
                            (DealGroup.agreed_quantity_kg deal) |}))
  /\ (forall pk deal,
        deal_groups db !! pk = Some deal ->
        (float_or_None (DealGroup.agreed_price_per_kg deal) = None <->
         DealGroup.agreed_price_per_kg deal = None
         \/ exists d, DealGroup.agreed_price_per_kg deal = Some d
                      /\ Decimal.coef d = 0)
        /\ (forall d, DealGroup.agreed_price_per_kg deal = Some d ->
              Decimal.coef d <> 0 ->
              float_or_None (DealGroup.agreed_price_per_kg deal)
              = Some (Decimal.to_float d))).
Proof.
  split; [|split].
  - intros (pk & deal & Hl & Hst).
    unfold list_deals, with_session.
    rewrite bind_execute by reflexivity.
    cbn [rows committed_state loop dirty_users users_table new_session].
    rewrite flush_events_nil.
    rewrite (comprehension_inl _ AttributeError); [reflexivity| |].
    + intros [pk' deal'] e. unfold deal_item. cbn [fst snd].
      destruct (DealGroup.status deal'); intros H; [discriminate|].
      injection H as <-. reflexivity.
    + exists (pk, deal). split; [apply elem_of_map_to_list, Hl|].
      unfold deal_item. cbn [fst snd]. rewrite Hst. reflexivity.
  - intros Hset.
    pose (item_of := fun kv : uuid * DealGroup.t =>
      {| DealItem.id := str_uuid kv.1;
         DealItem.deal_number := DealGroup.deal_number kv.2;
         DealItem.title := DealGroup.title kv.2;
         DealItem.status :=
           from_option DealStatus.value ""%string (DealGroup.status kv.2);
         DealItem.agreed_price_per_kg :=
           float_or_None (DealGroup.agreed_price_per_kg kv.2);
         DealItem.agreed_quantity_kg :=
           float_or_None (DealGroup.agreed_quantity_kg kv.2) |}).
    exists (item_of <$> map_to_list (deal_groups db)).
    split; [|split].
    + unfold list_deals, with_session.
      rewrite bind_execute by reflexivity.
      cbn [rows committed_state loop dirty_users users_table new_session].
      rewrite flush_events_nil.
      rewrite (comprehension_inr _ item_of); [reflexivity|].
      intros [pk deal] Hin. apply elem_of_map_to_list in Hin.
      cbn [fst snd]. destruct (DealGroup.status deal) as [st|] eqn:Hst.
      * rewrite (deal_item_inr _ _ _ Hst). unfold item_of. cbn [fst snd].
        rewrite Hst. reflexivity.
      * destruct (Hset _ _ Hin Hst).
    + rewrite length_fmap. apply length_map_to_list.
    + intros item. rewrite list_elem_of_fmap. split.
      * intros ([pk deal] & -> & Hin). apply elem_of_map_to_list in Hin.
        destruct (DealGroup.status deal) as [st|] eqn:Hst;
          [|destruct (Hset _ _ Hin Hst)].
        exists pk, deal, st. split; [exact Hin|]. split; [exact Hst|].
        unfold item_of. cbn [fst snd]. rewrite Hst. reflexivity.
      * intros (pk & deal & st & Hl & Hst & ->). exists (pk, deal).
        split; [|apply elem_of_map_to_list; exact Hl].
        unfold item_of. cbn [fst snd]. rewrite Hst. reflexivity.
  - intros pk deal _. split; [apply float_or_None_None|].
    intros d Hd Hnz. rewrite Hd. unfold float_or_None, Decimal.truthy.
    destruct (Z.eqb_spec (Decimal.coef d) 0); [contradiction|reflexivity].
Qed.

(** ** A credit that does not fit the column *)

(** X22. A credited balance that does not fit [Numeric(12, 2)]. When the
    PIN is accepted and the seller's balance plus nine tenths of the amount,
    rounded to the cent, needs more than ten digits before the point, the
    UPDATE of that balance is refused when the session flushes before the
    driver is queried; the same happens to the driver's credit before the
    shipment is queried. The call ends with the unhandled [DBAPIError] and
    every row is rolled back to what it was; the audit task of the escrow
    update has already been handed to the event loop. *)
Theorem release_credit_overflow checkpw utcnow request db running deal
    escrow_pk escrow payer_pk payer hash producer_pk producer :
  reaches_settlement request ->
  deal_groups db !! EscrowReleaseRequest.deal_id request = Some deal ->
  only_row (escrow_transactions db)
    (of_deal (EscrowReleaseRequest.deal_id request)) escrow_pk escrow ->
  EscrowTransaction.status escrow = EscrowStatus.HELD ->
  EscrowTransaction.payer_id escrow = Some payer_pk ->
  users db !! payer_pk = Some payer ->
  User.escrow_pin_hash payer = Some hash -> hash <> ""%string ->
  checkpw (EscrowReleaseRequest.pin request) hash = Some true ->
  DealGroup.seller_id deal = Some producer_pk ->
  users db !! producer_pk = Some producer ->
  (storable producer_pk
     (producer_credited (EscrowTransaction.amount escrow) producer_pk
        (users db)) = false ->
   release_escrow checkpw utcnow request db running
   = (inl DBAPIError, db,
      create_task (settlement_task utcnow request escrow_pk escrow payer_pk)
        running))
  /\ (forall driver_pk driver,
        DealGroup.driver_id deal = Some driver_pk ->
        users db !! driver_pk = Some driver ->
        storable producer_pk
          (producer_credited (EscrowTransaction.amount escrow) producer_pk
             (users db)) = true ->
        storable driver_pk
          (both_credited (EscrowTransaction.amount escrow) producer_pk
             driver_pk (users db)) = false ->
        release_escrow checkpw utcnow request db running
        = (inl DBAPIError, db,
           create_task
             (settlement_task utcnow request escrow_pk escrow payer_pk)
             running)).
Proof.
  intros Hreach Hdeal Hescrow Hheld Hpayer_id Hpayer Hhash Hne Hpin Hseller
    Hproducer.
  split.
  - intros Hsp.
    apply (release_producer_overflow _ _ _ _ _ deal escrow_pk escrow payer_pk
             payer hash producer_pk producer); assumption.
  - intros driver_pk driver Hdriver_id Hdriver Hsp Hsd.
    apply (release_driver_overflow _ _ _ _ _ deal escrow_pk escrow payer_pk
             payer hash producer_pk producer driver_pk driver); assumption.
Qed.

(** * The seeded deal: further worked examples *)

Lemma seeded_only_row st k seller :
  only_row (escrow_transactions (seeded_db st k seller)) (of_deal deal_pk)
    escrow_pk (seeded_escrow st k).
Proof. apply only_row_singleton. reflexivity. Qed.

Lemma seeded_one_shipment st k seller :
  at_most_one_row (shipments (seeded_db st k seller))
    (shipment_of_deal deal_pk).
Proof.
  intros pk1 sh1 pk2 sh2 H1 _ H2 _. cbn in H1, H2.
  apply lookup_singleton_Some in H1 as [<- _].
  apply lookup_singleton_Some in H2 as [<- _]. reflexivity.
Qed.

Lemma keyless_reaches pin : reaches_settlement (release_request pin None).
Proof. reflexivity. Qed.

Lemma release_not_found_witness :
  release_escrow demo_checkpw delivery_time
    {| EscrowReleaseRequest.deal_id := 11%N;
       EscrowReleaseRequest.pin := "1234";
       EscrowReleaseRequest.idempotency_key := None |}
    (seeded_db EscrowStatus.HELD None (Some producer_pk)) (Some [])
  = (inl (HTTPException 404
            "Deal 00000000-0000-0000-0000-00000000000b not found."),
     seeded_db EscrowStatus.HELD None (Some producer_pk), Some []).
Proof.
  apply (proj1 (release_not_found demo_checkpw delivery_time
                  {| EscrowReleaseRequest.deal_id := 11%N;
                     EscrowReleaseRequest.pin := "1234";
                     EscrowReleaseRequest.idempotency_key := None |}
                  (seeded_db EscrowStatus.HELD None (Some producer_pk))
                  (Some []) eq_refl)).
  reflexivity.
Defined.

Lemma release_pin_check_witness :
  release_escrow demo_checkpw delivery_time (release_request "0000" None)
    (seeded_db EscrowStatus.HELD None (Some producer_pk)) (Some [])
  = (inl (HTTPException 403 "Invalid PIN. Authorization denied."),
     seeded_db EscrowStatus.HELD None (Some producer_pk), Some []).
Proof.
  refine (proj1 (proj2 (release_pin_check demo_checkpw delivery_time
                          (release_request "0000" None)
                          (seeded_db EscrowStatus.HELD None (Some producer_pk))
                          (Some []) (seeded_deal (Some producer_pk)) escrow_pk
                          (seeded_escrow EscrowStatus.HELD None) retailer_pk
                          {| User.full_name := "Korzinka";
                             User.balance := Dec 0 (-2);
                             User.escrow_pin_hash := Some "$2b$1234"%string |}
                          eq_refl eq_refl (seeded_only_row _ _ _)
                          eq_refl eq_refl eq_refl)
                   "$2b$1234"%string eq_refl _) eq_refl).
  discriminate.
Defined.

Lemma release_account_missing_witness :
  release_escrow demo_checkpw delivery_time (release_request "1234" None)
    (seeded_db EscrowStatus.HELD None None) (Some [])
  = (inl (HTTPException 404 "Producer (seller) account not found."),
     seeded_db EscrowStatus.HELD None None,
     Some [settlement_task delivery_time (release_request "1234" None)
             escrow_pk (seeded_escrow EscrowStatus.HELD None) retailer_pk]).
Proof.
  refine (proj1 (release_account_missing demo_checkpw delivery_time
                   (release_request "1234" None)
                   (seeded_db EscrowStatus.HELD None None) (Some [])
                   (seeded_deal None) escrow_pk
                   (seeded_escrow EscrowStatus.HELD None) retailer_pk
                   {| User.full_name := "Korzinka";
                      User.balance := Dec 0 (-2);
                      User.escrow_pin_hash := Some "$2b$1234"%string |}
                   "$2b$1234"%string
                   eq_refl eq_refl (seeded_only_row _ _ _)
                   eq_refl eq_refl eq_refl eq_refl _ eq_refl) _).
  - discriminate.
  - intros pk Hpk. discriminate.
Defined.

Lemma release_settles_witness :
  release_escrow demo_checkpw delivery_time (release_request "1234" None)
    (seeded_db EscrowStatus.HELD None (Some producer_pk)) (Some [])
  = (inr (release_response (release_request "1234" None)
            (seeded_deal (Some producer_pk)) escrow_pk
            (seeded_escrow EscrowStatus.HELD None) producer_pk
            {| User.full_name := "Alisher"; User.balance := Dec 10000 (-2);
               User.escrow_pin_hash := None |}
            driver_pk
            {| User.full_name := "Rustam"; User.balance := Dec 0 (-2);
               User.escrow_pin_hash := None |}
            delivery_time),
     settled_db delivery_time (release_request "1234" None) escrow_pk
       (seeded_escrow EscrowStatus.HELD None) retailer_pk producer_pk
       driver_pk (seeded_db EscrowStatus.HELD None (Some producer_pk)),
     Some [settlement_task delivery_time (release_request "1234" None)
             escrow_pk (seeded_escrow EscrowStatus.HELD None) retailer_pk]).
Proof.
  refine (release_settles demo_checkpw delivery_time
            (release_request "1234" None)
            (seeded_db EscrowStatus.HELD None (Some producer_pk)) (Some [])
            (seeded_deal (Some producer_pk)) escrow_pk
            (seeded_escrow EscrowStatus.HELD None) retailer_pk
            {| User.full_name := "Korzinka"; User.balance := Dec 0 (-2);
               User.escrow_pin_hash := Some "$2b$1234"%string |}
            "$2b$1234"%string producer_pk _ driver_pk _
            eq_refl eq_refl (seeded_only_row _ _ _)
            eq_refl eq_refl eq_refl eq_refl _ eq_refl eq_refl eq_refl eq_refl
            eq_refl eq_refl (seeded_one_shipment _ _ _)).
  discriminate.
Defined.

Lemma release_ambiguous_witness :
  release_escrow demo_checkpw delivery_time (release_request "1234" None)
    (with_escrow_transactions
       (insert 21%N (seeded_escrow EscrowStatus.HELD None))
       (seeded_db EscrowStatus.HELD None (Some producer_pk))) (Some [])
  = (inl MultipleResultsFound,
     with_escrow_transactions
       (insert 21%N (seeded_escrow EscrowStatus.HELD None))
       (seeded_db EscrowStatus.HELD None (Some producer_pk)), Some []).
Proof.
  refine (proj1 (release_ambiguous demo_checkpw delivery_time
                   (release_request "1234" None)
                   (with_escrow_transactions
                      (insert 21%N (seeded_escrow EscrowStatus.HELD None))
                      (seeded_db EscrowStatus.HELD None (Some producer_pk)))
                   (Some []) (seeded_deal (Some producer_pk))
                   eq_refl eq_refl)
            escrow_pk (seeded_escrow EscrowStatus.HELD None)
            21%N (seeded_escrow EscrowStatus.HELD None)
            eq_refl eq_refl eq_refl eq_refl _).
  discriminate.
Defined.

Lemma release_settled_only_if_witness :
  exists r db' running' deal escrow_pk escrow payer_pk payer hash,
    release_escrow demo_checkpw delivery_time
      (release_request "1234" None)
      (seeded_db EscrowStatus.HELD None (Some producer_pk)) (Some [])
    = (inr r, db', running')
    /\ deal_groups (seeded_db EscrowStatus.HELD None (Some producer_pk))
       !! deal_pk = Some deal
    /\ EscrowTransaction.status escrow = EscrowStatus.HELD
    /\ EscrowTransaction.payer_id escrow = Some payer_pk
    /\ User.escrow_pin_hash payer = Some hash
    /\ demo_checkpw "1234" hash = Some true
    /\ running'
       = create_task
           (settlement_task delivery_time (release_request "1234" None)
              escrow_pk escrow payer_pk) (Some []).
Proof.
  destruct (release_escrow demo_checkpw delivery_time
              (release_request "1234" None)
              (seeded_db EscrowStatus.HELD None (Some producer_pk)) (Some []))
    as [[[exc|r] db'] running'] eqn:Hrun.
  - vm_compute in Hrun. discriminate.
  - destruct (release_settled_only_if _ _ _ _ _ _ _ _ (keyless_reaches _)
                Hrun)
      as (deal & escrow_pk & escrow & payer_pk & payer & hash & producer_pk
          & producer & driver_pk & driver & Hdeal & _ & Hheld & Hpayer_id & _
          & Hhash & _ & Hpin & _ & _ & _ & _ & _ & _ & _ & _ & Hrunning).
    exists r, db', running', deal, escrow_pk, escrow, payer_pk, payer, hash.
    auto 10.
Defined.

Lemma release_escrow_row_witness :
  exists r db' running',
    release_escrow demo_checkpw delivery_time
      (release_request "1234" None)
      (seeded_db EscrowStatus.HELD None (Some producer_pk)) (Some [])
    = (inr r, db', running')
    /\ escrow_transactions db' !! escrow_pk
       = Some {| EscrowTransaction.deal_group_id := deal_pk;
                 EscrowTransaction.amount := Dec 438000 (-2);
                 EscrowTransaction.currency := "USD";
                 EscrowTransaction.status := EscrowStatus.FUNDS_RELEASED;
                 EscrowTransaction.payer_id := Some retailer_pk;
                 EscrowTransaction.payee_id := Some producer_pk;
                 EscrowTransaction.released_by_id := Some retailer_pk;
                 EscrowTransaction.idempotency_key := None;
                 EscrowTransaction.released_at := Some delivery_time;
                 EscrowTransaction.created_at := seeded_at |}
    /\ deal_groups db'
       = deal_groups (seeded_db EscrowStatus.HELD None (Some producer_pk)).
Proof.
  destruct (release_escrow demo_checkpw delivery_time
              (release_request "1234" None)
              (seeded_db EscrowStatus.HELD None (Some producer_pk)) (Some []))
    as [[[exc|r] db'] running'] eqn:Hrun.
  - vm_compute in Hrun. discriminate.
  - destruct (release_escrow_row _ _ _ _ _ _ _ _ (keyless_reaches _) Hrun)
      as (Hrows & _ & Hdeals & _).
    exists r, db', running'. split; [reflexivity|]. split; [|exact Hdeals].
    exact (Hrows escrow_pk (seeded_escrow EscrowStatus.HELD None) eq_refl).
Defined.

Lemma release_delivers_shipment_witness :
  exists r db' running',
    release_escrow demo_checkpw delivery_time
      (release_request "1234" None)
      (seeded_db EscrowStatus.HELD None (Some producer_pk)) (Some [])
    = (inr r, db', running')
    /\ shipments db' !! shipment_pk
       = Some {| Shipment.deal_group_id := Some deal_pk;
                 Shipment.status := ShipmentStatus.DELIVERED;
                 Shipment.delivered_at := Some delivery_time |}.
Proof.
  destruct (release_escrow demo_checkpw delivery_time
              (release_request "1234" None)
              (seeded_db EscrowStatus.HELD None (Some producer_pk)) (Some []))
    as [[[exc|r] db'] running'] eqn:Hrun.
  - vm_compute in Hrun. discriminate.
  - destruct (release_delivers_shipment _ _ _ _ _ _ _ _ (keyless_reaches _)
                Hrun) as (Hrows & _ & _).
    exists r, db', running'. split; [reflexivity|].
    exact (Hrows shipment_pk
             {| Shipment.deal_group_id := Some deal_pk;
                Shipment.status := ShipmentStatus.IN_TRANSIT;
                Shipment.delivered_at := None |} eq_refl).
Defined.

Lemma release_credits_stored_witness :
  exists r db' running' account',
    release_escrow demo_checkpw delivery_time
      (release_request "1234" None)
      (seeded_db EscrowStatus.HELD None (Some producer_pk)) (Some [])
    = (inr r, db', running')
    /\ users db' !! producer_pk = Some account'
    /\ User.balance account'
       = Decimal.round_cents (Dec (10000 * 100 + 438000 * 90) (-4))
    /\ Decimal.round_cents (Dec (10000 * 100 + 438000 * 90) (-4))
       = Dec (10000 + (438000 * 90 + 50) / 100) (-2).
Proof.
  destruct (release_escrow demo_checkpw delivery_time
              (release_request "1234" None)
              (seeded_db EscrowStatus.HELD None (Some producer_pk)) (Some []))
    as [[[exc|r] db'] running'] eqn:Hrun.
  - vm_compute in Hrun. discriminate.
  - destruct (release_credits_stored _ _ _ _ _ _ _ _
                (seeded_deal (Some producer_pk)) escrow_pk
                (seeded_escrow EscrowStatus.HELD None) producer_pk driver_pk
                (keyless_reaches _) Hrun (seeded_db_numeric _ _ _) eq_refl
                eq_refl eq_refl ltac:(cbn; lia) eq_refl eq_refl)
      as [Hcredits _].
    destruct (Hcredits producer_pk
                {| User.full_name := "Alisher"; User.balance := Dec 10000 (-2);
                   User.escrow_pin_hash := None |} eq_refl)
      as (account' & Hl & _ & _ & Hbalance & Hrounded).
    exists r, db', running', account'. split; [reflexivity|].
    split; [exact Hl|]. split; [exact Hbalance|].
    exact (proj2 (Hrounded ltac:(cbn; lia))).
Defined.

Lemma release_twice_refused_witness :
  exists r db' running',
    release_escrow demo_checkpw delivery_time
      (release_request "1234" None)
      (seeded_db EscrowStatus.HELD None (Some producer_pk)) (Some [])
    = (inr r, db', running')
    /\ release_escrow demo_checkpw later (release_request "0000" None)
         db' running'
       = (inl (HTTPException 409
                 "Funds have already been released for this deal. Double-spending prevented."),
          db', running').
Proof.
  destruct (release_escrow demo_checkpw delivery_time
              (release_request "1234" None)
              (seeded_db EscrowStatus.HELD None (Some producer_pk)) (Some []))
    as [[[exc|r] db'] running'] eqn:Hrun.
  - vm_compute in Hrun. discriminate.
  - exists r, db', running'. split; [reflexivity|].
    exact (release_twice_refused _ _ _ _ _ _ _ _ later
             (release_request "0000" None) running'
             (keyless_reaches _) Hrun eq_refl (keyless_reaches _)).
Defined.

Lemma replay_skips_pin_and_deal_witness :
  release_escrow demo_checkpw later
    {| EscrowReleaseRequest.deal_id := 11%N;
       EscrowReleaseRequest.pin := "0000";
       EscrowReleaseRequest.idempotency_key := Some "k-901"%string |}
    (seeded_db EscrowStatus.FUNDS_RELEASED (Some "k-901"%string)
       (Some producer_pk)) (Some [])
  = release_escrow demo_checkpw later
      (release_request "1234" (Some "k-901"%string))
      (seeded_db EscrowStatus.FUNDS_RELEASED (Some "k-901"%string)
         (Some producer_pk)) (Some []).
Proof.
  refine (proj2 (replay_skips_pin_and_deal demo_checkpw demo_checkpw later
                   (release_request "1234" (Some "k-901"%string))
                   {| EscrowReleaseRequest.deal_id := 11%N;
                      EscrowReleaseRequest.pin := "0000";
                      EscrowReleaseRequest.idempotency_key :=
                        Some "k-901"%string |}
                   (seeded_db EscrowStatus.FUNDS_RELEASED
                      (Some "k-901"%string) (Some producer_pk))
                   (Some []) escrow_pk
                   (seeded_escrow EscrowStatus.FUNDS_RELEASED
                      (Some "k-901"%string))
                   (seeded_deal (Some producer_pk))
                   eq_refl eq_refl _ eq_refl eq_refl)).
  apply only_row_singleton. reflexivity.
Defined.

Lemma idempotency_key_conflicts_witness :
  release_escrow demo_checkpw delivery_time
    (release_request "1234" (Some "k-901"%string))
    (seeded_db EscrowStatus.HELD (Some "k-901"%string) (Some producer_pk))
    (Some [])
  = (inl (HTTPException 409
            "Idempotency key exists but escrow is in 'held' state, not released."),
     seeded_db EscrowStatus.HELD (Some "k-901"%string) (Some producer_pk),
     Some []).
Proof.
  refine (proj1 (proj1 (idempotency_key_conflicts demo_checkpw
                          delivery_time
                          (release_request "1234" (Some "k-901"%string))
                          (seeded_db EscrowStatus.HELD (Some "k-901"%string)
                             (Some producer_pk))
                          (Some []) eq_refl)
                   escrow_pk
                   (seeded_escrow EscrowStatus.HELD (Some "k-901"%string)) _)
            _).
  - apply only_row_singleton. reflexivity.
  - discriminate.
Defined.

Lemma escrow_status_view_witness :
  get_escrow_status deal_pk
    (seeded_db EscrowStatus.HELD None (Some producer_pk)) (Some [])
  = (inr {| EscrowStatusResponse.escrow_id :=
              "00000000-0000-0000-0000-000000000014";
            EscrowStatusResponse.deal_number := 901;
            EscrowStatusResponse.amount := Decimal.to_float (Dec 438000 (-2));
            EscrowStatusResponse.currency := "USD";
            EscrowStatusResponse.status := "held";
            EscrowStatusResponse.payer := Some "Korzinka"%string;
            EscrowStatusResponse.payee := Some "Alisher"%string;
            EscrowStatusResponse.created_at := seeded_at;
            EscrowStatusResponse.released_at := None |},
     seeded_db EscrowStatus.HELD None (Some producer_pk), Some []).
Proof.
  exact (proj2 (proj2 (proj2 (escrow_status_view deal_pk
                                (seeded_db EscrowStatus.HELD None
                                   (Some producer_pk)) (Some []))
                         (seeded_deal (Some producer_pk)) eq_refl))
           escrow_pk (seeded_escrow EscrowStatus.HELD None)
           (seeded_only_row _ _ _)).
Defined.

Lemma escrow_status_after_release_witness :
  exists r db' running' view,
    release_escrow demo_checkpw delivery_time
      (release_request "1234" None)
      (seeded_db EscrowStatus.HELD None (Some producer_pk)) (Some [])
    = (inr r, db', running')
    /\ get_escrow_status deal_pk db' running' = (inr view, db', running')
    /\ EscrowStatusResponse.status view = "funds_released"%string
    /\ EscrowStatusResponse.released_at view = Some delivery_time.
Proof.
  destruct (release_escrow demo_checkpw delivery_time
              (release_request "1234" None)
              (seeded_db EscrowStatus.HELD None (Some producer_pk)) (Some []))
    as [[[exc|r] db'] running'] eqn:Hrun.
  - vm_compute in Hrun. discriminate.
  - destruct (escrow_status_after_release _ _ _ _ _ _ _ _ running'
                (keyless_reaches _) Hrun)
      as (view & Hview & Hstatus & Hat & _).
    exists r, db', running', view. auto.
Defined.

Lemma keyed_release_cannot_begin_witness :
  release_escrow demo_checkpw delivery_time
    (release_request "1234" (Some "k-901"%string))
    (seeded_db EscrowStatus.HELD None (Some producer_pk)) (Some [])
  = (inl InvalidRequestError,
     seeded_db EscrowStatus.HELD None (Some producer_pk), Some []).
Proof.
  apply (keyed_release_cannot_begin demo_checkpw delivery_time
           (release_request "1234" (Some "k-901"%string))
           (seeded_db EscrowStatus.HELD None (Some producer_pk)) (Some [])
           eq_refl).
  intros pk e He. cbn in He.
  apply lookup_singleton_Some in He as [_ <-]. discriminate.
Defined.

Lemma settlement_audit_task_witness :
  task_changes
    (settlement_task delivery_time (release_request "1234" None) escrow_pk
       (seeded_escrow EscrowStatus.HELD None) retailer_pk)
  !! "released_at"%string
  = Some {| old := JNull; new := JString "2026-02-27T05:30:00" |}
  /\ task_changes
       (settlement_task delivery_time (release_request "1234" None) escrow_pk
          (seeded_escrow EscrowStatus.HELD None) retailer_pk)
     !! "amount"%string = None.
Proof.
  destruct (settlement_audit_task delivery_time (release_request "1234" None)
              escrow_pk (seeded_escrow EscrowStatus.HELD None) retailer_pk
              eq_refl)
    as (_ & _ & _ & Hkeys & _ & Hat & _).
  split.
  - apply Hat. discriminate.
  - destruct (task_changes _ !! "amount"%string) as [ch|] eqn:Hch;
      [|reflexivity].
    apply Hkeys in Hch. exfalso.
    repeat (apply elem_of_cons in Hch as [Hch|Hch]; [discriminate|]).
    apply elem_of_nil in Hch. exact Hch.
Defined.


Lemma settlement_audited_once_witness :
  exists r db' running' task,
    release_escrow demo_checkpw delivery_time
      (release_request "1234" None)
      (seeded_db EscrowStatus.HELD None (Some producer_pk)) (Some [])
    = (inr r, db', running')
    /\ running' = Some [task]
    /\ audit_logs (run_tasks [] [task] db') = [entry_of task]
    /\ AuditLog.record_id (entry_of task)
       = "00000000-0000-0000-0000-000000000014"%string.
Proof.
  destruct (release_escrow demo_checkpw delivery_time
              (release_request "1234" None)
              (seeded_db EscrowStatus.HELD None (Some producer_pk)) (Some []))
    as [[[exc|r] db'] running'] eqn:Hrun.
  - vm_compute in Hrun. discriminate.
  - destruct (settlement_audited_once _ _ _ _ _ _ _
                (keyless_reaches _) Hrun)
      as (task & Hrunning & Hlogs & _ & _ & Hid & _).
    exists r, db', running', task. split; [reflexivity|].
    split; [exact Hrunning|]. split; [exact Hlogs|].
    rewrite Hid. vm_compute in Hrun. injection Hrun as <- _ _. reflexivity.
Defined.

Lemma release_failures_witness :
  release_failure demo_checkpw (release_request "1234" None) full_balance_db
    DBAPIError.
Proof.
  apply (release_failures demo_checkpw delivery_time
           (release_request "1234" None) full_balance_db (Some [])
           DBAPIError full_balance_db
           (Some [settlement_task delivery_time (release_request "1234" None)
                    escrow_pk (seeded_escrow EscrowStatus.HELD None)
                    retailer_pk])).
  vm_compute. reflexivity.
Defined.

Lemma post_release_roles_witness :
  post_release demo_checkpw delivery_time
    {| CurrentUser.id := 4%N; CurrentUser.email := "admin@daladan.uz";
       CurrentUser.role := ADMIN |}
    (release_request "1234" None)
    (seeded_db EscrowStatus.HELD None (Some producer_pk)) (Some [])
  = (inl (HTTPException 403
            "Access denied. This endpoint requires one of these roles: retailer. Your role: admin."),
     seeded_db EscrowStatus.HELD None (Some producer_pk), Some []).
Proof.
  apply (proj1 (post_release_roles demo_checkpw delivery_time
                  {| CurrentUser.id := 4%N;
                     CurrentUser.email := "admin@daladan.uz";
                     CurrentUser.role := ADMIN |}
                  (release_request "1234" None)
                  (seeded_db EscrowStatus.HELD None (Some producer_pk))
                  (Some []))).
  discriminate.
Defined.

Lemma list_deals_items_witness :
  list_deals unset_status_db (Some [])
  = (inl AttributeError, unset_status_db, Some [])
  /\ exists items,
       list_deals (seeded_db EscrowStatus.HELD None (Some producer_pk))
         (Some [])
       = (inr items, seeded_db EscrowStatus.HELD None (Some producer_pk),
          Some [])
       /\ length items = 1%nat.
Proof.
  split.
  - apply (proj1 (list_deals_items unset_status_db (Some []))).
    exists 11%N. eexists. split; [reflexivity|reflexivity].
  - destruct (proj1 (proj2 (list_deals_items
                              (seeded_db EscrowStatus.HELD None
                                 (Some producer_pk)) (Some []))))
      as (items & Hrun & Hlen & _).
    + intros pk deal Hl. cbn in Hl.
      apply lookup_singleton_Some in Hl as [_ <-]. discriminate.
    + exists items. split; [exact Hrun|]. rewrite Hlen. reflexivity.
Defined.

Lemma full_balance_only_row :
  only_row (escrow_transactions full_balance_db) (of_deal deal_pk) escrow_pk
    (seeded_escrow EscrowStatus.HELD None).
Proof. apply only_row_singleton. reflexivity. Qed.

Lemma release_credit_overflow_witness :
  release_escrow demo_checkpw delivery_time (release_request "1234" None)
    full_balance_db (Some [])
  = (inl DBAPIError, full_balance_db,
     Some [settlement_task delivery_time (release_request "1234" None)
             escrow_pk (seeded_escrow EscrowStatus.HELD None) retailer_pk]).
Proof.
  refine (proj1 (release_credit_overflow demo_checkpw delivery_time
                   (release_request "1234" None) full_balance_db (Some [])
                   (seeded_deal (Some producer_pk)) escrow_pk
                   (seeded_escrow EscrowStatus.HELD None) retailer_pk
                   {| User.full_name := "Korzinka"; User.balance := Dec 0 (-2);
                      User.escrow_pin_hash := Some "$2b$1234"%string |}
                   "$2b$1234"%string producer_pk
                   {| User.full_name := "Alisher";
                      User.balance := Dec 999999999999 (-2);
                      User.escrow_pin_hash := None |}
                   eq_refl eq_refl full_balance_only_row eq_refl eq_refl
                   eq_refl eq_refl _ eq_refl eq_refl eq_refl) eq_refl).
  discriminate.
Defined.
